(** * Intigriti Researcher API MCP server: a shallow embedding of [server.py]

    The development follows the source file top to bottom: the Python values
    that travel through the adapter, the text operations the code applies to
    them, the [json] and [urllib.parse] functions it calls, the [httpx] objects
    it reads, and then the API client class and the MCP handlers themselves.
    Python [str] is embedded as [string] holding the UTF-8 encoding of the
    text; every text operation the server performs acts on ASCII characters
    only, so it is the same operation on the encoded form. *)

From Stdlib Require Import ZArith List String Ascii Bool Lia.
From Stdlib Require Import DecimalString DecimalZ DecimalFacts.
Import ListNotations.

Local Open Scope Z_scope.
Local Open Scope string_scope.

(** ** Text operations of Python [str] *)

Module Str.

Definition eqc (a b : ascii) : bool := Ascii.eqb a b.

(** [c in s] for a single character. *)
Fixpoint mem (c : ascii) (s : string) : bool :=
  match s with
  | EmptyString => false
  | String a s' => eqc a c || mem c s'
  end.

(** [s.lstrip(c)] for a one-character strip set. *)
Fixpoint lstrip (c : ascii) (s : string) : string :=
  match s with
  | String a s' => if eqc a c then lstrip c s' else s
  | EmptyString => EmptyString
  end.

(** [s.rstrip(c)] for a one-character strip set. *)
Fixpoint rstrip (c : ascii) (s : string) : string :=
  match s with
  | EmptyString => EmptyString
  | String a s' =>
      match rstrip c s' with
      | EmptyString => if eqc a c then EmptyString else String a EmptyString
      | r => String a r
      end
  end.

(** [s.lstrip(chars)] where the strip set is given by a predicate. *)
Fixpoint lstrip_if (p : ascii -> bool) (s : string) : string :=
  match s with
  | String a s' => if p a then lstrip_if p s' else s
  | EmptyString => EmptyString
  end.

(** [s.replace(c, "")]. *)
Fixpoint remove (p : ascii -> bool) (s : string) : string :=
  match s with
  | EmptyString => EmptyString
  | String a s' => if p a then remove p s' else String a (remove p s')
  end.

(** [s.split(c)]: never empty, [''] for the empty string. *)
Fixpoint split (c : ascii) (s : string) : list string :=
  match s with
  | EmptyString => [EmptyString]
  | String a s' =>
      if eqc a c then EmptyString :: split c s'
      else match split c s' with
           | w :: ws => String a w :: ws
           | [] => [String a EmptyString]
           end
  end.

(** [sep.join(parts)]. *)
Fixpoint join (sep : string) (parts : list string) : string :=
  match parts with
  | [] => EmptyString
  | [p] => p
  | p :: ps => p ++ sep ++ join sep ps
  end.

(** [s.split(c, 1)] when [c] occurs in [s]: the text before the first [c] and
    the text after it. *)
Fixpoint cut (c : ascii) (s : string) : option (string * string) :=
  match s with
  | EmptyString => None
  | String a s' =>
      if eqc a c then Some (EmptyString, s')
      else match cut c s' with
           | Some (l, r) => Some (String a l, r)
           | None => None
           end
  end.

(** The longest prefix whose characters all fail [stop], and what follows:
    slicing at the first delimiter. *)
Fixpoint break (stop : ascii -> bool) (s : string) : string * string :=
  match s with
  | EmptyString => (EmptyString, EmptyString)
  | String a s' =>
      if stop a then (EmptyString, s)
      else let (l, r) := break stop s' in (String a l, r)
  end.

Fixpoint forallb (p : ascii -> bool) (s : string) : bool :=
  match s with
  | EmptyString => true
  | String a s' => p a && forallb p s'
  end.

Definition is_upper (a : ascii) : bool :=
  let n := nat_of_ascii a in (65 <=? n)%nat && (n <=? 90)%nat.
Definition is_lower (a : ascii) : bool :=
  let n := nat_of_ascii a in (97 <=? n)%nat && (n <=? 122)%nat.
Definition is_digit (a : ascii) : bool :=
  let n := nat_of_ascii a in (48 <=? n)%nat && (n <=? 57)%nat.
Definition is_alpha (a : ascii) : bool := is_upper a || is_lower a.

Definition lower_char (a : ascii) : ascii :=
  if is_upper a then ascii_of_nat (nat_of_ascii a + 32) else a.

(** [s.lower()] on ASCII letters. *)
Fixpoint lower (s : string) : string :=
  match s with
  | EmptyString => EmptyString
  | String a s' => String (lower_char a) (lower s')
  end.

(** [s[:n]] and [s[n:]]. *)
Fixpoint take (n : nat) (s : string) : string :=
  match n, s with
  | S n', String a s' => String a (take n' s')
  | _, _ => EmptyString
  end.

Fixpoint drop (n : nat) (s : string) : string :=
  match n, s with
  | S n', String _ s' => drop n' s'
  | _, _ => s
  end.

(** [s.startswith(p)] and [sub in s], computed. *)
Fixpoint startswith (p s : string) : bool :=
  match p, s with
  | EmptyString, _ => true
  | String a p', String b s' => eqc a b && startswith p' s'
  | String _ _, EmptyString => false
  end.

Fixpoint contains (sub s : string) : bool :=
  startswith sub s
  || match s with
     | String _ s' => contains sub s'
     | EmptyString => false
     end.

(** [sub in s], as a proposition: [s] is [pre + sub + post]. *)
Definition Contains (s sub : string) : Prop :=
  exists pre post, s = pre ++ sub ++ post.

(** [s.startswith(p)], as a proposition. *)
Definition StartsWith (s p : string) : Prop :=
  exists post, s = p ++ post.

(** [str(n)] for an [int]: decimal digits, a leading minus sign when
    negative. *)
Definition of_Z (n : Z) : string := NilZero.string_of_int (Z.to_int n).

End Str.

(** ** Python values

    The objects that flow through the adapter are the ones [response.json()]
    and the MCP host produce: [None], [bool], [int], [float], [str], [list]
    and [dict] with [str] keys.  A [dict] keeps its items in insertion order,
    so it is an association list, without repeated keys.  A [float] is held as
    its [repr] (["1.5"], ["1e-07"], ["inf"], ["nan"]): [float(repr(x)) == x] is
    the interpreter's guarantee, and the text is all the server ever shows of
    a float. *)

#[local] Unset Elimination Schemes.

Inductive value : Type :=
| VNone
| VBool (b : bool)
| VInt (n : Z)
| VFloat (repr : string)
| VStr (s : string)
| VList (xs : list value)
| VDict (items : list (string * value)).

#[local] Set Elimination Schemes.

Definition dict : Type := list (string * value).

(** [type(v).__name__]. *)
Definition type_name (v : value) : string :=
  match v with
  | VNone => "NoneType"
  | VBool _ => "bool"
  | VInt _ => "int"
  | VFloat _ => "float"
  | VStr _ => "str"
  | VList _ => "list"
  | VDict _ => "dict"
  end.

(** [d.get(k)], [None] standing for a missing key. *)
Fixpoint dict_lookup (k : string) (d : dict) : option value :=
  match d with
  | [] => None
  | (k', v) :: d' => if String.eqb k' k then Some v else dict_lookup k d'
  end.

(** [d[k] = v]: an existing key keeps its place, a new key goes last. *)
Fixpoint dict_set (k : string) (v : value) (d : dict) : dict :=
  match d with
  | [] => [(k, v)]
  | (k', v') :: d' =>
      if String.eqb k' k then (k', v) :: d' else (k', v') :: dict_set k v d'
  end.

(** [dict(pairs)]. *)
Definition dict_of_pairs (pairs : list (string * value)) : dict :=
  fold_left (fun d kv => dict_set (fst kv) (snd kv) d) pairs [].

(** ** The [json] module: number syntax *)

Module Json.

Import Str.

(** A maximal run of decimal digits. *)
Definition digits (s : string) : string * string :=
  break (fun a => negb (is_digit a)) s.

(** The integer part of [NUMBER_RE] after its optional minus sign: a lone
    zero, or a digit run that starts with a nonzero digit. *)
Definition scan_unsigned (sign body : string) : option (string * string) :=
  match body with
  | String a s' =>
      if eqc a "0" then Some (sign ++ "0", s')
      else if is_digit a then
        let (ds, rest) := digits body in Some (sign ++ ds, rest)
      else None
  | EmptyString => None
  end.

Definition scan_integer (s : string) : option (string * string) :=
  match s with
  | String a s' => if eqc a "-" then scan_unsigned "-" s' else scan_unsigned "" s
  | EmptyString => None
  end.

(** The optional fraction, a dot and at least one digit: empty when it does
    not match. *)
Definition scan_frac (s : string) : string * string :=
  match s with
  | String a s' =>
      if eqc a "." then
        match digits s' with
        | (EmptyString, _) => (EmptyString, s)
        | (ds, rest) => (String a ds, rest)
        end
      else (EmptyString, s)
  | EmptyString => (EmptyString, s)
  end.

(** The optional exponent: e or E, an optional sign, at least one digit. *)
Definition scan_exp (s : string) : string * string :=
  match s with
  | String a s' =>
      if eqc a "e" || eqc a "E" then
        let (sign, body) :=
          match s' with
          | String b s'' =>
              if eqc b "-" || eqc b "+" then (String b EmptyString, s'')
              else (EmptyString, s')
          | EmptyString => (EmptyString, s')
          end in
        match digits body with
        | (EmptyString, _) => (EmptyString, s)
        | (ds, rest) => (String a (sign ++ ds), rest)
        end
      else (EmptyString, s)
  | EmptyString => (EmptyString, s)
  end.

(** [NUMBER_RE.match]: the three groups and the unread text. *)
Definition match_number (s : string)
  : option (string * string * string * string) :=
  match scan_integer s with
  | None => None
  | Some (integer, r1) =>
      let (frac, r2) := scan_frac r1 in
      let (exp, r3) := scan_exp r2 in
      Some (integer, frac, exp, r3)
  end.

(** [int(text)] on an optionally signed run of digits. *)
Definition int_of_text (s : string) : option Z :=
  option_map Z.of_int (NilZero.int_of_string s).

(** The text is the [repr] of a finite float: a JSON number with a fraction
    or an exponent. *)
Definition finite_repr (r : string) : bool :=
  match match_number r with
  | Some (_, frac, exp, EmptyString) =>
      negb (String.eqb frac "" && String.eqb exp "")
  | _ => false
  end.

(** The values JSON can represent: floats are finite, and the keys of a
    dictionary are distinct, which every Python [dict] guarantees. *)
#[local] Unset Elimination Schemes.

Inductive representable : value -> Prop :=
| rep_none : representable VNone
| rep_bool b : representable (VBool b)
| rep_int n : representable (VInt n)
| rep_float r : finite_repr r = true -> representable (VFloat r)
| rep_str s : representable (VStr s)
| rep_list xs : Forall representable xs -> representable (VList xs)
| rep_dict items :
    NoDup (map fst items) ->
    Forall (fun kv => representable (snd kv)) items ->
    representable (VDict items).

#[local] Set Elimination Schemes.

(** [k < x] for an [int] [k] and the float whose [repr] is [r], decided on
    the decimal text: rounding to the nearest double is monotone, so for [k]
    exactly representable the comparison of the text and of the double
    agree. *)
Definition digits_value (s : string) : Z :=
  match NilZero.uint_of_string s with
  | Some u => Z.of_uint u
  | None => 0
  end.

Definition int_lt_float (k : Z) (r : string) : bool :=
  if String.eqb r "inf" then true
  else match match_number r with
       | Some (integer, frac, exp, EmptyString) =>
           let neg := match integer with
                      | String a _ => eqc a "-"
                      | EmptyString => false
                      end in
           let ipart := if neg then drop 1 integer else integer in
           let fpart := drop 1 frac in
           let m := digits_value (ipart ++ fpart) in
           let e := match int_of_text (lstrip "+" (drop 1 exp)) with
                    | Some z => z
                    | None => 0
                    end - Z.of_nat (String.length fpart) in
           let sm := if neg then - m else m in
           if (0 <=? e)%Z then (k <? sm * 10 ^ e)%Z else (k * 10 ^ (- e) <? sm)%Z
       | _ => false
       end.

(** ** The [json] module: the encoder

    [json.dumps(o, indent=2, ensure_ascii=False)], following
    [json.encoder]: [encode_basestring] for text and [_make_iterencode] with
    [_indent] two spaces, item separator [","] and key separator [": "]. *)

Definition dquote : ascii := "034".
Definition backslash : ascii := "092".
Definition newline : ascii := "010".

Definition hex_digit (n : nat) : ascii :=
  if (n <? 10)%nat then ascii_of_nat (48 + n) else ascii_of_nat (87 + n).

(** [ESCAPE_DCT]: the replacement of one character matched by [ESCAPE]. *)
Definition escape_char (a : ascii) : string :=
  let n := nat_of_ascii a in
  if eqc a backslash then String backslash (String backslash "")
  else if eqc a dquote then String backslash (String dquote "")
  else if eqc a "008" then String backslash "b"
  else if eqc a "012" then String backslash "f"
  else if eqc a "010" then String backslash "n"
  else if eqc a "013" then String backslash "r"
  else if eqc a "009" then String backslash "t"
  else if (n <? 32)%nat then
    String backslash
      (String "u" (String "0" (String "0"
         (String (hex_digit (n / 16)) (String (hex_digit (n mod 16)) "")))))
  else String a "".

Fixpoint escape (s : string) : string :=
  match s with
  | EmptyString => EmptyString
  | String a s' => escape_char a ++ escape s'
  end.

Definition encode_basestring (s : string) : string :=
  String dquote (escape s ++ String dquote "").

(** [floatstr] with [allow_nan] left at its default. *)
Definition floatstr (r : string) : string :=
  if String.eqb r "nan" then "NaN"
  else if String.eqb r "inf" then "Infinity"
  else if String.eqb r "-inf" then "-Infinity"
  else r.

Fixpoint spaces (n : nat) : string :=
  match n with
  | O => EmptyString
  | S n' => String " " (spaces n')
  end.

(** ['\n' + _indent * level]. *)
Definition newline_indent (level : nat) : string :=
  String newline (spaces (2 * level)).

Fixpoint iterencode (level : nat) (o : value) : string :=
  match o with
  | VStr s => encode_basestring s
  | VNone => "null"
  | VBool true => "true"
  | VBool false => "false"
  | VInt n => of_Z n
  | VFloat r => floatstr r
  | VList [] => "[]"
  | VList xs =>
      "[" ++ newline_indent (S level)
      ++ join ("," ++ newline_indent (S level))
           (map (iterencode (S level)) xs)
      ++ newline_indent level ++ "]"
  | VDict [] => "{}"
  | VDict items =>
      "{" ++ newline_indent (S level)
      ++ join ("," ++ newline_indent (S level))
           (map (fun kv => encode_basestring (fst kv) ++ ": "
                           ++ iterencode (S level) (snd kv)) items)
      ++ newline_indent level ++ "}"
  end.

Definition dumps (o : value) : string := iterencode 0 o.

(** ** The [json] module: the decoder

    [json.loads], following [json.decoder] and [json.scanner]; a position in
    the document is the text that is still unread, and a failed parse
    ([JSONDecodeError]) is [None].  The limits of the interpreter (recursion
    depth, the digit limit of [int]) are outside the model, for the decoder
    and for the encoder. *)

Definition is_ws (a : ascii) : bool :=
  eqc a " " || eqc a "009" || eqc a "010" || eqc a "013".

(** [WHITESPACE.match(s, end).end()]. *)
Definition skip_ws (s : string) : string := lstrip_if is_ws s.

Definition hexval (a : ascii) : option N :=
  let n := N_of_ascii a in
  if is_digit a then Some (n - 48)%N
  else if ((97 <=? n) && (n <=? 102))%N then Some (n - 87)%N
  else if ((65 <=? n) && (n <=? 70))%N then Some (n - 55)%N
  else None.

(** [_decode_uXXXX] on the four characters after the [u]. *)
Definition decode_uXXXX (a b c d : ascii) : option N :=
  match hexval a, hexval b, hexval c, hexval d with
  | Some x, Some y, Some z, Some w => Some (((x * 16 + y) * 16 + z) * 16 + w)%N
  | _, _, _, _ => None
  end.

(** [chr(n)] in the UTF-8 form of the text; a lone surrogate takes the
    three-byte form. *)
Definition chr (n : N) : string :=
  let b (k : N) := ascii_of_N k in
  let cont (k : N) := b (128 + k mod 64)%N in
  if (n <? 128)%N then String (b n) ""
  else if (n <? 2048)%N then String (b (192 + n / 64)%N) (String (cont n) "")
  else if (n <? 65536)%N then
    String (b (224 + n / 4096)%N)
      (String (cont (n / 64)%N) (String (cont n) ""))
  else
    String (b (240 + n / 262144)%N)
      (String (cont (n / 4096)%N)
         (String (cont (n / 64)%N) (String (cont n) ""))).

(** [BACKSLASH]: the character a one-letter escape stands for. *)
Definition unescape (e : ascii) : option ascii :=
  if eqc e dquote then Some dquote
  else if eqc e backslash then Some backslash
  else if eqc e "/" then Some "/"%char
  else if eqc e "b" then Some "008"%char
  else if eqc e "f" then Some "012"%char
  else if eqc e "n" then Some "010"%char
  else if eqc e "r" then Some "013"%char
  else if eqc e "t" then Some "009"%char
  else None.

Definition prepend (chunk : string) (r : option (string * string))
  : option (string * string) :=
  match r with
  | Some (body, rest) => Some (chunk ++ body, rest)
  | None => None
  end.

Definition is_high_surrogate (n : N) : bool :=
  ((55296 <=? n) && (n <=? 56319))%N.
Definition is_low_surrogate (n : N) : bool :=
  ((56320 <=? n) && (n <=? 57343))%N.

(** [py_scanstring] in strict mode, entered after the opening quote: the
    decoded text and what follows the closing quote. *)
Fixpoint scanstring (s : string) : option (string * string) :=
  match s with
  | EmptyString => None
  | String c s1 =>
      if eqc c dquote then Some (EmptyString, s1)
      else if eqc c backslash then
        match s1 with
        | EmptyString => None
        | String e s2 =>
            if eqc e "u" then
              match s2 with
              | String h1 (String h2 (String h3 (String h4 s6))) =>
                  match decode_uXXXX h1 h2 h3 h4 with
                  | None => None
                  | Some uni =>
                      match s6 with
                      | String b1 (String b2 s8) =>
                          if is_high_surrogate uni && eqc b1 backslash
                             && eqc b2 "u" then
                            match s8 with
                            | String g1 (String g2 (String g3 (String g4 s12))) =>
                                match decode_uXXXX g1 g2 g3 g4 with
                                | None => None
                                | Some uni2 =>
                                    if is_low_surrogate uni2 then
                                      prepend
                                        (chr (65536 + ((uni - 55296) * 1024
                                                       + (uni2 - 56320)))%N)
                                        (scanstring s12)
                                    else prepend (chr uni) (scanstring s6)
                                end
                            | _ => None
                            end
                          else prepend (chr uni) (scanstring s6)
                      | _ => prepend (chr uni) (scanstring s6)
                      end
                  end
              | _ => None
              end
            else
              match unescape e with
              | Some ch => prepend (String ch "") (scanstring s2)
              | None => None
              end
        end
      else if (nat_of_ascii c <? 32)%nat then None
      else prepend (String c "") (scanstring s1)
  end.

(** The literal [lit] at the head of [s], and what follows it. *)
Fixpoint strip_prefix (lit s : string) : option string :=
  match lit, s with
  | EmptyString, _ => Some s
  | String a lit', String b s' => if eqc a b then strip_prefix lit' s' else None
  | String _ _, EmptyString => None
  end.

(** The number and constant branches of [_scan_once]. *)
Definition scan_number (s : string) : option (value * string) :=
  match match_number s with
  | Some (integer, frac, exp, rest) =>
      if String.eqb frac "" && String.eqb exp "" then
        match int_of_text integer with
        | Some n => Some (VInt n, rest)
        | None => None
        end
      else Some (VFloat (integer ++ frac ++ exp), rest)
  | None =>
      match strip_prefix "NaN" s, strip_prefix "Infinity" s,
            strip_prefix "-Infinity" s with
      | Some rest, _, _ => Some (VFloat "nan", rest)
      | _, Some rest, _ => Some (VFloat "inf", rest)
      | _, _, Some rest => Some (VFloat "-inf", rest)
      | _, _, _ => None
      end
  end.

(** [_scan_once], [JSONObject] and [JSONArray].  The two loops are
    [object_items] (entered at a key, after its opening quote) and
    [array_items] (entered at an element); [fuel] bounds the Python call
    depth and the loop iterations together. *)
Fixpoint scan_once (fuel : nat) (s : string) : option (value * string) :=
  match fuel with
  | O => None
  | S fuel' =>
      match s with
      | EmptyString => None
      | String c s' =>
          if eqc c dquote then
            match scanstring s' with
            | Some (text, rest) => Some (VStr text, rest)
            | None => None
            end
          else if eqc c "{" then
            match skip_ws s' with
            | String d r =>
                if eqc d "}" then Some (VDict [], r)
                else if eqc d dquote then
                  match object_items fuel' r [] with
                  | Some (pairs, rest) => Some (VDict (dict_of_pairs pairs), rest)
                  | None => None
                  end
                else None
            | EmptyString => None
            end
          else if eqc c "[" then
            match skip_ws s' with
            | String d r =>
                if eqc d "]" then Some (VList [], r)
                else
                  match array_items fuel' (String d r) [] with
                  | Some (values, rest) => Some (VList values, rest)
                  | None => None
                  end
            | EmptyString => None
            end
          else
            match strip_prefix "null" s, strip_prefix "true" s,
                  strip_prefix "false" s with
            | Some rest, _, _ => Some (VNone, rest)
            | _, Some rest, _ => Some (VBool true, rest)
            | _, _, Some rest => Some (VBool false, rest)
            | _, _, _ => scan_number s
            end
      end
  end

with object_items (fuel : nat) (s : string) (pairs : list (string * value))
  : option (list (string * value) * string) :=
  match fuel with
  | O => None
  | S fuel' =>
      match scanstring s with
      | None => None
      | Some (key, r1) =>
          match skip_ws r1 with
          | String c r2 =>
              if eqc c ":" then
                match scan_once fuel' (skip_ws r2) with
                | None => None
                | Some (v, r3) =>
                    let pairs' := (pairs ++ [(key, v)])%list in
                    match skip_ws r3 with
                    | String d r4 =>
                        if eqc d "}" then Some (pairs', r4)
                        else if eqc d "," then
                          match skip_ws r4 with
                          | String q r5 =>
                              if eqc q dquote then object_items fuel' r5 pairs'
                              else None
                          | EmptyString => None
                          end
                        else None
                    | EmptyString => None
                    end
                end
              else None
          | EmptyString => None
          end
      end
  end

with array_items (fuel : nat) (s : string) (values : list value)
  : option (list value * string) :=
  match fuel with
  | O => None
  | S fuel' =>
      match scan_once fuel' s with
      | None => None
      | Some (v, r1) =>
          let values' := (values ++ [v])%list in
          match skip_ws r1 with
          | String d r2 =>
              if eqc d "]" then Some (values', r2)
              else if eqc d "," then array_items fuel' (skip_ws r2) values'
              else None
          | EmptyString => None
          end
      end
  end.

(** [json.loads(s)]: no byte-order mark, one value, nothing but blanks after
    it.  The recursion allowance is the length of the document, which no
    parse can use up: every call and every iteration reads a character. *)
Definition loads (s : string) : option value :=
  match strip_prefix (String "239" (String "187" (String "191" ""))) s with
  | Some _ => None
  | None =>
      match scan_once (S (String.length s)) (skip_ws s) with
      | Some (v, rest) =>
          match skip_ws rest with
          | EmptyString => Some v
          | String _ _ => None
          end
      | None => None
      end
  end.

(** ** The [json] module: notions used to relate the decoder to the encoder *)

(** What may follow a number without being read as part of it. *)
Definition number_char (a : ascii) : bool :=
  is_digit a || eqc a "." || eqc a "e" || eqc a "E" || eqc a "+" || eqc a "-".

Definition stops (rest : string) : bool :=
  match rest with
  | EmptyString => true
  | String a _ => negb (number_char a)
  end.

(** The first character of a number. *)
Definition number_head (a : ascii) : bool := is_digit a || eqc a "-".

(** Induction on a value, with the property at hand for every element of a
    list and every item of a dictionary. *)
Definition value_induction (P : value -> Prop)
  (Hnone : P VNone) (Hbool : forall b, P (VBool b))
  (Hint : forall n, P (VInt n)) (Hfloat : forall r, P (VFloat r))
  (Hstr : forall s, P (VStr s))
  (Hlist : forall xs, Forall P xs -> P (VList xs))
  (Hdict : forall items, Forall (fun kv => P (snd kv)) items ->
                         P (VDict items)) :
  forall v, P v :=
  fix go (v : value) : P v :=
    match v with
    | VNone => Hnone
    | VBool b => Hbool b
    | VInt n => Hint n
    | VFloat r => Hfloat r
    | VStr s => Hstr s
    | VList xs =>
        Hlist xs
          ((fix all (l : list value) : Forall P l :=
              match l with
              | [] => Forall_nil P
              | x :: l' => Forall_cons x (go x) (all l')
              end) xs)
    | VDict items =>
        Hdict items
          ((fix all (l : list (string * value))
              : Forall (fun kv => P (snd kv)) l :=
              match l with
              | [] => Forall_nil _
              | kv :: l' => Forall_cons kv (go (snd kv)) (all l')
              end) items)
    end.

(** The first character of an encoded value: not a blank, not a closing
    bracket, not the first byte of a byte-order mark. *)
Definition value_head (a : ascii) : bool :=
  negb (is_ws a) && negb (eqc a "]") && negb (eqc "239" a).

(** The text of one dictionary item. *)
Definition item_text (level : nat) (kv : string * value) : string :=
  encode_basestring (fst kv) ++ ": " ++ iterencode level (snd kv).

(** The decoder reads back the encoding of [v] at any indentation level,
    whatever follows it, given an allowance of at least its length. *)
Definition parses (v : value) : Prop :=
  forall level rest fuel,
    stops rest = true ->
    (String.length (iterencode level v) <= fuel)%nat ->
    scan_once fuel (iterencode level v ++ rest) = Some (v, rest).

End Json.

(** ** [urllib.parse]: [urlsplit], [urlparse], [urlunparse], [urljoin]

    The functions are those of CPython 3.12 on [str] arguments, with the
    [ValueError] that [urlsplit] raises for a network location: a bracket
    without its partner is decided here; the validation of a bracketed host
    and the normalisation behind [_checknetloc] are taken from the
    interpreter (see [Interpreter]). *)

Module Url.

Import Str.

Definition uses_relative : list string :=
  [""; "ftp"; "http"; "gopher"; "nntp"; "imap"; "wais"; "file"; "https";
   "shttp"; "mms"; "prospero"; "rtsp"; "rtsps"; "rtspu"; "sftp"; "svn";
   "svn+ssh"; "ws"; "wss"].

Definition uses_netloc : list string :=
  [""; "ftp"; "http"; "gopher"; "nntp"; "telnet"; "imap"; "wais"; "file";
   "mms"; "https"; "shttp"; "snews"; "prospero"; "rtsp"; "rtsps"; "rtspu";
   "rsync"; "svn"; "svn+ssh"; "sftp"; "nfs"; "git"; "git+ssh"; "ws"; "wss";
   "itms-services"].

Definition uses_params : list string :=
  [""; "ftp"; "hdl"; "prospero"; "http"; "imap"; "https"; "shttp"; "rtsp";
   "rtsps"; "rtspu"; "sip"; "sips"; "mms"; "sftp"; "tel"].

Definition among (s : string) (l : list string) : bool :=
  existsb (String.eqb s) l.

Definition is_scheme_char (a : ascii) : bool :=
  is_alpha a || is_digit a || eqc a "+" || eqc a "-" || eqc a ".".

(** [_WHATWG_C0_CONTROL_OR_SPACE] and [_UNSAFE_URL_BYTES_TO_REMOVE]. *)
Definition is_c0_or_space (a : ascii) : bool := (nat_of_ascii a <=? 32)%nat.
Definition is_unsafe (a : ascii) : bool :=
  eqc a "009" || eqc a "013" || eqc a "010".

Fixpoint rstrip_if (p : ascii -> bool) (s : string) : string :=
  match s with
  | EmptyString => EmptyString
  | String a s' =>
      match rstrip_if p s' with
      | EmptyString => if p a then EmptyString else String a EmptyString
      | r => String a r
      end
  end.

(** The text before and after the last occurrence of [c]. *)
Fixpoint rcut (c : ascii) (s : string) : option (string * string) :=
  match s with
  | EmptyString => None
  | String a s' =>
      match rcut c s' with
      | Some (l, r) => Some (String a l, r)
      | None => if eqc a c then Some (EmptyString, s') else None
      end
  end.

Record SplitResult : Type := mkSplit {
  scheme : string;
  netloc : string;
  path : string;
  query : string;
  fragment : string
}.

Record ParseResult : Type := mkParse {
  p_scheme : string;
  p_netloc : string;
  p_path : string;
  p_params : string;
  p_query : string;
  p_fragment : string
}.

Definition is_netloc_delim (a : ascii) : bool :=
  eqc a "/" || eqc a "?" || eqc a "#".

Definition nonempty (s : string) : bool :=
  match s with EmptyString => false | String _ _ => true end.

Definition is_ascii (a : ascii) : bool := (nat_of_ascii a <? 128)%nat.

(** What [urlsplit] takes from the interpreter and not from its own text:
    the validation of a network location that holds a pair of brackets
    ([_check_bracketed_netloc], which reads the host with the [ipaddress]
    module and whose rules have changed between releases), given as the
    message of the [ValueError] it raises, if any; and
    [unicodedata.normalize('NFKC', s)], which is decided by the Unicode
    database. *)
Record Interpreter : Type := mkInterpreter {
  check_bracketed_netloc : string -> option string;
  nfkc : string -> string
}.

Section Parsing.

Variable py : Interpreter.

(** The checks [urlsplit] makes inside its branch for [//]: a bracket
    without its partner is a [ValueError], a pair of brackets goes to the
    validation of the interpreter.  The answer is the message of the
    [ValueError]. *)
Definition check_brackets (loc : string) : option string :=
  if (mem "[" loc && negb (mem "]" loc)) || (mem "]" loc && negb (mem "[" loc))
  then Some "Invalid IPv6 URL"
  else if mem "[" loc && mem "]" loc then check_bracketed_netloc py loc
  else None.

(** [_checknetloc]: a network location that is not ASCII must not gain one
    of the delimiters under NFKC normalisation. *)
Definition checknetloc (loc : string) : option string :=
  if negb (nonempty loc) || forallb is_ascii loc then None
  else
    let n :=
      remove (fun a => eqc a "@" || eqc a ":" || eqc a "#" || eqc a "?") loc in
    let loc2 := nfkc py n in
    if String.eqb n loc2 then None
    else if mem "/" loc2 || mem "?" loc2 || mem "#" loc2 || mem "@" loc2
            || mem ":" loc2
    then Some ("netloc '" ++ loc
               ++ "' contains invalid characters under NFKC normalization")
    else None.

(** [urlsplit]: the parts of the URL, or the message of the [ValueError] it
    raises. *)
Definition urlsplit (url default_scheme : string) : string + SplitResult :=
  let url := remove is_unsafe (lstrip_if is_c0_or_space url) in
  let default_scheme :=
    remove is_unsafe
      (rstrip_if is_c0_or_space (lstrip_if is_c0_or_space default_scheme)) in
  let (sch, url) :=
    match cut ":" url with
    | Some (String a pre, post) =>
        if is_alpha a && forallb is_scheme_char (String a pre)
        then (lower (String a pre), post)
        else (default_scheme, url)
    | _ => (default_scheme, url)
    end in
  let (loc, url) :=
    match url with
    | String a (String b rest) =>
        if eqc a "/" && eqc b "/" then break is_netloc_delim rest
        else (EmptyString, url)
    | _ => (EmptyString, url)
    end in
  (* the location is empty outside the branch for [//], and passes *)
  match check_brackets loc with
  | Some msg => inl msg
  | None =>
      let (url, frag) :=
        match cut "#" url with
        | Some (l, r) => (l, r)
        | None => (url, EmptyString)
        end in
      let (url, qry) :=
        match cut "?" url with
        | Some (l, r) => (l, r)
        | None => (url, EmptyString)
        end in
      match checknetloc loc with
      | Some msg => inl msg
      | None => inr (mkSplit sch loc url qry frag)
      end
  end.

(** [_splitparams], called when [';'] occurs in the path. *)
Definition splitparams (url : string) : string * string :=
  match rcut "/" url with
  | Some (dir, leaf) =>
      match cut ";" leaf with
      | Some (l, r) => (dir ++ "/" ++ l, r)
      | None => (url, EmptyString)
      end
  | None =>
      match cut ";" url with
      | Some (l, r) => (l, r)
      | None => (url, EmptyString)
      end
  end.

Definition urlparse (url default_scheme : string) : string + ParseResult :=
  match urlsplit url default_scheme with
  | inl msg => inl msg
  | inr r =>
      let (url, params) :=
        if among (scheme r) uses_params && mem ";" (path r)
        then splitparams (path r)
        else (path r, EmptyString) in
      inr (mkParse (scheme r) (netloc r) url params (query r) (fragment r))
  end.

Definition urlunsplit (r : SplitResult) : string :=
  let url := path r in
  let url :=
    if nonempty (netloc r)
       || (nonempty (scheme r) && among (scheme r) uses_netloc
           && negb (String.eqb (take 2 url) "//"))
    then "//" ++ netloc r
         ++ (if nonempty url && negb (String.eqb (take 1 url) "/")
             then "/" ++ url else url)
    else url in
  let url := if nonempty (scheme r) then scheme r ++ ":" ++ url else url in
  let url := if nonempty (query r) then url ++ "?" ++ query r else url in
  if nonempty (fragment r) then url ++ "#" ++ fragment r else url.

Definition urlunparse (r : ParseResult) : string :=
  let url :=
    if nonempty (p_params r) then p_path r ++ ";" ++ p_params r
    else p_path r in
  urlunsplit (mkSplit (p_scheme r) (p_netloc r) url (p_query r) (p_fragment r)).

(** [segments[1:-1] = filter(None, segments[1:-1])]. *)
Definition filter_middle (segments : list string) : list string :=
  match segments with
  | first :: (_ :: _) as rest =>
      (first :: filter nonempty (removelast rest) ++ [last rest ""])%list
  | _ => segments
  end.

(** The loop over [segments] that builds [resolved_path]. *)
Definition resolve (segments : list string) : list string :=
  fold_left
    (fun resolved seg =>
       if String.eqb seg ".." then removelast resolved
       else if String.eqb seg "." then resolved
       else (resolved ++ [seg])%list)
    segments [].

(** [urljoin]: the joined URL, or the message of the [ValueError] that
    parsing the base or the reference raises. *)
Definition urljoin (base url : string) : string + string :=
  if negb (nonempty base) then inr url
  else if negb (nonempty url) then inr base
  else
    match urlparse base "" with
    | inl msg => inl msg
    | inr b =>
    match urlparse url (p_scheme b) with
    | inl msg => inl msg
    | inr u =>
    inr
    (if negb (String.eqb (p_scheme u) (p_scheme b))
        || negb (among (p_scheme u) uses_relative)
     then url
     else if among (p_scheme u) uses_netloc && nonempty (p_netloc u)
     then urlunparse u
     else
       let loc := if among (p_scheme u) uses_netloc then p_netloc b
                  else p_netloc u in
       if negb (nonempty (p_path u)) && negb (nonempty (p_params u)) then
         urlunparse
           (mkParse (p_scheme u) loc (p_path b) (p_params b)
              (if nonempty (p_query u) then p_query u else p_query b)
              (p_fragment u))
       else
         let base_parts := split "/" (p_path b) in
         let base_parts :=
           if nonempty (last base_parts "") then removelast base_parts
           else base_parts in
         let segments :=
           if String.eqb (take 1 (p_path u)) "/" then split "/" (p_path u)
           else filter_middle (base_parts ++ split "/" (p_path u))%list in
         let resolved := resolve segments in
         let resolved :=
           if String.eqb (last segments "") "."
              || String.eqb (last segments "") ".."
           then (resolved ++ [""])%list else resolved in
         let joined := join "/" resolved in
         urlunparse
           (mkParse (p_scheme u) loc
              (if nonempty joined then joined else "/")
              (p_params u) (p_query u) (p_fragment u)))
    end
    end.

End Parsing.

(** Relative references the typed endpoints are made of: segments of
    characters that are neither blanks, controls nor URL delimiters, none of
    them a dot segment. *)
Definition plain_char (a : ascii) : bool :=
  (32 <? nat_of_ascii a)%nat
  && negb (eqc a "/") && negb (eqc a "?") && negb (eqc a "#")
  && negb (eqc a ";") && negb (eqc a ":").

(** The characters of a joined plain path: plain ones and the slash. *)
Definition path_char (a : ascii) : bool := plain_char a || eqc a "/".

Definition plain_segment (s : string) : bool :=
  nonempty s && forallb plain_char s
  && negb (String.eqb s ".") && negb (String.eqb s "..").

Definition plain_path (segments : list string) : bool :=
  match segments with
  | [] => false
  | _ => List.forallb plain_segment segments
  end.

(** The path with the given segments, each behind a slash, and a base URL
    with an [http] or [https] scheme, a plain host and such a path. *)
Fixpoint path_of (segments : list string) : string :=
  match segments with
  | [] => EmptyString
  | s :: rest => "/" ++ s ++ path_of rest
  end.

Definition web_scheme (s : string) : bool :=
  String.eqb s "http" || String.eqb s "https".

(** The characters of a plain host: plain ones that are ASCII and no
    bracket. *)
Definition host_char (a : ascii) : bool :=
  plain_char a && is_ascii a && negb (eqc a "[") && negb (eqc a "]").

Definition plain_base (sch host : string) (segments : list string) : bool :=
  web_scheme sch && nonempty host && forallb host_char host
  && List.forallb plain_segment segments.

Definition base_of (sch host : string) (segments : list string) : string :=
  sch ++ "://" ++ host ++ path_of segments.

End Url.

(** ** [httpx]: responses, requests and headers *)

Record Response : Type := mkResponse {
  status_code : Z;
  headers : list (string * string);
  text : string;
  (** what [response.json()] yields: the decoded body, or the message of the
      [JSONDecodeError] it raises *)
  json : string + value
}.

(** [Headers.get(key, default)]: names compare without case, and the values
    of a repeated header are joined with a comma and a space. *)
Definition headers_get (h : list (string * string)) (key default : string)
  : string :=
  match map snd
          (filter (fun kv => String.eqb (Str.lower (fst kv)) (Str.lower key)) h)
  with
  | [] => default
  | items => Str.join ", " items
  end.

(** The arguments of [AsyncClient.request]. *)
Record Request : Type := mkRequest {
  req_method : value;
  req_url : string;
  req_headers : list (string * string);
  req_params : option value;
  req_json : option value
}.

(** ** Exceptions

    The classes the server raises or names in an [except] clause; anything
    else derived from [Exception] is [OtherException].  An exception carries
    its [str()]. *)

Inductive exn_class : Type :=
| ValueError
| KeyError
| TypeError
| AttributeError
| IntigritiAPIError
| RequestError
| OtherException.

Inductive exn : Type :=
| Exn (cls : exn_class) (msg : string)
| HTTPStatusError (msg : string) (response : Response).

Definition exn_str (e : exn) : string :=
  match e with
  | Exn _ msg => msg
  | HTTPStatusError msg _ => msg
  end.

Inductive Result (A : Type) : Type :=
| Ok (a : A)
| Raise (e : exn).

Arguments Ok {A} a.
Arguments Raise {A} e.

(** What awaiting [client.request] comes to: a response, or an exception
    raised by the transport. *)
Inductive Outcome : Type :=
| Responded (r : Response)
| Failed (e : exn).

(** ** The process state

    The environment variables, the module-level [api_client], the remote
    service (its answer may depend on the requests made before), the requests
    issued so far and the records handed to [logger.error]. *)

Record Client : Type := mkClient {
  base_url : string;
  api_token : string;
  client_headers : list (string * string)
}.

Record World : Type := mkWorld {
  environ : string -> option string;
  api_client : option Client;
  network : list Request -> Request -> Outcome;
  requests : list Request;
  logged : list string
}.

(** No usable token: the variable is unset or empty. *)
Definition no_token (w : World) : Prop :=
  environ w "INTIGRITI_API_TOKEN" = None
  \/ environ w "INTIGRITI_API_TOKEN" = Some "".

Definition M (A : Type) : Type := World -> Result A * World.

Definition ret {A} (a : A) : M A := fun w => (Ok a, w).

Definition raise {A} (e : exn) : M A := fun w => (Raise e, w).

Definition bind {A B} (m : M A) (k : A -> M B) : M B :=
  fun w =>
    match m w with
    | (Ok a, w') => k a w'
    | (Raise e, w') => (Raise e, w')
    end.

(** [try: m  except ...: handler]; the handler answers [None] for an
    exception that no clause matches. *)
Definition try_except {A} (m : M A) (handler : exn -> option (M A)) : M A :=
  fun w =>
    match m w with
    | (Ok a, w') => (Ok a, w')
    | (Raise e, w') =>
        match handler e with
        | Some h => h w'
        | None => (Raise e, w')
        end
    end.

Definition lift {A} (r : Result A) : M A := fun w => (r, w).

(** A result, or the [ValueError] with the given message. *)
Definition value_error {A} (r : string + A) : M A :=
  match r with
  | inr a => ret a
  | inl msg => raise (Exn ValueError msg)
  end.

Notation "x <- m ;; k" := (bind m (fun x => k))
  (at level 61, m at next level, right associativity).
Notation "m ;;; k" := (bind m (fun _ => k))
  (at level 61, right associativity).

Definition getenv (name : string) : M (option string) :=
  fun w => (Ok (environ w name), w).

Definition get_api_client : M (option Client) :=
  fun w => (Ok (api_client w), w).

Definition set_api_client (c : Client) : M unit :=
  fun w => (Ok tt, mkWorld (environ w) (Some c) (network w) (requests w)
                     (logged w)).

Definition logger_error (msg : string) : M unit :=
  fun w => (Ok tt, mkWorld (environ w) (api_client w) (network w)
                     (requests w) (logged w ++ [msg])%list).

(** [await self.client.request(...)]. *)
Definition client_request (req : Request) : M Response :=
  fun w =>
    let w' := mkWorld (environ w) (api_client w) (network w)
                (requests w ++ [req])%list (logged w) in
    match network w (requests w) req with
    | Responded r => (Ok r, w')
    | Failed e => (Raise e, w')
    end.

(** [response.raise_for_status()]. *)
Definition raise_for_status (r : Response) : M unit :=
  if (200 <=? status_code r)%Z && (status_code r <=? 299)%Z then ret tt
  else raise (HTTPStatusError "HTTP status error" r).

(** [response.json()]. *)
Definition response_json (r : Response) : M value :=
  match json r with
  | inr v => ret v
  | inl msg => raise (Exn ValueError msg)
  end.

(** [min(limit, k)] for an [int] [k]: the second argument wins when it is
    smaller, and a value that does not compare with an [int] is a
    [TypeError]. *)
Definition min_int (limit : value) (k : Z) : Result value :=
  match limit with
  | VInt n => Ok (if (k <? n)%Z then VInt k else limit)
  | VBool b => Ok (if (k <? (if b then 1 else 0))%Z then VInt k else limit)
  | VFloat r => Ok (if Json.int_lt_float k r then VInt k else limit)
  | _ => Raise (Exn TypeError
                  ("'<' not supported between instances of 'int' and '"
                   ++ type_name limit ++ "'"))
  end.

(** [v is not None]. *)
Definition is_not_None (v : value) : bool :=
  match v with VNone => false | _ => true end.

(** [d.get(k, default)]. *)
Definition dict_get (d : dict) (k : string) (default : value) : value :=
  match dict_lookup k d with
  | Some v => v
  | None => default
  end.

(** [d[k]]. *)
Definition dict_item (d : dict) (k : string) : M value :=
  match dict_lookup k d with
  | Some v => ret v
  | None => raise (Exn KeyError ("'" ++ k ++ "'"))
  end.

(** [types.TextContent]. *)
Record TextContent : Type := mkTextContent {
  content_type : string;
  content_text : string
}.

(** ** [server.py] *)

Section Server.

(** [repr] of a [str].  Which characters it escapes is decided by the Unicode
    database of the interpreter, so it is left as a parameter. *)
Variable str_repr : string -> string.

(** The interpreter under [urllib.parse]. *)
Variable py : Url.Interpreter.

Fixpoint py_repr (v : value) : string :=
  match v with
  | VNone => "None"
  | VBool true => "True"
  | VBool false => "False"
  | VInt n => Str.of_Z n
  | VFloat r => r
  | VStr s => str_repr s
  | VList xs => "[" ++ Str.join ", " (map py_repr xs) ++ "]"
  | VDict items =>
      "{" ++ Str.join ", "
               (map (fun kv => str_repr (fst kv) ++ ": " ++ py_repr (snd kv))
                  items) ++ "}"
  end.

(** [str(v)], which is what an f-string field shows. *)
Definition py_str (v : value) : string :=
  match v with
  | VStr s => s
  | _ => py_repr v
  end.

Definition default_base_url : string :=
  "https://api.intigriti.com/external/researcher".

(** The message of the [ValueError] the constructor raises. *)
Definition token_message : string :=
  "API token is required. Set INTIGRITI_API_TOKEN environment variable or pass api_token parameter.".

(** [IntigritiResearcherAPI.__init__]. *)
Definition IntigritiResearcherAPI (base : string) (token : option string)
  : M Client :=
  env <- getenv "INTIGRITI_API_TOKEN" ;;
  let resolved :=
    match token with
    | Some t => if Url.nonempty t then Some t else env
    | None => env
    end in
  match resolved with
  | Some t =>
      if Url.nonempty t then
        ret (mkClient (Str.rstrip "/" base) t
               [("Authorization", "Bearer " ++ t);
                ("Content-Type", "application/json");
                ("User-Agent", "IntigritiMCPServer/1.0")])
      else raise (Exn ValueError token_message)
  | None => raise (Exn ValueError token_message)
  end.

(** The keyword arguments forwarded to [client.request]. *)
Record Kwargs : Type := mkKwargs {
  kw_params : option value;
  kw_json : option value
}.

Definition no_kwargs : Kwargs := mkKwargs None None.

(** The URL [_make_request] builds from [self.base_url] and [endpoint], or
    the message of the [ValueError] of [urljoin]. *)
Definition request_url (self : Client) (endpoint : string) : string + string :=
  Url.urljoin py (base_url self ++ "/") (Str.lstrip "/" endpoint).

(** The arguments [_make_request] passes to [client.request]. *)
Definition request_of (self : Client) (method : value) (url : string)
  (kwargs : Kwargs) : Request :=
  mkRequest method url (client_headers self)
    (kw_params kwargs) (kw_json kwargs).

(** [IntigritiResearcherAPI._make_request]: the URL is built before the
    [try] block is entered. *)
Definition _make_request (self : Client) (method endpoint : value)
  (kwargs : Kwargs) : M value :=
  match endpoint with
  | VStr path =>
      url <- value_error (request_url self path) ;;
      try_except
        (response <- client_request (request_of self method url kwargs) ;;
         if (status_code response =? 429)%Z then
           let retry_after := headers_get (headers response) "Retry-After" "60" in
           raise (Exn IntigritiAPIError
                    ("Rate limited. Retry after " ++ retry_after ++ " seconds."))
         else if (status_code response =? 401)%Z then
           raise (Exn IntigritiAPIError
                    "Authentication failed. Check your API token.")
         else
           raise_for_status response ;;;
           response_json response)
        (fun e =>
           match e with
           | HTTPStatusError _ r =>
               Some (logger_error ("HTTP error " ++ Str.of_Z (status_code r)
                                   ++ ": " ++ text r) ;;;
                     raise (Exn IntigritiAPIError
                              ("API request failed: "
                               ++ Str.of_Z (status_code r) ++ " - " ++ text r)))
           | Exn RequestError msg =>
               Some (logger_error ("Request error: " ++ msg) ;;;
                     raise (Exn IntigritiAPIError ("Network error: " ++ msg)))
           | _ => None
           end)
  | _ =>
      raise (Exn AttributeError
               ("'" ++ type_name endpoint
                ++ "' object has no attribute 'lstrip'"))
  end.

(** The [params] dictionary of [get_programs]. *)
Definition programs_params (status_id type_id following limit offset : value)
  : dict :=
  let params := [("limit", limit); ("offset", offset)] in
  let params :=
    if is_not_None status_id then dict_set "statusId" status_id params
    else params in
  let params :=
    if is_not_None type_id then dict_set "typeId" type_id params
    else params in
  if is_not_None following then dict_set "following" following params
  else params.

(** A parameter with a default value: [None] when the caller leaves the
    argument out. *)
Definition arg (supplied : option value) (default : value) : value :=
  match supplied with
  | Some v => v
  | None => default
  end.

(** The integer a [limit] argument stands for: its own value, or the default
    [20] when it is left out. *)
Definition requested (limit : option Z) : Z :=
  match limit with
  | Some n => n
  | None => 20
  end.

(** [IntigritiResearcherAPI.get_programs], with the defaults of its
    signature: [None] for the three filters, [20] for [limit], [0] for
    [offset]. *)
Definition get_programs (self : Client)
  (status_id type_id following limit offset : option value) : M value :=
  clamped <- lift (min_int (arg limit (VInt 20)) 500) ;;
  _make_request self (VStr "GET") (VStr "v1/programs")
    (mkKwargs
       (Some (VDict (programs_params (arg status_id VNone) (arg type_id VNone)
                       (arg following VNone) clamped (arg offset (VInt 0)))))
       None).

(** [IntigritiResearcherAPI.get_program_details]. *)
Definition get_program_details (self : Client) (program_id : value)
  : M value :=
  _make_request self (VStr "GET")
    (VStr ("v1/programs/" ++ py_str program_id)) no_kwargs.

(** The [params] dictionary of [get_program_activities]. *)
Definition activities_params (created_since following limit offset : value)
  : dict :=
  let params := [("limit", limit); ("offset", offset)] in
  let params :=
    if is_not_None created_since
    then dict_set "createdSince" created_since params
    else params in
  if is_not_None following then dict_set "following" following params
  else params.

(** [IntigritiResearcherAPI.get_program_activities], with the defaults of
    its signature. *)
Definition get_program_activities (self : Client)
  (created_since following limit offset : option value) : M value :=
  clamped <- lift (min_int (arg limit (VInt 20)) 500) ;;
  _make_request self (VStr "GET") (VStr "v1/programs/activities")
    (mkKwargs
       (Some (VDict (activities_params (arg created_since VNone)
                       (arg following VNone) clamped (arg offset (VInt 0)))))
       None).

(** [IntigritiResearcherAPI.get_program_domains]. *)
Definition get_program_domains (self : Client) (program_id version_id : value)
  : M value :=
  _make_request self (VStr "GET")
    (VStr ("v1/programs/" ++ py_str program_id ++ "/domains/"
           ++ py_str version_id)) no_kwargs.

(** [IntigritiResearcherAPI.get_program_rules_of_engagement]. *)
Definition get_program_rules_of_engagement (self : Client)
  (program_id version_id : value) : M value :=
  _make_request self (VStr "GET")
    (VStr ("v1/programs/" ++ py_str program_id ++ "/rules-of-engagements/"
           ++ py_str version_id)) no_kwargs.

(** [IntigritiResearcherAPI.call_endpoint]. *)
Definition call_endpoint (self : Client) (method endpoint : value)
  (kwargs : Kwargs) : M value :=
  _make_request self method endpoint kwargs.

Definition text_content (t : string) : list TextContent :=
  [mkTextContent "text" t].

(** The names [list_tools] declares. *)
Definition tool_names : list string :=
  ["get_programs"; "get_program_details"; "get_program_activities";
   "get_program_domains"; "get_program_rules_of_engagement";
   "call_custom_endpoint"].

(** The [if]/[elif] chain of [call_tool]: the API call of a catalog tool, or
    [None] for the final [else]. *)
Definition dispatch (client : Client) (name : string) (arguments : dict)
  : option (M value) :=
  if String.eqb name "get_programs" then
    Some (get_programs client
            (Some (dict_get arguments "status_id" VNone))
            (Some (dict_get arguments "type_id" VNone))
            (Some (dict_get arguments "following" VNone))
            (Some (dict_get arguments "limit" (VInt 20)))
            (Some (dict_get arguments "offset" (VInt 0))))
  else if String.eqb name "get_program_details" then
    Some (program_id <- dict_item arguments "program_id" ;;
          get_program_details client program_id)
  else if String.eqb name "get_program_activities" then
    Some (get_program_activities client
            (Some (dict_get arguments "created_since" VNone))
            (Some (dict_get arguments "following" VNone))
            (Some (dict_get arguments "limit" (VInt 20)))
            (Some (dict_get arguments "offset" (VInt 0))))
  else if String.eqb name "get_program_domains" then
    Some (program_id <- dict_item arguments "program_id" ;;
          version_id <- dict_item arguments "version_id" ;;
          get_program_domains client program_id version_id)
  else if String.eqb name "get_program_rules_of_engagement" then
    Some (program_id <- dict_item arguments "program_id" ;;
          version_id <- dict_item arguments "version_id" ;;
          get_program_rules_of_engagement client program_id version_id)
  else if String.eqb name "call_custom_endpoint" then
    Some (let kwargs :=
            mkKwargs (dict_lookup "params" arguments)
              (dict_lookup "json_data" arguments) in
          method <- dict_item arguments "method" ;;
          endpoint <- dict_item arguments "endpoint" ;;
          call_endpoint client method endpoint kwargs)
  else None.

(** [call_tool]. *)
Definition call_tool (name : string) (arguments : dict)
  : M (list TextContent) :=
  existing <- get_api_client ;;
  acquired <-
    match existing with
    | Some c => ret (inl c)
    | None =>
        try_except
          (c <- IntigritiResearcherAPI default_base_url None ;;
           set_api_client c ;;;
           ret (inl c))
          (fun e =>
             match e with
             | Exn ValueError msg =>
                 Some (ret (inr (text_content ("Configuration error: " ++ msg))))
             | _ => None
             end)
    end ;;
  match acquired with
  | inr early => ret early
  | inl client =>
      try_except
        (match dispatch client name arguments with
         | Some call =>
             result <- call ;;
             ret (text_content (Json.dumps result))
         | None => ret (text_content ("Unknown tool: " ++ name))
         end)
        (fun e =>
           match e with
           | Exn IntigritiAPIError msg =>
               Some (ret (text_content ("API error: " ++ msg)))
           | _ =>
               Some (logger_error ("Tool call error: " ++ exn_str e) ;;;
                     ret (text_content ("Error: " ++ exn_str e)))
           end)
  end.

(** The static mapping served for the endpoints resource. *)
Definition endpoints : value :=
  VDict
    [("programs", VStr "GET /v1/programs - Get all programs you have access to");
     ("program_details", VStr "GET /v1/programs/{programId} - Get program details");
     ("program_activities", VStr "GET /v1/programs/activities - Get all program activities");
     ("program_domains", VStr "GET /v1/programs/{programId}/domains/{versionId} - Get program domains");
     ("program_rules", VStr "GET /v1/programs/{programId}/rules-of-engagements/{versionId} - Get rules of engagement")].

Definition status_uri : string := "intigriti://api/status".
Definition endpoints_uri : string := "intigriti://api/endpoints".

Definition connected_banner : string := "✅ API Connected".
Definition failed_banner : string := "❌ API Connection Failed".

(** [programs.get('maxCount', 'Unknown')]. *)
Definition programs_get (programs : value) (k : string) (default : value)
  : M value :=
  match programs with
  | VDict items => ret (dict_get items k default)
  | _ => raise (Exn AttributeError
                  ("'" ++ type_name programs
                   ++ "' object has no attribute 'get'"))
  end.

(** [read_resource]; [uri] is [str(uri)]. *)
Definition read_resource (uri : string) : M string :=
  existing <- get_api_client ;;
  client <-
    match existing with
    | Some c => ret c
    | None =>
        c <- IntigritiResearcherAPI default_base_url None ;;
        set_api_client c ;;;
        ret c
    end ;;
  if String.eqb uri status_uri then
    try_except
      (programs <- get_programs client None None None (Some (VInt 1)) None ;;
       count <- programs_get programs "maxCount" (VStr "Unknown") ;;
       ret (connected_banner ++ String Json.newline "Total programs accessible: "
            ++ py_str count))
      (fun e =>
         Some (ret (failed_banner ++ String Json.newline "Error: "
                    ++ exn_str e)))
  else if String.eqb uri endpoints_uri then
    (* json.dumps(endpoints, indent=2): the mapping is pure ASCII, on which
       the default ensure_ascii=True changes nothing *)
    ret (Json.dumps endpoints)
  else
    raise (Exn ValueError ("Unknown resource: " ++ uri)).

End Server.


(** ** Sample states

    Concrete process states on which the statements below are exercised. *)

Definition no_environ : string -> option string := fun _ => None.

Definition token_environ (token : string) : string -> option string :=
  fun name => if String.eqb name "INTIGRITI_API_TOKEN" then Some token else None.

(** A remote service that gives the same answer to every request. *)
Definition always (r : Response) : list Request -> Request -> Outcome :=
  fun _ _ => Responded r.

Definition plain_repr (s : string) : string := "'" ++ s ++ "'".

(** An interpreter that validates no bracketed host, on text that NFKC
    leaves as it is. *)
Definition plain_py : Url.Interpreter :=
  Url.mkInterpreter (fun _ => None) (fun s => s).

Definition sample_client : Client :=
  mkClient default_base_url "secret"
    [("Authorization", "Bearer secret");
     ("Content-Type", "application/json");
     ("User-Agent", "IntigritiMCPServer/1.0")].

Definition unauthorized : Response :=
  mkResponse 401 [("Content-Type", "text/html")] "<h1>token expired</h1>"
    (inl "Expecting value: line 1 column 1 (char 0)").

Definition throttled : Response :=
  mkResponse 429 [("retry-after", "120")] "slow down"
    (inl "Expecting value: line 1 column 1 (char 0)").

Definition programs_page : Response :=
  mkResponse 200 [("Content-Type", "application/json")] "{...}"
    (inr (VDict [("maxCount", VInt 42); ("records", VList [])])).

(** A response body with every kind of value in it. *)
Definition sample_body : value :=
  VDict
    [("maxCount", VInt 42);
     ("records",
      VList
        [VDict [("id", VStr "b7c1"); ("name", VStr "Crème brûlée ✓");
                ("minBounty", VFloat "12.5"); ("delta", VInt (-3));
                ("confidential", VBool false); ("industry", VNone);
                ("note", VStr (String "034" (String "092" (String "010" "x"))))];
         VList []; VDict []; VFloat "1e-07"])].

(** No client yet and no token in the environment. *)
Definition unconfigured : World :=
  mkWorld no_environ None (always programs_page) [] [].

(** No client yet, a token in the environment. *)
Definition configured (r : Response) : World :=
  mkWorld (token_environ "secret") None (always r) [] [].

(** A client already built. *)
Definition connected (r : Response) : World :=
  mkWorld no_environ (Some sample_client) (always r) [] [].

(** ** The catalogs: [list_tools] and [list_resources] *)

(** [types.Tool]: the input schema is the JSON-Schema mapping as written. *)
Record Tool : Type := mkTool {
  tool_name : string;
  tool_description : string;
  inputSchema : value
}.

Definition string_property (description : string) : value :=
  VDict [("type", VStr "string"); ("description", VStr description)].

Definition integer_property (description : string) : value :=
  VDict [("type", VStr "integer"); ("description", VStr description)].

Definition boolean_property (description : string) : value :=
  VDict [("type", VStr "boolean"); ("description", VStr description)].

(** The [limit] and [offset] entries shared by the two listing tools. *)
Definition limit_property (description : string) : value :=
  VDict [("type", VStr "integer"); ("description", VStr description);
         ("default", VInt 20); ("maximum", VInt 500); ("minimum", VInt 0)].

Definition offset_property : value :=
  VDict [("type", VStr "integer");
         ("description", VStr "Offset for pagination");
         ("default", VInt 0); ("minimum", VInt 0)].

(** [list_tools]. *)
Definition list_tools : list Tool :=
  [mkTool "get_programs"
     "Get all programs you have access to with optional filtering"
     (VDict
        [("type", VStr "object");
         ("properties",
          VDict
            [("status_id", integer_property "Filter by program status ID");
             ("type_id", integer_property "Filter by program type ID");
             ("following",
              boolean_property "Filter by programs you're following");
             ("limit",
              limit_property "Number of programs per page (max 500)");
             ("offset", offset_property)])]);
   mkTool "get_program_details"
     "Get detailed information about a specific bug bounty program"
     (VDict
        [("type", VStr "object");
         ("properties",
          VDict
            [("program_id",
              string_property "The unique identifier (GUID) of the program")]);
         ("required", VList [VStr "program_id"])]);
   mkTool "get_program_activities"
     "Get all program activities with optional filtering"
     (VDict
        [("type", VStr "object");
         ("properties",
          VDict
            [("created_since",
              integer_property
                "Unix timestamp to filter activities created since this time");
             ("following",
              boolean_property "Filter by programs you're following");
             ("limit",
              limit_property "Number of activities per page (max 500)");
             ("offset", offset_property)])]);
   mkTool "get_program_domains"
     "Get program domains/scope for a specific version"
     (VDict
        [("type", VStr "object");
         ("properties",
          VDict
            [("program_id",
              string_property "The unique identifier (GUID) of the program");
             ("version_id",
              string_property
                "The unique identifier (GUID) of the domains version")]);
         ("required", VList [VStr "program_id"; VStr "version_id"])]);
   mkTool "get_program_rules_of_engagement"
     "Get program rules of engagement for a specific version"
     (VDict
        [("type", VStr "object");
         ("properties",
          VDict
            [("program_id",
              string_property "The unique identifier (GUID) of the program");
             ("version_id",
              string_property
                "The unique identifier (GUID) of the rules version")]);
         ("required", VList [VStr "program_id"; VStr "version_id"])]);
   mkTool "call_custom_endpoint"
     "Call a custom API endpoint (useful for new beta endpoints)"
     (VDict
        [("type", VStr "object");
         ("properties",
          VDict
            [("method",
              VDict [("type", VStr "string");
                     ("description", VStr "HTTP method");
                     ("enum",
                      VList [VStr "GET"; VStr "POST"; VStr "PUT";
                             VStr "DELETE"; VStr "PATCH"])]);
             ("endpoint",
              string_property
                "API endpoint path (e.g., 'v1/programs/new-endpoint')");
             ("params",
              VDict [("type", VStr "object");
                     ("description",
                      VStr "Query parameters as key-value pairs")]);
             ("json_data",
              VDict [("type", VStr "object");
                     ("description",
                      VStr "JSON body data for POST/PUT requests")])]);
         ("required", VList [VStr "method"; VStr "endpoint"])])].

(** [types.Resource]. *)
Record Resource : Type := mkResource {
  resource_uri : string;
  resource_name : string;
  resource_description : string;
  mimeType : string
}.

(** [list_resources]. *)
Definition list_resources : list Resource :=
  [mkResource "intigriti://api/status" "API Status"
     "Check API connectivity and authentication status" "text/plain";
   mkResource "intigriti://api/endpoints" "Available Endpoints"
     "List of all available API endpoints based on OpenAPI spec"
     "application/json"].

(** ** Reading a schema *)

(** The texts of a list of [str]. *)
Fixpoint texts (xs : list value) : list string :=
  match xs with
  | VStr s :: rest => s :: texts rest
  | _ :: rest => texts rest
  | [] => []
  end.

(** The names under [required] in an input schema. *)
Definition schema_required (schema : value) : list string :=
  match schema with
  | VDict items =>
      match dict_lookup "required" items with
      | Some (VList names) => texts names
      | _ => []
      end
  | _ => []
  end.

(** The entry [field] of the property [name] in an input schema. *)
Definition schema_field (schema : value) (name field : string)
  : option value :=
  match schema with
  | VDict items =>
      match dict_lookup "properties" items with
      | Some (VDict properties) =>
          match dict_lookup name properties with
          | Some (VDict entry) => dict_lookup field entry
          | _ => None
          end
      | _ => None
      end
  | _ => None
  end.


(** ** Notions used in the further statements *)

(** The state after one more request. *)
Definition with_request (w : World) (req : Request) : World :=
  mkWorld (environ w) (api_client w) (network w)
    (requests w ++ [req])%list (logged w).

(** The state after one more record handed to [logger.error]. *)
Definition with_log (w : World) (msg : string) : World :=
  mkWorld (environ w) (api_client w) (network w) (requests w)
    (logged w ++ [msg])%list.

(** The state with the module-level client set. *)
Definition with_client (w : World) (c : Client) : World :=
  mkWorld (environ w) (Some c) (network w) (requests w) (logged w).

(** An exception of the class [httpx.RequestError] or
    [httpx.HTTPStatusError]. *)
Definition is_httpx_error (e : exn) : bool :=
  match e with
  | HTTPStatusError _ _ => true
  | Exn RequestError _ => true
  | _ => false
  end.

Definition is_api_error (e : exn) : bool :=
  match e with
  | Exn IntigritiAPIError _ => true
  | _ => false
  end.


Definition is_text (v : value) : bool :=
  match v with
  | VStr _ => true
  | _ => false
  end.

(** What the process state may become during one handler call: the
    environment and the remote service stay, the request log and the logger
    output grow by at most [n] and [m] entries. *)
Definition grows (n m : nat) (w w' : World) : Prop :=
  environ w' = environ w
  /\ network w' = network w
  /\ exists reqs logs,
       requests w' = (requests w ++ reqs)%list
       /\ logged w' = (logged w ++ logs)%list
       /\ (List.length reqs <= n)%nat /\ (List.length logs <= m)%nat.

(** ** More sample states *)

(** A transport that fails on every request. *)
Definition failing (e : exn) : list Request -> Request -> Outcome :=
  fun _ _ => Failed e.

(** A client already built, a remote service that cannot be reached. *)
Definition unreachable : World :=
  mkWorld no_environ (Some sample_client)
    (failing (Exn RequestError "connection refused")) [] [].

Definition not_found : Response :=
  mkResponse 404 [] "no such program" (inl "not JSON").

(** The part of [call_tool] that runs once a client is at hand: the
    dispatch inside its [try] block. *)
Definition guarded_call (str_repr : string -> string) (py : Url.Interpreter)
  (client : Client) (name : string) (arguments : dict)
  : M (list TextContent) :=
  try_except
    (match dispatch str_repr py client name arguments with
     | Some call =>
         result <- call ;;
         ret (text_content (Json.dumps result))
     | None => ret (text_content ("Unknown tool: " ++ name))
     end)
    (fun e =>
       match e with
       | Exn IntigritiAPIError msg =>
           Some (ret (text_content ("API error: " ++ msg)))
       | _ =>
           Some (logger_error ("Tool call error: " ++ exn_str e) ;;;
                 ret (text_content ("Error: " ++ exn_str e)))
       end).

(** The client [call_tool] and [read_resource] build from the environment. *)
Definition client_for (token : string) : Client :=
  mkClient default_base_url token
    [("Authorization", "Bearer " ++ token);
     ("Content-Type", "application/json");
     ("User-Agent", "IntigritiMCPServer/1.0")].

(** A usable token in the environment. *)
Definition has_token (w : World) (token : string) : Prop :=
  environ w "INTIGRITI_API_TOKEN" = Some token /\ token <> "".

(** An API call that leaves the client alone, makes at most one request and
    writes a log record only when it raises [IntigritiAPIError]. *)
Definition tame {A} (m : M A) : Prop :=
  forall w,
    api_client (snd (m w)) = api_client w
    /\ grows 1 1 w (snd (m w))
    /\ (grows 1 0 w (snd (m w))
        \/ exists msg, fst (m w) = Raise (Exn IntigritiAPIError msg)).

(** The part of [read_resource] that runs once a client is at hand. *)
Definition serve_resource (str_repr : string -> string) (py : Url.Interpreter)
  (client : Client) (uri : string) : M string :=
  if String.eqb uri status_uri then
    try_except
      (programs <- get_programs py client None None None (Some (VInt 1)) None ;;
       count <- programs_get programs "maxCount" (VStr "Unknown") ;;
       ret (connected_banner ++ String Json.newline "Total programs accessible: "
            ++ py_str str_repr count))
      (fun e =>
         Some (ret (failed_banner ++ String Json.newline "Error: "
                    ++ exn_str e)))
  else if String.eqb uri endpoints_uri then
    ret (Json.dumps endpoints)
  else
    raise (Exn ValueError ("Unknown resource: " ++ uri)).
(** * Properties *)

(** ** Text *)

Module StrFacts.

Import Str.

Lemma append_nil_r (s : string) : s ++ "" = s.
Proof. induction s as [|a s IH]; simpl; [reflexivity | now rewrite IH]. Qed.

Lemma append_assoc (a b c : string) : (a ++ b) ++ c = a ++ (b ++ c).
Proof. induction a as [|x a IH]; simpl; [reflexivity | now rewrite IH]. Qed.

Lemma length_append (a b : string) :
  String.length (a ++ b) = (String.length a + String.length b)%nat.
Proof. induction a as [|x a IH]; simpl; [reflexivity | now rewrite IH]. Qed.

Lemma eqc_eq (a b : ascii) : eqc a b = true <-> a = b.
Proof. unfold eqc. apply Ascii.eqb_eq. Qed.

Lemma eqc_refl (a : ascii) : eqc a a = true.
Proof. unfold eqc. apply Ascii.eqb_refl. Qed.

Lemma Contains_refl (s : string) : Contains s s.
Proof. exists "", "". simpl. now rewrite append_nil_r. Qed.

Lemma Contains_append_l (a b sub : string) :
  Contains a sub -> Contains (a ++ b) sub.
Proof.
  intros (pre & post & ->). exists pre, (post ++ b).
  now rewrite !append_assoc.
Qed.

Lemma Contains_append_r (a b sub : string) :
  Contains b sub -> Contains (a ++ b) sub.
Proof.
  intros (pre & post & ->). exists (a ++ pre), post.
  now rewrite !append_assoc.
Qed.

Lemma startswith_spec (p s : string) :
  startswith p s = true <-> StartsWith s p.
Proof.
  revert s. induction p as [|a p IH]; intros s; simpl.
  - split; [intros _; now exists s | reflexivity].
  - destruct s as [|b s].
    + split; [discriminate | intros (post & H); discriminate].
    + rewrite andb_true_iff, eqc_eq, IH. split.
      * intros (-> & post & ->). now exists post.
      * intros (post & H). injection H as -> ->. split; [reflexivity|].
        now exists post.
Qed.

Lemma contains_spec (sub s : string) :
  contains sub s = true <-> Contains s sub.
Proof.
  induction s as [|a s IH].
  - simpl. rewrite orb_false_r, startswith_spec. split.
    + intros (post & ->). exists "", post. reflexivity.
    + intros (pre & post & H). destruct pre; simpl in H.
      * now exists post.
      * discriminate.
  - change (contains sub (String a s))
      with (startswith sub (String a s) || contains sub s).
    rewrite orb_true_iff, startswith_spec, IH. split.
    + intros [(post & ->) | (pre & post & ->)].
      * now exists "", post.
      * now exists (String a pre), post.
    + intros (pre & post & H). destruct pre as [|b pre]; simpl in H.
      * left. now exists post.
      * right. injection H as -> ->. now exists pre, post.
Qed.


Lemma Contains_join (sep x : string) (l : list string) :
  In x l -> Contains (join sep l) x.
Proof.
  induction l as [|y l IH]; [contradiction|].
  intros [-> | H].
  - destruct l as [|z l]; simpl.
    + apply Contains_refl.
    + apply Contains_append_l, Contains_refl.
  - destruct l as [|z l]; [contradiction|].
    change (join sep (y :: z :: l)) with (y ++ sep ++ join sep (z :: l)).
    now apply Contains_append_r, Contains_append_r, IH.
Qed.


End StrFacts.

(** ** The API client *)

Module ClientFacts.

Import Str StrFacts.

Ltac run :=
  unfold try_except, bind, lift, ret, raise, client_request, raise_for_status,
    response_json, logger_error, getenv, get_api_client, set_api_client;
  simpl.

(** [_make_request] on a text endpoint: [urljoin] decides whether a request
    is made, and the answer of the remote service decides the outcome. *)
Lemma make_request_run py self method path kwargs w :
  _make_request py self method (VStr path) kwargs w
  = match request_url py self path with
    | inl msg => (Raise (Exn ValueError msg), w)
    | inr url =>
        let req := request_of self method url kwargs in
        let w1 := with_request w req in
        match network w (requests w) req with
        | Responded r =>
            if (status_code r =? 429)%Z then
              (Raise (Exn IntigritiAPIError
                        ("Rate limited. Retry after "
                         ++ headers_get (headers r) "Retry-After" "60"
                         ++ " seconds.")), w1)
            else if (status_code r =? 401)%Z then
              (Raise (Exn IntigritiAPIError
                        "Authentication failed. Check your API token."), w1)
            else if (200 <=? status_code r)%Z && (status_code r <=? 299)%Z then
              match json r with
              | inr v => (Ok v, w1)
              | inl msg => (Raise (Exn ValueError msg), w1)
              end
            else
              (Raise (Exn IntigritiAPIError
                        ("API request failed: " ++ of_Z (status_code r)
                         ++ " - " ++ text r)),
               with_log w1 ("HTTP error " ++ of_Z (status_code r) ++ ": "
                            ++ text r))
        | Failed (HTTPStatusError _ r) =>
            (Raise (Exn IntigritiAPIError
                      ("API request failed: " ++ of_Z (status_code r) ++ " - "
                       ++ text r)),
             with_log w1 ("HTTP error " ++ of_Z (status_code r) ++ ": "
                          ++ text r))
        | Failed (Exn RequestError msg) =>
            (Raise (Exn IntigritiAPIError ("Network error: " ++ msg)),
             with_log w1 ("Request error: " ++ msg))
        | Failed e => (Raise e, w1)
        end
    end.
Proof.
  unfold _make_request. unfold bind at 1.
  destruct (request_url py self path) as [msg | url]; [reflexivity|].
  unfold value_error, ret. cbv beta iota.
  run. unfold with_request, with_log.
  destruct (network w (requests w) _) as [r | e]; simpl.
  - destruct (status_code r =? 429)%Z; simpl; [reflexivity|].
    destruct (status_code r =? 401)%Z; simpl; [reflexivity|].
    destruct ((200 <=? status_code r)%Z && (status_code r <=? 299)%Z); simpl.
    + destruct (json r); reflexivity.
    + reflexivity.
  - destruct e as [[] msg | msg r]; reflexivity.
Qed.

(** The same once the URL is known. *)
Lemma make_request_sent py self method path kwargs w url :
  request_url py self path = inr url ->
  _make_request py self method (VStr path) kwargs w
  = let req := request_of self method url kwargs in
    let w1 := with_request w req in
    match network w (requests w) req with
    | Responded r =>
        if (status_code r =? 429)%Z then
          (Raise (Exn IntigritiAPIError
                    ("Rate limited. Retry after "
                     ++ headers_get (headers r) "Retry-After" "60"
                     ++ " seconds.")), w1)
        else if (status_code r =? 401)%Z then
          (Raise (Exn IntigritiAPIError
                    "Authentication failed. Check your API token."), w1)
        else if (200 <=? status_code r)%Z && (status_code r <=? 299)%Z then
          match json r with
          | inr v => (Ok v, w1)
          | inl msg => (Raise (Exn ValueError msg), w1)
          end
        else
          (Raise (Exn IntigritiAPIError
                    ("API request failed: " ++ of_Z (status_code r) ++ " - "
                     ++ text r)),
           with_log w1 ("HTTP error " ++ of_Z (status_code r) ++ ": "
                        ++ text r))
    | Failed (HTTPStatusError _ r) =>
        (Raise (Exn IntigritiAPIError
                  ("API request failed: " ++ of_Z (status_code r) ++ " - "
                   ++ text r)),
         with_log w1 ("HTTP error " ++ of_Z (status_code r) ++ ": " ++ text r))
    | Failed (Exn RequestError msg) =>
        (Raise (Exn IntigritiAPIError ("Network error: " ++ msg)),
         with_log w1 ("Request error: " ++ msg))
    | Failed e => (Raise e, w1)
    end.
Proof. intros H. rewrite make_request_run, H. reflexivity. Qed.


(** [_make_request] issues exactly one request once the URL is built,
    whatever comes back. *)
Lemma make_request_once py self method path kwargs w url :
  request_url py self path = inr url ->
  requests (snd (_make_request py self method (VStr path) kwargs w))
  = (requests w ++ [request_of self method url kwargs])%list.
Proof.
  intros H. rewrite (make_request_sent _ _ _ _ _ _ _ H). cbv zeta.
  destruct (network w (requests w) _) as [r | e].
  - destruct (status_code r =? 429)%Z; [reflexivity|].
    destruct (status_code r =? 401)%Z; [reflexivity|].
    destruct ((200 <=? status_code r)%Z && (status_code r <=? 299)%Z);
      [destruct (json r)|]; reflexivity.
  - destruct e as [[] msg | msg r]; reflexivity.
Qed.

(** A 429 answer. *)
Lemma make_request_429 py self method path kwargs w url r :
  request_url py self path = inr url ->
  network w (requests w) (request_of self method url kwargs) = Responded r ->
  status_code r = 429 ->
  fst (_make_request py self method (VStr path) kwargs w)
  = Raise (Exn IntigritiAPIError
             ("Rate limited. Retry after "
              ++ headers_get (headers r) "Retry-After" "60" ++ " seconds.")).
Proof.
  intros H Hnet Hst. rewrite (make_request_sent _ _ _ _ _ _ _ H). cbv zeta.
  rewrite Hnet, Hst. reflexivity.
Qed.

(** [Headers.get] shows every value stored under the name. *)
Lemma headers_get_present h key default k v :
  In (k, v) h -> lower k = lower key ->
  Contains (headers_get h key default) v.
Proof.
  intros Hin Hk. unfold headers_get.
  assert (Hv : In v (map snd
             (filter (fun kv => String.eqb (lower (fst kv)) (lower key)) h))).
  { apply in_map_iff. exists (k, v). split; [reflexivity|].
    apply filter_In. split; [exact Hin|]. simpl. now apply String.eqb_eq. }
  destruct (map snd _) as [|x l] eqn:E; [contradiction|].
  now apply Contains_join.
Qed.

Lemma headers_get_absent h key default :
  (forall k v, In (k, v) h -> lower k <> lower key) ->
  headers_get h key default = default.
Proof.
  intros Habs. unfold headers_get.
  destruct (filter _ h) as [|[k v] l] eqn:E; [reflexivity|].
  assert (Hin : In (k, v) (filter (fun kv =>
             String.eqb (lower (fst kv)) (lower key)) h))
    by (rewrite E; now left).
  apply filter_In in Hin. destruct Hin as [Hin Heq]. simpl in Heq.
  apply String.eqb_eq in Heq. now apply Habs in Hin.
Qed.

(** [min(limit, 500)] on an [int]. *)
Lemma min_int_int (n k : Z) : min_int (VInt n) k = Ok (VInt (Z.min n k)).
Proof.
  unfold min_int. destruct (Z.ltb_spec k n).
  - now rewrite Z.min_r by lia.
  - now rewrite Z.min_l by lia.
Qed.

Lemma get_programs_int py self status_id type_id following limit offset :
  get_programs py self status_id type_id following (option_map VInt limit)
    offset
  = _make_request py self (VStr "GET") (VStr "v1/programs")
      (mkKwargs
         (Some (VDict (programs_params (arg status_id VNone)
                         (arg type_id VNone) (arg following VNone)
                         (VInt (Z.min (requested limit) 500))
                         (arg offset (VInt 0)))))
         None).
Proof.
  unfold get_programs.
  replace (arg (option_map VInt limit) (VInt 20))
    with (VInt (requested limit)) by now destruct limit.
  rewrite min_int_int. reflexivity.
Qed.

Lemma get_program_activities_int py self created_since following limit offset :
  get_program_activities py self created_since following
    (option_map VInt limit) offset
  = _make_request py self (VStr "GET") (VStr "v1/programs/activities")
      (mkKwargs
         (Some (VDict (activities_params (arg created_since VNone)
                         (arg following VNone)
                         (VInt (Z.min (requested limit) 500))
                         (arg offset (VInt 0)))))
         None).
Proof.
  unfold get_program_activities.
  replace (arg (option_map VInt limit) (VInt 20))
    with (VInt (requested limit)) by now destruct limit.
  rewrite min_int_int. reflexivity.
Qed.

(** Any number is accepted as a limit: an [int], a [bool] or a [float] comes
    out as itself or as 500. *)
Lemma min_int_number limit :
  (exists n, limit = VInt n) \/ (exists b, limit = VBool b)
  \/ (exists r, limit = VFloat r) ->
  exists clamped,
    min_int limit 500 = Ok clamped /\ (clamped = VInt 500 \/ clamped = limit).
Proof.
  intros [(n & ->) | [(b & ->) | (r & ->)]]; simpl; eexists;
    (split; [reflexivity|]).
  - destruct (500 <? n)%Z; auto.
  - destruct (500 <? (if b then 1 else 0))%Z; auto.
  - destruct (Json.int_lt_float 500 r); auto.
Qed.

Lemma programs_params_lookup status_id type_id following limit offset :
  let d := programs_params status_id type_id following limit offset in
  dict_lookup "limit" d = Some limit
  /\ dict_lookup "offset" d = Some offset
  /\ dict_lookup "statusId" d
     = (if is_not_None status_id then Some status_id else None)
  /\ dict_lookup "typeId" d
     = (if is_not_None type_id then Some type_id else None)
  /\ dict_lookup "following" d
     = (if is_not_None following then Some following else None).
Proof.
  unfold programs_params.
  destruct (is_not_None status_id), (is_not_None type_id),
    (is_not_None following); cbn; repeat split; reflexivity.
Qed.

Lemma activities_params_lookup created_since following limit offset :
  let d := activities_params created_since following limit offset in
  dict_lookup "limit" d = Some limit
  /\ dict_lookup "offset" d = Some offset
  /\ dict_lookup "createdSince" d
     = (if is_not_None created_since then Some created_since else None)
  /\ dict_lookup "following" d
     = (if is_not_None following then Some following else None).
Proof.
  unfold activities_params.
  destruct (is_not_None created_since), (is_not_None following); cbn;
    repeat split; reflexivity.
Qed.

End ClientFacts.

(** ** URL resolution *)

Module UrlFacts.

Import Str StrFacts Url.

Lemma plain_char_spec a :
  plain_char a = true ->
  (32 < nat_of_ascii a)%nat /\ eqc a "/" = false /\ eqc a "?" = false
  /\ eqc a "#" = false /\ eqc a ";" = false /\ eqc a ":" = false.
Proof.
  unfold plain_char. rewrite !andb_true_iff, !negb_true_iff, Nat.ltb_lt. tauto.
Qed.

Lemma forallb_append p a b :
  forallb p (a ++ b) = forallb p a && forallb p b.
Proof.
  induction a as [|x a IH]; simpl; [reflexivity|].
  now rewrite IH, andb_assoc.
Qed.

Lemma forallb_weaken (p q : ascii -> bool) s :
  (forall a, p a = true -> q a = true) ->
  forallb p s = true -> forallb q s = true.
Proof.
  intros H. induction s as [|a s IH]; simpl; [reflexivity|].
  rewrite !andb_true_iff. intros [Ha Hs]. auto.
Qed.

Lemma cut_none p c s :
  (forall a, p a = true -> eqc a c = false) ->
  forallb p s = true -> cut c s = None.
Proof.
  intros H. induction s as [|a s IH]; simpl; [reflexivity|].
  rewrite andb_true_iff. intros [Ha Hs].
  now rewrite (H a Ha), (IH Hs).
Qed.

Lemma mem_false p c s :
  (forall a, p a = true -> eqc a c = false) ->
  forallb p s = true -> mem c s = false.
Proof.
  intros H. induction s as [|a s IH]; simpl; [reflexivity|].
  rewrite andb_true_iff. intros [Ha Hs].
  now rewrite (H a Ha), (IH Hs).
Qed.

Lemma remove_none p q s :
  (forall a, p a = true -> q a = false) ->
  forallb p s = true -> remove q s = s.
Proof.
  intros H. induction s as [|a s IH]; simpl; [reflexivity|].
  rewrite andb_true_iff. intros [Ha Hs].
  now rewrite (H a Ha), (IH Hs).
Qed.

Lemma split_single c s : mem c s = false -> split c s = [s].
Proof.
  induction s as [|a s IH]; simpl; [reflexivity|].
  rewrite orb_false_iff. intros [Ha Hs]. now rewrite Ha, (IH Hs).
Qed.

Lemma split_append c a b :
  mem c a = false -> split c (a ++ String c b) = a :: split c b.
Proof.
  induction a as [|x a IH]; simpl.
  - intros _. now rewrite eqc_refl.
  - rewrite orb_false_iff. intros [Hx Ha]. now rewrite Hx, (IH Ha).
Qed.

Lemma split_join c segs :
  segs <> [] -> Forall (fun s => mem c s = false) segs ->
  split c (join (String c "") segs) = segs.
Proof.
  induction segs as [|s segs IH]; [congruence|].
  intros _ H. inversion H as [|? ? Hs Hrest]; subst.
  destruct segs as [|t segs].
  - simpl. now apply split_single.
  - change (join (String c "") (s :: t :: segs))
      with (s ++ String c (join (String c "") (t :: segs))).
    rewrite split_append by exact Hs.
    rewrite IH; [reflexivity | discriminate | exact Hrest].
Qed.

Lemma join_app sep a b :
  a <> [] -> b <> [] ->
  join sep (a ++ b) = join sep a ++ sep ++ join sep b.
Proof.
  intros Ha Hb. induction a as [|x a IH]; [congruence|].
  destruct a as [|y a].
  - destruct b as [|z b]; [congruence|]. reflexivity.
  - change (join sep ((x :: y :: a) ++ b))
      with (x ++ sep ++ join sep ((y :: a) ++ b)).
    rewrite IH by discriminate.
    change (join sep (x :: y :: a)) with (x ++ sep ++ join sep (y :: a)).
    now rewrite !append_assoc.
Qed.

(** Without dot segments the resolution loop copies its input. *)
Lemma resolve_from acc segs :
  Forall (fun s => String.eqb s ".." = false /\ String.eqb s "." = false) segs ->
  fold_left
    (fun resolved seg =>
       if String.eqb seg ".." then removelast resolved
       else if String.eqb seg "." then resolved
       else (resolved ++ [seg])%list)
    segs acc
  = (acc ++ segs)%list.
Proof.
  revert acc. induction segs as [|s segs IH]; intros acc H; simpl.
  - now rewrite List.app_nil_r.
  - inversion H as [|? ? [H1 H2] Hrest]; subst.
    rewrite H1, H2, IH by exact Hrest. now rewrite <- List.app_assoc.
Qed.

Lemma plain_segment_spec s :
  plain_segment s = true ->
  nonempty s = true /\ forallb plain_char s = true
  /\ String.eqb s "." = false /\ String.eqb s ".." = false.
Proof.
  unfold plain_segment. rewrite !andb_true_iff, !negb_true_iff. tauto.
Qed.

Lemma plain_path_spec segs :
  plain_path segs = true ->
  segs <> [] /\ Forall (fun s => plain_segment s = true) segs.
Proof.
  destruct segs as [|s segs]; [discriminate|].
  unfold plain_path. intros H. split; [discriminate|].
  apply Forall_forall. now apply List.forallb_forall.
Qed.

Lemma path_char_join segs :
  Forall (fun s => plain_segment s = true) segs ->
  forallb path_char (join "/" segs) = true.
Proof.
  induction segs as [|s segs IH]; intros H; [reflexivity|].
  inversion H as [|? ? Hs Hrest]; subst.
  apply plain_segment_spec in Hs. destruct Hs as (_ & Hs & _).
  assert (Hp : forallb path_char s = true).
  { revert Hs. apply forallb_weaken. intros a Ha. unfold path_char.
    now rewrite Ha. }
  destruct segs as [|t segs]; [exact Hp|].
  change (join "/" (s :: t :: segs)) with (s ++ "/" ++ join "/" (t :: segs)).
  rewrite !forallb_append, Hp, (IH Hrest). reflexivity.
Qed.

Lemma path_char_spec a :
  path_char a = true ->
  (32 < nat_of_ascii a)%nat /\ eqc a "?" = false /\ eqc a "#" = false
  /\ eqc a ";" = false /\ eqc a ":" = false.
Proof.
  unfold path_char. rewrite orb_true_iff. intros [H | H].
  - apply plain_char_spec in H. tauto.
  - apply eqc_eq in H. subst a. repeat split; try reflexivity.
    change (nat_of_ascii "/") with 47%nat. lia.
Qed.

(** A plain path starts with a plain character. *)
Lemma plain_path_head segs :
  plain_path segs = true ->
  exists a rest, join "/" segs = String a rest /\ plain_char a = true.
Proof.
  intros H. apply plain_path_spec in H. destruct H as [Hne H].
  destruct segs as [|s segs]; [congruence|].
  inversion H as [|? ? Hs _]; subst.
  apply plain_segment_spec in Hs. destruct Hs as (Hn & Hs & _).
  destruct s as [|a s]; [discriminate|].
  simpl in Hs. apply andb_true_iff in Hs. destruct Hs as [Ha _].
  destruct segs; simpl; eauto.
Qed.

Lemma web_scheme_spec sch :
  web_scheme sch = true -> sch = "http" \/ sch = "https".
Proof.
  unfold web_scheme. rewrite orb_true_iff, !String.eqb_eq. tauto.
Qed.

Lemma path_char_facts c :
  path_char c = true ->
  is_unsafe c = false /\ eqc c ":" = false /\ eqc c "#" = false
  /\ eqc c "?" = false /\ eqc c ";" = false.
Proof.
  intros Hc. apply path_char_spec in Hc.
  destruct Hc as (Hn & H1 & H2 & H3 & H4). repeat split; try assumption.
  unfold is_unsafe, eqc.
  destruct (Ascii.eqb_spec c "009"); [subst; vm_compute in Hn; lia|].
  destruct (Ascii.eqb_spec c "013"); [subst; vm_compute in Hn; lia|].
  destruct (Ascii.eqb_spec c "010"); [subst; vm_compute in Hn; lia|].
  reflexivity.
Qed.

(** [urlparse] on a plain relative path: everything but the path is empty
    and the scheme is the default one. *)
Lemma urlparse_plain_path py sch segs :
  web_scheme sch = true -> plain_path segs = true ->
  urlparse py (join "/" segs) sch
  = inr (mkParse sch "" (join "/" segs) "" "" "").
Proof.
  intros Hsch H. destruct (plain_path_head segs H) as (a & rest & He & Ha).
  apply plain_path_spec in H. destruct H as [_ H].
  apply path_char_join in H. rewrite He in *.
  pose proof path_char_facts as Hall.
  apply plain_char_spec in Ha. destruct Ha as (Hn & Hslash & _).
  unfold urlparse, urlsplit.
  assert (Hl : lstrip_if is_c0_or_space (String a rest) = String a rest).
  { simpl. unfold is_c0_or_space.
    destruct (Nat.leb_spec (nat_of_ascii a) 32); [lia | reflexivity]. }
  rewrite Hl.
  rewrite (remove_none path_char is_unsafe) by (exact H || apply Hall).
  rewrite (cut_none path_char ":") by (exact H || apply Hall).
  assert (Hloc : match String a rest with
                 | String x (String y r) =>
                     if eqc x "/" && eqc y "/" then break is_netloc_delim r
                     else (EmptyString, String a rest)
                 | _ => (EmptyString, String a rest)
                 end = (EmptyString, String a rest)).
  { destruct rest; [reflexivity|]. now rewrite Hslash. }
  rewrite Hloc. cbv beta iota zeta.
  change (check_brackets py "") with (@None string). cbv iota.
  rewrite (cut_none path_char "#") by (exact H || apply Hall).
  rewrite (cut_none path_char "?") by (exact H || apply Hall).
  cbv beta iota zeta.
  change (checknetloc py "") with (@None string). cbv iota.
  rewrite (mem_false path_char ";") by (exact H || apply Hall).
  apply web_scheme_spec in Hsch. destruct Hsch as [-> | ->]; reflexivity.
Qed.

Lemma removelast_app_nonempty {A} (l m : list A) :
  m <> [] -> removelast (l ++ m) = (l ++ removelast m)%list.
Proof. intros H. now apply removelast_app. Qed.

Lemma last_app_nonempty {A} (l m : list A) d :
  m <> [] -> last (l ++ m) d = last m d.
Proof.
  intros H. induction l as [|x l IH]; [reflexivity|].
  simpl. rewrite IH. destruct (l ++ m)%list eqn:E; [|reflexivity].
  apply app_eq_nil in E. now destruct E.
Qed.

Lemma nonempty_filter segs :
  Forall (fun s => plain_segment s = true) segs ->
  filter nonempty segs = segs.
Proof.
  induction 1 as [|s segs Hs _ IH]; [reflexivity|].
  simpl. apply plain_segment_spec in Hs. destruct Hs as (-> & _).
  now rewrite IH.
Qed.

Lemma Forall_removelast {A} (P : A -> Prop) l :
  Forall P l -> Forall P (removelast l).
Proof.
  induction 1 as [|x l Hx Hl IH]; [constructor|].
  simpl. destruct l; [constructor | now constructor].
Qed.

(** *** The base URL *)

Lemma path_of_slash segs :
  exists b, path_of segs ++ "/" = String "/" b.
Proof. destruct segs; simpl; eauto. Qed.

Lemma path_char_path_of segs :
  Forall (fun s => plain_segment s = true) segs ->
  forallb path_char (path_of segs ++ "/") = true.
Proof.
  induction 1 as [|s segs Hs _ IH]; [reflexivity|].
  apply plain_segment_spec in Hs. destruct Hs as (_ & Hs & _).
  change (path_of (s :: segs) ++ "/")
    with (String "/" ((s ++ path_of segs) ++ "/")).
  rewrite append_assoc. cbn [forallb].
  rewrite forallb_append, IH, andb_true_r.
  change (path_char "/") with true. cbn [andb].
  revert Hs. apply forallb_weaken. intros a Ha. unfold path_char.
  now rewrite Ha.
Qed.

Lemma split_path_of segs :
  Forall (fun s => plain_segment s = true) segs ->
  split "/" (path_of segs ++ "/") = ("" :: segs ++ [""])%list.
Proof.
  induction 1 as [|s segs Hs _ IH]; [reflexivity|].
  apply plain_segment_spec in Hs. destruct Hs as (_ & Hs & _).
  change (path_of (s :: segs) ++ "/")
    with (String "/" ((s ++ path_of segs) ++ "/")).
  rewrite append_assoc.
  destruct (path_of_slash segs) as (b & Eb). rewrite Eb in *.
  change (split "/" (String "/" b)) with ("" :: split "/" b) in IH.
  injection IH as IH.
  change (split "/" (String "/" (s ++ String "/" b)))
    with ("" :: split "/" (s ++ String "/" b)).
  rewrite split_append, IH; [reflexivity|].
  revert Hs. apply mem_false. intros c Hc. now apply plain_char_spec in Hc.
Qed.

Lemma join_path_of bsegs segs :
  segs <> [] ->
  "/" ++ join "/" (bsegs ++ segs) = path_of bsegs ++ "/" ++ join "/" segs.
Proof.
  intros Hne. induction bsegs as [|s bsegs IH]; [reflexivity|].
  change (path_of (s :: bsegs)) with ("/" ++ s ++ path_of bsegs).
  rewrite !append_assoc, <- IH.
  destruct (bsegs ++ segs)%list as [|t l] eqn:E.
  - apply app_eq_nil in E. now destruct E.
  - change ((s :: bsegs) ++ segs)%list with (s :: (bsegs ++ segs))%list.
    rewrite E. reflexivity.
Qed.

Lemma break_append stop host tail :
  forallb (fun a => negb (stop a)) host = true ->
  (exists c t, tail = String c t /\ stop c = true) ->
  break stop (host ++ tail) = (host, tail).
Proof.
  intros Hh (c & t & -> & Hc). induction host as [|a host IH]; simpl.
  - now rewrite Hc.
  - simpl in Hh. apply andb_true_iff in Hh. destruct Hh as [Ha Hh].
    apply negb_true_iff in Ha. now rewrite Ha, (IH Hh).
Qed.

(** *** Plain hosts *)

Lemma host_char_spec a :
  host_char a = true ->
  plain_char a = true /\ is_ascii a = true
  /\ eqc a "[" = false /\ eqc a "]" = false.
Proof.
  unfold host_char. rewrite !andb_true_iff, !negb_true_iff. tauto.
Qed.

Lemma host_is_plain host :
  forallb host_char host = true -> forallb plain_char host = true.
Proof.
  apply forallb_weaken. intros a Ha. now apply host_char_spec in Ha.
Qed.

(** A plain host passes the checks of [urlsplit] without a question to the
    interpreter. *)
Lemma plain_host_checks py host :
  forallb host_char host = true ->
  check_brackets py host = None /\ checknetloc py host = None.
Proof.
  intros H. unfold check_brackets, checknetloc.
  rewrite (mem_false host_char "[" host), (mem_false host_char "]" host);
    try exact H; try (intros a Ha; now apply host_char_spec in Ha).
  assert (Ha : forallb is_ascii host = true).
  { revert H. apply forallb_weaken. intros a Ha.
    now apply host_char_spec in Ha. }
  rewrite Ha, orb_true_r. split; reflexivity.
Qed.

(** [urlparse] on a plain base URL followed by a slash. *)
Lemma urlparse_base py sch host bsegs :
  plain_base sch host bsegs = true ->
  urlparse py (base_of sch host bsegs ++ "/") ""
  = inr (mkParse sch host (path_of bsegs ++ "/") "" "" "").
Proof.
  unfold plain_base. rewrite !andb_true_iff.
  intros [[[Hsch Hne] Hhost0] Hsegs].
  destruct (plain_host_checks py host Hhost0) as [Hck1 Hck2].
  pose proof (host_is_plain host Hhost0) as Hhost.
  assert (Hs : Forall (fun s => plain_segment s = true) bsegs).
  { apply Forall_forall. now apply List.forallb_forall. }
  pose proof (path_char_path_of bsegs Hs) as Hpath.
  pose proof path_char_facts as Hall.
  assert (Hhost' : forallb path_char host = true).
  { revert Hhost. apply forallb_weaken. intros a Ha. unfold path_char.
    now rewrite Ha. }
  assert (Hrest : forallb path_char (host ++ path_of bsegs ++ "/") = true)
    by now rewrite forallb_append, Hhost', Hpath.
  assert (Hclean : remove is_unsafe (host ++ path_of bsegs ++ "/")
                   = host ++ path_of bsegs ++ "/")
    by (apply (remove_none path_char); [apply Hall | exact Hrest]).
  assert (Hbreak : break is_netloc_delim (host ++ path_of bsegs ++ "/")
                   = (host, path_of bsegs ++ "/")).
  { apply break_append.
    - revert Hhost. apply forallb_weaken. intros a Ha.
      apply plain_char_spec in Ha. destruct Ha as (_ & H1 & H2 & H3 & _).
      unfold is_netloc_delim. now rewrite H1, H2, H3.
    - destruct (path_of_slash bsegs) as (b & ->). now exists "/"%char, b. }
  unfold base_of, urlparse, urlsplit. rewrite !append_assoc.
  set (R := host ++ path_of bsegs ++ "/") in *.
  apply web_scheme_spec in Hsch.
  destruct Hsch as [-> | ->].
  - change (lstrip_if is_c0_or_space ("http" ++ "://" ++ R))
      with ("http://" ++ R).
    change (remove is_unsafe ("http://" ++ R))
      with ("http://" ++ remove is_unsafe R).
    rewrite Hclean.
    change (cut ":" ("http://" ++ R)) with (Some ("http", "//" ++ R)).
    cbv beta iota.
    change (is_alpha "h" && forallb is_scheme_char "http") with true.
    cbv beta iota.
    change (lower "http") with "http".
    change ("//" ++ R) with (String "/" (String "/" R)). cbv beta iota.
    change (eqc "/" "/" && eqc "/" "/") with true. cbv beta iota.
    rewrite Hbreak. cbv beta iota zeta. rewrite Hck1. cbv iota.
    rewrite (cut_none path_char "#") by (exact Hpath || apply Hall).
    rewrite (cut_none path_char "?") by (exact Hpath || apply Hall).
    cbv beta iota zeta. rewrite Hck2. cbv iota.
    cbn [scheme netloc path query fragment].
    rewrite (mem_false path_char ";") by (exact Hpath || apply Hall).
    reflexivity.
  - change (lstrip_if is_c0_or_space ("https" ++ "://" ++ R))
      with ("https://" ++ R).
    change (remove is_unsafe ("https://" ++ R))
      with ("https://" ++ remove is_unsafe R).
    rewrite Hclean.
    change (cut ":" ("https://" ++ R)) with (Some ("https", "//" ++ R)).
    cbv beta iota.
    change (is_alpha "h" && forallb is_scheme_char "https") with true.
    cbv beta iota.
    change (lower "https") with "https".
    change ("//" ++ R) with (String "/" (String "/" R)). cbv beta iota.
    change (eqc "/" "/" && eqc "/" "/") with true. cbv beta iota.
    rewrite Hbreak. cbv beta iota zeta. rewrite Hck1. cbv iota.
    rewrite (cut_none path_char "#") by (exact Hpath || apply Hall).
    rewrite (cut_none path_char "?") by (exact Hpath || apply Hall).
    cbv beta iota zeta. rewrite Hck2. cbv iota.
    cbn [scheme netloc path query fragment].
    rewrite (mem_false path_char ";") by (exact Hpath || apply Hall).
    reflexivity.
Qed.

(** Against a plain base URL a plain relative path is appended. *)
Lemma urljoin_plain_path py sch host bsegs segs :
  plain_base sch host bsegs = true -> plain_path segs = true ->
  urljoin py (base_of sch host bsegs ++ "/") (join "/" segs)
  = inr (base_of sch host bsegs ++ "/" ++ join "/" segs).
Proof.
  intros Hbase H.
  pose proof (urlparse_base py sch host bsegs Hbase) as Hb.
  unfold plain_base in Hbase. rewrite !andb_true_iff in Hbase.
  destruct Hbase as [[[Hsch Hhost] _] Hbsegs].
  assert (Hbs : Forall (fun s => plain_segment s = true) bsegs).
  { apply Forall_forall. now apply List.forallb_forall. }
  pose proof (urlparse_plain_path py sch segs Hsch H) as Hu.
  destruct (plain_path_head segs H) as (a & rest & He & Ha).
  apply plain_char_spec in Ha. destruct Ha as (_ & Hslash & _).
  apply plain_path_spec in H. destruct H as [Hne H].
  assert (Hnon : nonempty (join "/" segs) = true) by now rewrite He.
  assert (Ht : String.eqb (take 1 (join "/" segs)) "/" = false).
  { rewrite He. simpl. destruct rest; simpl; unfold eqc in Hslash;
      rewrite Hslash; reflexivity. }
  assert (Hbn : nonempty (base_of sch host bsegs ++ "/") = true).
  { apply web_scheme_spec in Hsch. destruct Hsch as [-> | ->]; reflexivity. }
  assert (Hrel : negb (String.eqb sch sch) || negb (among sch uses_relative)
                 = false).
  { apply web_scheme_spec in Hsch. destruct Hsch as [-> | ->]; reflexivity. }
  assert (Hnet : among sch uses_netloc = true).
  { apply web_scheme_spec in Hsch. destruct Hsch as [-> | ->]; reflexivity. }
  unfold urljoin. rewrite Hbn, Hb. cbn [negb]. cbv zeta.
  cbn [p_scheme p_netloc p_path p_params p_query p_fragment].
  rewrite Hu.
  cbn [p_scheme p_netloc p_path p_params p_query p_fragment].
  rewrite Hrel, Hnet.
  change (nonempty "") with false.
  rewrite Hnon, Ht.
  cbn [negb andb orb].
  rewrite split_path_of by exact Hbs.
  assert (Hlast : last ("" :: bsegs ++ [""]) "" = "").
  { change ("" :: bsegs ++ [""])%list with (("" :: bsegs) ++ [""])%list.
    apply last_last. }
  rewrite Hlast. change (nonempty "") with false. cbv iota.
  rewrite split_join; [|exact Hne|].
  2:{ revert H. apply Forall_impl. intros s Hs.
      apply plain_segment_spec in Hs. destruct Hs as (_ & Hs & _).
      revert Hs. apply mem_false. intros c Hc.
      now apply plain_char_spec in Hc. }
  assert (Hseg : filter_middle (("" :: bsegs ++ [""]) ++ segs)
                 = ("" :: bsegs ++ segs)%list).
  { unfold filter_middle.
    change (("" :: bsegs ++ [""]) ++ segs)%list
      with ("" :: ((bsegs ++ [""]) ++ segs))%list.
    destruct ((bsegs ++ [""]) ++ segs)%list as [|x l] eqn:E.
    { apply app_eq_nil in E. now destruct E. }
    rewrite <- E.
    rewrite removelast_app_nonempty, last_app_nonempty by exact Hne.
    rewrite !filter_app. cbn [filter nonempty].
    rewrite !nonempty_filter by (assumption || now apply Forall_removelast).
    rewrite List.app_nil_r, <- List.app_assoc.
    do 2 f_equal. symmetry. now apply app_removelast_last. }
  rewrite Hseg.
  assert (Hdots : Forall (fun s => String.eqb s ".." = false
                                   /\ String.eqb s "." = false)
                    ("" :: bsegs ++ segs)).
  { constructor; [now split|]. apply Forall_app. split.
    - revert Hbs. apply Forall_impl. intros s Hs.
      apply plain_segment_spec in Hs. tauto.
    - revert H. apply Forall_impl. intros s Hs.
      apply plain_segment_spec in Hs. tauto. }
  unfold resolve. rewrite resolve_from by exact Hdots.
  change ("" :: bsegs ++ segs)%list with (("" :: bsegs) ++ segs)%list.
  rewrite last_app_nonempty by exact Hne.
  assert (Hl : String.eqb (last segs "") "." = false
               /\ String.eqb (last segs "") ".." = false).
  { assert (Hin : In (last segs "") segs).
    { destruct (exists_last Hne) as (l & x & ->).
      rewrite last_last. apply in_or_app. right. now left. }
    rewrite Forall_forall in H. apply H, plain_segment_spec in Hin. tauto. }
  destruct Hl as [-> ->].
  cbn [orb]. rewrite List.app_nil_l.
  change (("" :: bsegs) ++ segs)%list with ("" :: (bsegs ++ segs))%list.
  assert (Hj : join "/" ("" :: bsegs ++ segs)
               = path_of bsegs ++ "/" ++ join "/" segs).
  { rewrite <- join_path_of by exact Hne.
    destruct (bsegs ++ segs)%list as [|t l] eqn:E; [|reflexivity].
    apply app_eq_nil in E. now destruct E. }
  rewrite Hj.
  destruct (path_of_slash bsegs) as (b & Eb).
  assert (Hp : path_of bsegs ++ "/" ++ join "/" segs
               = String "/" (b ++ join "/" segs)).
  { change ("/" ++ join "/" segs) with (String "/" "" ++ join "/" segs).
    rewrite <- append_assoc.
    change (String "/" "") with "/". now rewrite Eb. }
  rewrite Hp. unfold urlunparse, urlunsplit.
  cbn [p_scheme p_netloc p_path p_params p_query p_fragment
       scheme netloc path query fragment nonempty].
  rewrite Hhost. cbn [orb take String.eqb Ascii.eqb Bool.eqb negb andb].
  rewrite <- Hp. unfold base_of.
  apply web_scheme_spec in Hsch. destruct Hsch as [-> | ->];
    cbn [nonempty]; now rewrite !append_assoc.
Qed.

End UrlFacts.

(** ** JSON: numbers *)

Module JsonFacts.

Import Str StrFacts Json.

Lemma stops_cons a s :
  stops (String a s) = true ->
  is_digit a = false /\ eqc a "." = false /\ eqc a "e" = false
  /\ eqc a "E" = false /\ eqc a "+" = false /\ eqc a "-" = false.
Proof.
  unfold stops, number_char. rewrite negb_true_iff, !orb_false_iff. tauto.
Qed.

Lemma digits_append s ds r rest :
  digits s = (ds, r) -> stops rest = true ->
  digits (s ++ rest) = (ds, r ++ rest).
Proof.
  unfold digits. revert ds r. induction s as [|a s IH]; intros ds r H Hst.
  - simpl in H. injection H as <- <-. simpl.
    destruct rest as [|c rest]; [reflexivity|].
    apply stops_cons in Hst. destruct Hst as (Hd & _).
    simpl. now rewrite Hd.
  - simpl in *. destruct (negb (is_digit a)).
    + now injection H as <- <-.
    + destruct (break _ s) as [l r'] eqn:E.
      injection H as <- <-. now rewrite (IH l r' eq_refl Hst).
Qed.

Lemma digits_sound s ds r : digits s = (ds, r) -> s = ds ++ r.
Proof.
  unfold digits. revert ds r. induction s as [|a s IH]; intros ds r H.
  - simpl in H. now injection H as <- <-.
  - simpl in H. destruct (negb (is_digit a)).
    + now injection H as <- <-.
    + destruct (break _ s) as [l r'] eqn:E.
      injection H as <- <-. simpl. now rewrite (IH l r' eq_refl).
Qed.

Lemma digits_all s :
  forallb is_digit s = true -> digits s = (s, "").
Proof.
  unfold digits. induction s as [|a s IH]; simpl; [reflexivity|].
  rewrite andb_true_iff. intros [Ha Hs]. now rewrite Ha, (IH Hs).
Qed.

Lemma scan_unsigned_append sign body i r rest :
  scan_unsigned sign body = Some (i, r) -> stops rest = true ->
  scan_unsigned sign (body ++ rest) = Some (i, r ++ rest).
Proof.
  unfold scan_unsigned. intros Hb Hst.
  destruct body as [|a s']; [discriminate|].
  change (String a s' ++ rest) with (String a (s' ++ rest)). cbv iota.
  destruct (eqc a "0") eqn:E0.
  - now injection Hb as <- <-.
  - destruct (is_digit a) eqn:Ed; [|discriminate].
    destruct (digits (String a s')) as [ds r0] eqn:E.
    injection Hb as <- <-.
    change (String a (s' ++ rest)) with (String a s' ++ rest).
    now rewrite (digits_append _ _ _ _ E Hst).
Qed.

Lemma scan_unsigned_sound sign body i r :
  scan_unsigned sign body = Some (i, r) -> sign ++ body = i ++ r.
Proof.
  unfold scan_unsigned. intros Hb. destruct body as [|a s']; [discriminate|].
  destruct (eqc a "0") eqn:E0.
  - injection Hb as <- <-. apply eqc_eq in E0. subst a.
    now rewrite append_assoc.
  - destruct (is_digit a); [|discriminate].
    destruct (digits (String a s')) as [ds r0] eqn:E.
    injection Hb as <- <-. rewrite append_assoc.
    now rewrite <- (digits_sound _ _ _ E).
Qed.

Lemma scan_integer_append s i r rest :
  scan_integer s = Some (i, r) -> stops rest = true ->
  scan_integer (s ++ rest) = Some (i, r ++ rest).
Proof.
  intros H Hst. unfold scan_integer in *.
  destruct s as [|a s]; [discriminate|].
  simpl append; cbv iota. destruct (eqc a "-").
  - now apply scan_unsigned_append.
  - now apply (scan_unsigned_append "" (String a s)).
Qed.

Lemma scan_integer_sound s i r : scan_integer s = Some (i, r) -> s = i ++ r.
Proof.
  unfold scan_integer. destruct s as [|a s]; [discriminate|].
  destruct (eqc a "-") eqn:Em.
  - intros H. apply scan_unsigned_sound in H. apply eqc_eq in Em. now subst a.
  - intros H. now apply scan_unsigned_sound in H.
Qed.

Lemma scan_frac_append s f r rest :
  scan_frac s = (f, r) -> stops rest = true ->
  scan_frac (s ++ rest) = (f, r ++ rest).
Proof.
  intros H Hst. unfold scan_frac in *. destruct s as [|a s].
  - injection H as <- <-. simpl. destruct rest as [|c rest]; [reflexivity|].
    apply stops_cons in Hst. destruct Hst as (_ & Hdot & _). now rewrite Hdot.
  - simpl append; cbv iota. destruct (eqc a ".").
    + destruct (digits s) as [ds r0] eqn:E.
      rewrite (digits_append _ _ _ _ E Hst).
      destruct ds; now injection H as <- <-.
    + now injection H as <- <-.
Qed.

Lemma scan_frac_sound s f r : scan_frac s = (f, r) -> s = f ++ r.
Proof.
  unfold scan_frac. destruct s as [|a s]; [now intros [= <- <-]|].
  destruct (eqc a "."); [|now intros [= <- <-]].
  destruct (digits s) as [ds r0] eqn:E. apply digits_sound in E.
  destruct ds; intros [= <- <-]; [reflexivity|]. simpl. now rewrite E.
Qed.

Lemma scan_exp_append s e r rest :
  scan_exp s = (e, r) -> stops rest = true ->
  scan_exp (s ++ rest) = (e, r ++ rest).
Proof.
  intros H Hst. unfold scan_exp in *. destruct s as [|a s].
  - injection H as <- <-. simpl. destruct rest as [|c rest]; [reflexivity|].
    apply stops_cons in Hst. destruct Hst as (_ & _ & He & HE & _).
    now rewrite He, HE.
  - simpl append; cbv iota. destruct (eqc a "e" || eqc a "E");
      [|now injection H as <- <-].
    destruct s as [|b s].
    + simpl in H. injection H as <- <-. simpl append; cbv iota.
      destruct rest as [|c rest]; [reflexivity|].
      apply stops_cons in Hst. destruct Hst as (Hd & _ & _ & _ & Hp & Hm).
      rewrite Hm, Hp. simpl. unfold digits. simpl. now rewrite Hd.
    + simpl append; cbv iota. destruct (eqc b "-" || eqc b "+").
      * destruct (digits s) as [ds r0] eqn:E.
        rewrite (digits_append _ _ _ _ E Hst).
        destruct ds; now injection H as <- <-.
      * destruct (digits (String b s)) as [ds r0] eqn:E.
        change (String b (s ++ rest)) with (String b s ++ rest).
        rewrite (digits_append _ _ _ _ E Hst).
        destruct ds; now injection H as <- <-.
Qed.

Lemma scan_exp_sound s e r : scan_exp s = (e, r) -> s = e ++ r.
Proof.
  unfold scan_exp. destruct s as [|a s]; [now intros [= <- <-]|].
  destruct (eqc a "e" || eqc a "E"); [|now intros [= <- <-]].
  destruct s as [|b s].
  - simpl. now intros [= <- <-].
  - destruct (eqc b "-" || eqc b "+").
    + destruct (digits s) as [ds r0] eqn:E. apply digits_sound in E.
      destruct ds; intros [= <- <-]; [reflexivity|]. simpl. now rewrite E.
    + destruct (digits (String b s)) as [ds r0] eqn:E.
      apply digits_sound in E.
      destruct ds; intros [= <- <-]; [reflexivity|]. simpl. now rewrite E.
Qed.

Lemma match_number_append s i f e r rest :
  match_number s = Some (i, f, e, r) -> stops rest = true ->
  match_number (s ++ rest) = Some (i, f, e, r ++ rest).
Proof.
  unfold match_number. intros H Hst.
  destruct (scan_integer s) as [[i0 r1]|] eqn:Ei; [|discriminate].
  rewrite (scan_integer_append _ _ _ _ Ei Hst).
  destruct (scan_frac r1) as [f0 r2] eqn:Ef.
  rewrite (scan_frac_append _ _ _ _ Ef Hst).
  destruct (scan_exp r2) as [e0 r3] eqn:Ee.
  rewrite (scan_exp_append _ _ _ _ Ee Hst).
  now injection H as <- <- <- <-.
Qed.

Lemma match_number_sound s i f e r :
  match_number s = Some (i, f, e, r) -> s = i ++ f ++ e ++ r.
Proof.
  unfold match_number. intros H.
  destruct (scan_integer s) as [[i0 r1]|] eqn:Ei; [|discriminate].
  destruct (scan_frac r1) as [f0 r2] eqn:Ef.
  destruct (scan_exp r2) as [e0 r3] eqn:Ee.
  injection H as <- <- <- <-.
  apply scan_integer_sound in Ei. apply scan_frac_sound in Ef.
  apply scan_exp_sound in Ee. now subst.
Qed.

(** *** Printed integers *)

Lemma uint_digits u : forallb is_digit (NilEmpty.string_of_uint u) = true.
Proof. induction u; simpl; auto. Qed.

(** The decimal form of a positive number starts with a nonzero digit. *)
Lemma positive_digits p :
  exists c ds,
    NilZero.string_of_uint (Pos.to_uint p) = String c ds
    /\ is_digit c = true /\ eqc c "0" = false /\ eqc c "-" = false
    /\ forallb is_digit ds = true.
Proof.
  pose proof (DecimalPos.Unsigned.to_uint_nonnil p) as Hnil.
  assert (Hnz : Decimal.nzhead (Pos.to_uint p) = Pos.to_uint p).
  { pose proof (DecimalPos.Unsigned.to_of (Pos.to_uint p)) as H.
    rewrite DecimalPos.Unsigned.of_to in H. simpl in H.
    unfold Decimal.unorm in H.
    destruct (Decimal.nzhead (Pos.to_uint p)) eqn:E; try (symmetry; exact H).
    exfalso. apply (DecimalPos.Unsigned.to_uint_nonzero p). now symmetry. }
  pose proof (nzhead_nonzero (Pos.to_uint p)) as Hz. rewrite Hnz in Hz.
  pose proof (uint_digits (Pos.to_uint p)) as Hd.
  destruct (Pos.to_uint p) as [|u|u|u|u|u|u|u|u|u|u];
    [congruence | exfalso; now apply (Hz u) | ..];
    simpl in Hd; (eexists; eexists; split; [reflexivity|]);
    repeat split; try reflexivity; exact Hd.
Qed.

Lemma match_number_of_Z n :
  match_number (of_Z n) = Some (of_Z n, "", "", "").
Proof.
  unfold of_Z, match_number. destruct n as [|p|p]; [reflexivity| |].
  - destruct (positive_digits p) as (c & ds & E & Hc & H0 & Hm & Hds).
    simpl Z.to_int. unfold NilZero.string_of_int. rewrite E.
    unfold scan_integer. rewrite Hm. unfold scan_unsigned. rewrite H0, Hc.
    rewrite digits_all by (simpl; now rewrite Hc, Hds). reflexivity.
  - destruct (positive_digits p) as (c & ds & E & Hc & H0 & Hm & Hds).
    simpl Z.to_int. unfold NilZero.string_of_int. rewrite E.
    unfold scan_integer. change (eqc "-" "-") with true. cbv iota.
    unfold scan_unsigned. rewrite H0, Hc.
    rewrite digits_all by (simpl; now rewrite Hc, Hds). reflexivity.
Qed.

Lemma int_of_text_of_Z n : int_of_text (of_Z n) = Some n.
Proof.
  unfold int_of_text, of_Z. rewrite NilZero.isi.
  - simpl. now rewrite DecimalZ.of_to.
  - destruct n; simpl; try discriminate.
    intros [= H]. now apply (DecimalPos.Unsigned.to_uint_nonnil p).
  - destruct n; simpl; try discriminate.
    intros [= H]. now apply (DecimalPos.Unsigned.to_uint_nonnil p).
Qed.

Lemma scan_number_int n rest :
  stops rest = true ->
  scan_number (of_Z n ++ rest) = Some (VInt n, rest).
Proof.
  intros Hst. unfold scan_number.
  rewrite (match_number_append _ _ _ _ _ _ (match_number_of_Z n) Hst).
  simpl. now rewrite int_of_text_of_Z.
Qed.

(** *** Printed floats *)

Lemma finite_repr_spec r :
  finite_repr r = true ->
  exists i f e,
    match_number r = Some (i, f, e, "")
    /\ String.eqb f "" && String.eqb e "" = false
    /\ r = i ++ f ++ e.
Proof.
  unfold finite_repr. destruct (match_number r) as [[[[i f] e] r3]|] eqn:E;
    [|discriminate].
  destruct r3; [|discriminate]. rewrite negb_true_iff. intros H.
  exists i, f, e. repeat split; try assumption.
  apply match_number_sound in E. now rewrite append_nil_r in E.
Qed.

Lemma floatstr_finite r : finite_repr r = true -> floatstr r = r.
Proof.
  intros H. unfold floatstr.
  destruct (String.eqb_spec r "nan") as [-> | _]; [discriminate H|].
  destruct (String.eqb_spec r "inf") as [-> | _]; [discriminate H|].
  destruct (String.eqb_spec r "-inf") as [-> | _]; [discriminate H|].
  reflexivity.
Qed.

Lemma scan_number_float r rest :
  finite_repr r = true -> stops rest = true ->
  scan_number (floatstr r ++ rest) = Some (VFloat r, rest).
Proof.
  intros Hr Hst. rewrite (floatstr_finite r Hr).
  destruct (finite_repr_spec r Hr) as (i & f & e & Hm & Hfe & Heq).
  unfold scan_number.
  rewrite (match_number_append _ _ _ _ _ _ Hm Hst), Hfe. simpl.
  now rewrite <- Heq.
Qed.

(** *** The first character of a number *)

Lemma scan_unsigned_head sign body i r :
  scan_unsigned sign body = Some (i, r) ->
  exists c s, body = String c s /\ is_digit c = true.
Proof.
  unfold scan_unsigned. destruct body as [|c s]; [discriminate|].
  intros H. exists c, s. split; [reflexivity|].
  destruct (eqc c "0") eqn:E0.
  - apply eqc_eq in E0. now subst c.
  - now destruct (is_digit c).
Qed.

Lemma match_number_head s i f e r :
  match_number s = Some (i, f, e, r) ->
  exists c s', s = String c s' /\ number_head c = true.
Proof.
  unfold match_number, scan_integer. destruct s as [|c s]; [discriminate|].
  intros H. exists c, s. split; [reflexivity|]. unfold number_head.
  destruct (eqc c "-"); [now rewrite orb_true_r|].
  destruct (scan_unsigned "" (String c s)) as [[i0 r0]|] eqn:E;
    [|discriminate].
  apply scan_unsigned_head in E. destruct E as (c' & s' & [= <- <-] & Hd).
  now rewrite Hd.
Qed.

Lemma of_Z_head n :
  exists c s, of_Z n = String c s /\ number_head c = true.
Proof. exact (match_number_head _ _ _ _ _ (match_number_of_Z n)). Qed.

Lemma floatstr_head r :
  finite_repr r = true ->
  exists c s, floatstr r = String c s /\ number_head c = true.
Proof.
  intros H. rewrite (floatstr_finite r H).
  destruct (finite_repr_spec r H) as (i & f & e & Hm & _).
  exact (match_number_head _ _ _ _ _ Hm).
Qed.

Lemma number_head_spec c :
  number_head c = true ->
  eqc c dquote = false /\ eqc c "{" = false /\ eqc c "[" = false
  /\ eqc "n" c = false /\ eqc "t" c = false /\ eqc "f" c = false
  /\ is_ws c = false /\ eqc c "]" = false /\ eqc c "}" = false.
Proof.
  destruct c as [[] [] [] [] [] [] [] []]; vm_compute; intros H;
    try discriminate H; repeat split.
Qed.

(** [_scan_once] at the first character of a number goes to the number
    branch. *)
Lemma scan_once_number fuel c s :
  number_head c = true ->
  scan_once (S fuel) (String c s) = scan_number (String c s).
Proof.
  intros H. apply number_head_spec in H.
  destruct H as (H1 & H2 & H3 & H4 & H5 & H6 & _).
  cbn [scan_once]. rewrite H1, H2, H3.
  cbn [strip_prefix]. now rewrite H4, H5, H6.
Qed.

(** ** JSON: strings *)

(** Reading back one escaped character. *)
Lemma scanstring_escape_char a t :
  scanstring (escape_char a ++ t) = prepend (String a "") (scanstring t).
Proof.
  destruct a as [b0 b1 b2 b3 b4 b5 b6 b7].
  destruct b7, b6, b5.
  8: { destruct b0, b1, b2, b3, b4; destruct t as [|c1 [|c2 t]];
       reflexivity. }
  all: destruct b0, b1, b2, b3, b4; reflexivity.
Qed.

Lemma scanstring_escape s rest :
  scanstring (escape s ++ String dquote rest) = Some (s, rest).
Proof.
  induction s as [|a s IH].
  - reflexivity.
  - change (escape (String a s)) with (escape_char a ++ escape s).
    rewrite append_assoc, scanstring_escape_char, IH. reflexivity.
Qed.

(** ** JSON: lists and dictionaries *)

Lemma value_head_spec a :
  value_head a = true ->
  is_ws a = false /\ eqc a "]" = false /\ eqc "239" a = false.
Proof.
  unfold value_head. rewrite !andb_true_iff, !negb_true_iff. tauto.
Qed.

Lemma number_head_value_head c : number_head c = true -> value_head c = true.
Proof.
  destruct c as [[] [] [] [] [] [] [] []]; vm_compute; intros H;
    try discriminate H; reflexivity.
Qed.

Lemma iterencode_head level v :
  representable v ->
  exists c s, iterencode level v = String c s /\ value_head c = true.
Proof.
  intros H. destruct v as [|[]|n|r|s|[|x xs]|[|kv items]];
    try (eexists; eexists; split; [reflexivity | reflexivity]).
  - destruct (of_Z_head n) as (c & s & E & Hc).
    exists c, s. split; [exact E | now apply number_head_value_head].
  - inversion H as [| | |r' Hr| | |]; subst.
    destruct (floatstr_head r Hr) as (c & s & E & Hc).
    exists c, s. split; [exact E | now apply number_head_value_head].
Qed.

Lemma skip_ws_head c s : is_ws c = false -> skip_ws (String c s) = String c s.
Proof. intros H. unfold skip_ws. simpl. now rewrite H. Qed.

Lemma skip_ws_spaces n t : skip_ws (spaces n ++ t) = skip_ws t.
Proof. induction n as [|n IH]; [reflexivity | exact IH]. Qed.

Lemma skip_ws_newline_indent level t :
  skip_ws (newline_indent level ++ t) = skip_ws t.
Proof.
  unfold newline_indent.
  change (String newline (spaces (2 * level)) ++ t)
    with (String newline (spaces (2 * level) ++ t)).
  unfold skip_ws at 1. simpl lstrip_if. apply skip_ws_spaces.
Qed.

(** [dict(pairs)] keeps pairs with distinct keys as they are. *)
Lemma dict_set_fresh k v d :
  ~ In k (map fst d) -> dict_set k v d = (d ++ [(k, v)])%list.
Proof.
  induction d as [|[k' v'] d IH]; intros H; [reflexivity|].
  simpl in *. destruct (String.eqb_spec k' k) as [-> | _].
  - exfalso. apply H. now left.
  - rewrite IH; [reflexivity|]. intros Hin. apply H. now right.
Qed.

Lemma dict_of_pairs_from acc pairs :
  NoDup (map fst (acc ++ pairs)) ->
  fold_left (fun d kv => dict_set (fst kv) (snd kv) d) pairs acc
  = (acc ++ pairs)%list.
Proof.
  revert acc. induction pairs as [|[k v] pairs IH]; intros acc H; simpl.
  - now rewrite List.app_nil_r.
  - assert (Hfresh : ~ In k (map fst acc)).
    { rewrite map_app in H. simpl in H. apply NoDup_remove_2 in H.
      intros Hin. apply H. apply in_or_app. now left. }
    rewrite (dict_set_fresh k v acc Hfresh).
    rewrite IH; rewrite <- List.app_assoc; [reflexivity | exact H].
Qed.

Lemma dict_of_pairs_unique items :
  NoDup (map fst items) -> dict_of_pairs items = items.
Proof. intros H. unfold dict_of_pairs. now rewrite dict_of_pairs_from. Qed.

Lemma array_items_step fuel s values :
  array_items (S fuel) s values
  = match scan_once fuel s with
    | None => None
    | Some (v, r1) =>
        match skip_ws r1 with
        | String d r2 =>
            if eqc d "]" then Some ((values ++ [v])%list, r2)
            else if eqc d ","
                 then array_items fuel (skip_ws r2) (values ++ [v])%list
                 else None
        | EmptyString => None
        end
    end.
Proof. reflexivity. Qed.

Lemma object_items_step fuel s pairs :
  object_items (S fuel) s pairs
  = match scanstring s with
    | None => None
    | Some (key, r1) =>
        match skip_ws r1 with
        | String c r2 =>
            if eqc c ":" then
              match scan_once fuel (skip_ws r2) with
              | None => None
              | Some (v, r3) =>
                  match skip_ws r3 with
                  | String d r4 =>
                      if eqc d "}" then Some ((pairs ++ [(key, v)])%list, r4)
                      else if eqc d "," then
                        match skip_ws r4 with
                        | String q r5 =>
                            if eqc q dquote
                            then object_items fuel r5
                                   (pairs ++ [(key, v)])%list
                            else None
                        | EmptyString => None
                        end
                      else None
                  | EmptyString => None
                  end
              end
            else None
        | EmptyString => None
        end
    end.
Proof. reflexivity. Qed.

Lemma scan_once_array fuel s :
  scan_once (S fuel) (String "[" s)
  = match skip_ws s with
    | String d r =>
        if eqc d "]" then Some (VList [], r)
        else
          match array_items fuel (String d r) [] with
          | Some (values, rest) => Some (VList values, rest)
          | None => None
          end
    | EmptyString => None
    end.
Proof. reflexivity. Qed.

Lemma scan_once_object fuel s :
  scan_once (S fuel) (String "{" s)
  = match skip_ws s with
    | String d r =>
        if eqc d "}" then Some (VDict [], r)
        else if eqc d dquote then
          match object_items fuel r [] with
          | Some (pairs, rest) => Some (VDict (dict_of_pairs pairs), rest)
          | None => None
          end
        else None
    | EmptyString => None
    end.
Proof. reflexivity. Qed.

(** The text of the elements of a list starts like its first element. *)
Lemma join_head sep level x xs t :
  representable x ->
  exists c s,
    join sep (map (iterencode level) (x :: xs)) ++ t = String c s
    /\ value_head c = true.
Proof.
  intros H. destruct (iterencode_head level x H) as (c & s & E & Hc).
  destruct xs as [|y l].
  - exists c, (s ++ t). simpl. now rewrite E.
  - exists c, (s ++ sep ++ join sep (map (iterencode level) (y :: l)) ++ t).
    change (join sep (map (iterencode level) (x :: y :: l)))
      with (iterencode level x ++ sep
            ++ join sep (map (iterencode level) (y :: l))).
    rewrite E, !append_assoc. split; [reflexivity | exact Hc].
Qed.

Lemma array_items_join level rest xs :
  xs <> [] -> Forall parses xs -> Forall representable xs ->
  forall acc fuel,
    (String.length
       (join ("," ++ newline_indent (S level))
          (map (iterencode (S level)) xs)) < fuel)%nat ->
    array_items fuel
      (join ("," ++ newline_indent (S level)) (map (iterencode (S level)) xs)
       ++ newline_indent level ++ "]" ++ rest) acc
    = Some ((acc ++ xs)%list, rest).
Proof.
  induction xs as [|x xs IH]; [congruence|].
  intros _ Hp Hr acc fuel Hf.
  inversion Hp as [|? ? Hx Hxs]; subst.
  inversion Hr as [|? ? Rx Rxs]; subst.
  destruct fuel as [|fuel]; [lia|].
  rewrite array_items_step.
  destruct xs as [|y l].
  - change (join ("," ++ newline_indent (S level))
              (map (iterencode (S level)) [x]))
      with (iterencode (S level) x) in *.
    rewrite Hx by (reflexivity || lia).
    rewrite skip_ws_newline_indent.
    change ("]" ++ rest) with (String "]" rest).
    rewrite skip_ws_head by reflexivity. reflexivity.
  - change (join ("," ++ newline_indent (S level))
              (map (iterencode (S level)) (x :: y :: l)))
      with (iterencode (S level) x ++ ("," ++ newline_indent (S level))
            ++ join ("," ++ newline_indent (S level))
                 (map (iterencode (S level)) (y :: l))) in *.
    rewrite !length_append in Hf. rewrite !append_assoc.
    rewrite Hx by (reflexivity || lia).
    change ("," ++ ?t) with (String "," t).
    rewrite skip_ws_head by reflexivity.
    change (eqc "," "]") with false. change (eqc "," ",") with true.
    cbv iota. rewrite skip_ws_newline_indent.
    destruct (join_head ("," ++ newline_indent (S level)) (S level) y l
                (newline_indent level ++ "]" ++ rest))
      as (c & s & E & Hc); [now inversion Rxs|].
    rewrite E. apply value_head_spec in Hc. destruct Hc as (Hws & _).
    rewrite skip_ws_head by exact Hws. rewrite <- E.
    change (String.length ",") with 1%nat in Hf.
    rewrite IH; [|discriminate|exact Hxs|exact Rxs|lia].
    now rewrite <- List.app_assoc.
Qed.

Lemma item_text_unfold level k v t :
  item_text level (k, v) ++ t
  = String dquote
      (escape k
       ++ String dquote (String ":" (String " " (iterencode level v ++ t)))).
Proof.
  unfold item_text, encode_basestring. simpl fst. simpl snd.
  change (String dquote (escape k ++ String dquote "") ++ ?a)
    with (String dquote ((escape k ++ String dquote "") ++ a)).
  change (String dquote ?a ++ t) with (String dquote (a ++ t)).
  rewrite !append_assoc. reflexivity.
Qed.

Lemma item_text_length level k v :
  (String.length (iterencode level v) + 4 <= String.length (item_text level (k, v)))%nat.
Proof.
  unfold item_text, encode_basestring. simpl fst. simpl snd.
  rewrite length_append. simpl String.length. rewrite !length_append.
  simpl String.length. lia.
Qed.

Lemma items_head sep level kv items t :
  exists body,
    join sep (map (item_text level) (kv :: items)) ++ t = String dquote body.
Proof.
  destruct kv as [k v]. destruct items as [|kv' items].
  - simpl join. rewrite item_text_unfold. eauto.
  - change (join sep (map (item_text level) ((k, v) :: kv' :: items)))
      with (item_text level (k, v) ++ sep
            ++ join sep (map (item_text level) (kv' :: items))).
    rewrite append_assoc, item_text_unfold. eauto.
Qed.

Lemma String_tail a s t : String a s = String a t -> s = t.
Proof. now intros [= ->]. Qed.

Lemma skip_ws_space t : skip_ws (String " " t) = skip_ws t.
Proof. reflexivity. Qed.

Lemma object_items_join level rest items :
  items <> [] ->
  Forall (fun kv => parses (snd kv)) items ->
  Forall (fun kv => representable (snd kv)) items ->
  forall acc fuel body,
    (String.length
       (join ("," ++ newline_indent (S level))
          (map (item_text (S level)) items)) <= fuel)%nat ->
    String dquote body
    = join ("," ++ newline_indent (S level)) (map (item_text (S level)) items)
      ++ newline_indent level ++ "}" ++ rest ->
    object_items fuel body acc = Some ((acc ++ items)%list, rest).
Proof.
  induction items as [|[k x] items IH]; [congruence|].
  intros _ Hp Hr acc fuel body Hf Hbody.
  inversion Hp as [|? ? Hx Hxs]; subst.
  inversion Hr as [|? ? Rx Rxs]; subst.
  simpl snd in Hx, Rx.
  destruct (iterencode_head (S level) x Rx) as (c & s & E & Hc).
  apply value_head_spec in Hc. destruct Hc as (Hws & _).
  pose proof (item_text_length (S level) k x) as Hlen.
  destruct items as [|kv' items].
  - change (join ("," ++ newline_indent (S level))
              (map (item_text (S level)) [(k, x)]))
      with (item_text (S level) (k, x)) in *.
    destruct fuel as [|fuel]; [lia|].
    rewrite item_text_unfold in Hbody. apply String_tail in Hbody.
    subst body.
    rewrite object_items_step, scanstring_escape.
    rewrite skip_ws_head by reflexivity.
    change (eqc ":" ":") with true. cbv iota.
    rewrite skip_ws_space, E.
    change (String c s ++ ?t) with (String c (s ++ t)).
    rewrite skip_ws_head by exact Hws.
    change (String c (s ++ ?t)) with (String c s ++ t). rewrite <- E.
    rewrite Hx by (reflexivity || lia).
    rewrite skip_ws_newline_indent.
    change ("}" ++ rest) with (String "}" rest).
    rewrite skip_ws_head by reflexivity. reflexivity.
  - change (join ("," ++ newline_indent (S level))
              (map (item_text (S level)) ((k, x) :: kv' :: items)))
      with (item_text (S level) (k, x) ++ ("," ++ newline_indent (S level))
            ++ join ("," ++ newline_indent (S level))
                 (map (item_text (S level)) (kv' :: items))) in *.
    rewrite !length_append in Hf.
    change (String.length ",") with 1%nat in Hf.
    destruct fuel as [|fuel]; [lia|].
    rewrite !append_assoc, item_text_unfold in Hbody.
    apply String_tail in Hbody. subst body.
    rewrite object_items_step, scanstring_escape.
    rewrite skip_ws_head by reflexivity.
    change (eqc ":" ":") with true. cbv iota.
    rewrite skip_ws_space, E.
    change (String c s ++ ?t) with (String c (s ++ t)).
    rewrite skip_ws_head by exact Hws.
    change (String c (s ++ ?t)) with (String c s ++ t). rewrite <- E.
    rewrite Hx by (reflexivity || lia).
    change ("," ++ ?t) with (String "," t).
    rewrite skip_ws_head by reflexivity.
    change (eqc "," "}") with false. change (eqc "," ",") with true.
    cbv iota. rewrite skip_ws_newline_indent.
    destruct (items_head ("," ++ newline_indent (S level)) (S level) kv' items
                (newline_indent level ++ "}" ++ rest)) as (body' & E').
    rewrite E'. rewrite skip_ws_head by reflexivity.
    change (eqc dquote dquote) with true. cbv iota.
    rewrite (IH ltac:(discriminate) Hxs Rxs _ fuel body');
      [|lia|symmetry; exact E'].
    now rewrite <- List.app_assoc.
Qed.

(** ** JSON: the decoder inverts the encoder *)

Lemma representable_list xs :
  representable (VList xs) -> Forall representable xs.
Proof. now inversion 1. Qed.

Lemma representable_dict items :
  representable (VDict items) ->
  NoDup (map fst items) /\ Forall (fun kv => representable (snd kv)) items.
Proof. now inversion 1. Qed.

Lemma Forall_impl2 {A} (P Q R : A -> Prop) l :
  (forall a, P a -> Q a -> R a) -> Forall P l -> Forall Q l -> Forall R l.
Proof.
  intros H HP. induction HP as [|a l Ha _ IH]; intros HQ; [constructor|].
  inversion HQ; subst. constructor; auto.
Qed.

Theorem scan_once_iterencode v : representable v -> parses v.
Proof.
  induction v as [|b|n|r|s|xs IH|items IH] using value_induction;
    intros Hrep level rest fuel Hst Hf.
  - destruct fuel as [|fuel]; [simpl in Hf; lia | reflexivity].
  - destruct fuel as [|fuel]; [destruct b; simpl in Hf; lia|].
    destruct b; reflexivity.
  - destruct (of_Z_head n) as (c & s & E & Hc).
    change (iterencode level (VInt n)) with (of_Z n) in *.
    destruct fuel as [|fuel]; [rewrite E in Hf; simpl in Hf; lia|].
    rewrite E. change (String c s ++ rest) with (String c (s ++ rest)).
    rewrite scan_once_number by exact Hc.
    change (String c (s ++ rest)) with (String c s ++ rest). rewrite <- E.
    now apply scan_number_int.
  - inversion Hrep as [| | |r' Hr| | |]; subst.
    destruct (floatstr_head r Hr) as (c & s & E & Hc).
    change (iterencode level (VFloat r)) with (floatstr r) in *.
    destruct fuel as [|fuel]; [rewrite E in Hf; simpl in Hf; lia|].
    rewrite E. change (String c s ++ rest) with (String c (s ++ rest)).
    rewrite scan_once_number by exact Hc.
    change (String c (s ++ rest)) with (String c s ++ rest). rewrite <- E.
    now apply scan_number_float.
  - destruct fuel as [|fuel]; [simpl in Hf; lia|].
    change (iterencode level (VStr s) ++ rest)
      with (String dquote ((escape s ++ String dquote "") ++ rest)).
    rewrite append_assoc.
    change (String dquote "" ++ rest) with (String dquote rest).
    change (scan_once (S fuel) (String dquote ?t))
      with (match scanstring t with
            | Some (text, r) => Some (VStr text, r)
            | None => None
            end).
    now rewrite scanstring_escape.
  - apply representable_list in Hrep.
    destruct xs as [|x xs].
    + destruct fuel as [|fuel]; [simpl in Hf; lia | reflexivity].
    + assert (Hp : Forall parses (x :: xs)).
      { revert IH Hrep. apply Forall_impl2. auto. }
      change (iterencode level (VList (x :: xs)))
        with ("[" ++ newline_indent (S level)
              ++ join ("," ++ newline_indent (S level))
                   (map (iterencode (S level)) (x :: xs))
              ++ newline_indent level ++ "]") in *.
      rewrite !length_append in Hf. change (String.length "[") with 1%nat in Hf.
      change (String.length "]") with 1%nat in Hf.
      destruct fuel as [|fuel]; [lia|].
      rewrite !append_assoc.
      change ("[" ++ ?t) with (String "[" t).
      rewrite scan_once_array, skip_ws_newline_indent.
      destruct (join_head ("," ++ newline_indent (S level)) (S level) x xs
                  (newline_indent level ++ "]" ++ rest))
        as (c & s & E & Hc); [now inversion Hrep|].
      rewrite E. apply value_head_spec in Hc. destruct Hc as (Hws & Hb & _).
      rewrite skip_ws_head by exact Hws. rewrite Hb, <- E.
      rewrite (array_items_join level rest (x :: xs)); try assumption.
      * reflexivity.
      * discriminate.
      * lia.
  - apply representable_dict in Hrep. destruct Hrep as [Hnd Hrep].
    destruct items as [|kv items].
    + destruct fuel as [|fuel]; [simpl in Hf; lia | reflexivity].
    + assert (Hp : Forall (fun kv => parses (snd kv)) (kv :: items)).
      { revert IH Hrep. apply Forall_impl2. auto. }
      change (iterencode level (VDict (kv :: items)))
        with ("{" ++ newline_indent (S level)
              ++ join ("," ++ newline_indent (S level))
                   (map (item_text (S level)) (kv :: items))
              ++ newline_indent level ++ "}") in *.
      rewrite !length_append in Hf. change (String.length "{") with 1%nat in Hf.
      destruct fuel as [|fuel]; [lia|].
      rewrite !append_assoc.
      change ("{" ++ ?t) with (String "{" t).
      rewrite scan_once_object, skip_ws_newline_indent.
      destruct (items_head ("," ++ newline_indent (S level)) (S level) kv items
                  (newline_indent level ++ "}" ++ rest)) as (body & E).
      rewrite E. rewrite skip_ws_head by reflexivity.
      change (eqc dquote "}") with false. change (eqc dquote dquote) with true.
      cbv iota.
      rewrite (object_items_join level rest (kv :: items)
                 ltac:(discriminate) Hp Hrep [] fuel body);
        [|lia|symmetry; exact E].
      simpl app. now rewrite dict_of_pairs_unique.
Qed.

(** [json.loads(json.dumps(v, indent=2, ensure_ascii=False))] is [v]. *)
Theorem loads_dumps v : representable v -> loads (dumps v) = Some v.
Proof.
  intros Hrep. unfold loads, dumps.
  destruct (iterencode_head 0 v Hrep) as (c & s & E & Hc).
  apply value_head_spec in Hc. destruct Hc as (Hws & _ & Hbom).
  assert (Hnobom : strip_prefix (String "239" (String "187" (String "191" "")))
                     (iterencode 0 v) = None).
  { rewrite E. cbn [strip_prefix]. now rewrite Hbom. }
  rewrite Hnobom.
  assert (Hskip : skip_ws (iterencode 0 v) = iterencode 0 v ++ "").
  { rewrite append_nil_r, E. now apply skip_ws_head. }
  rewrite Hskip.
  rewrite (scan_once_iterencode v Hrep 0%nat "" _ eq_refl) by lia.
  reflexivity.
Qed.

End JsonFacts.

(** ** The adapter *)

Module AdapterFacts.

Import Str StrFacts ClientFacts.

Lemma init_without_token base w :
  no_token w ->
  IntigritiResearcherAPI base None w = (Raise (Exn ValueError token_message), w).
Proof.
  intros [H | H]; unfold IntigritiResearcherAPI; run; rewrite H; reflexivity.
Qed.


(** A handler that answers every exception with a result makes the guarded
    block total. *)
Lemma try_except_total {A} (m : M A) handler w :
  (forall e w1, exists h a w2, handler e = Some h /\ h w1 = (Ok a, w2)) ->
  exists a w', try_except m handler w = (Ok a, w').
Proof.
  intros H. unfold try_except. destruct (m w) as [[a | e] w1].
  - now exists a, w1.
  - destruct (H e w1) as (h & a & w2 & -> & Hh). now exists a, w2.
Qed.




End AdapterFacts.

(** * The specification, statement by statement *)

Section Specification.

Import Str StrFacts ClientFacts UrlFacts JsonFacts AdapterFacts.

(** C1.  For every call of [get_programs] and of [get_program_activities]
    whose limit is an integer (given, or left to its default), the call is
    carried out as one request, and the query of that request holds
    [min(limit, 500)] under the key limit: a limit above 500 goes out as 500,
    a limit of at most 500 goes out unchanged, and no limit makes the call
    fail before the request.  (The request is made once [urljoin] has built
    its URL from the base URL of the client.) *)
Theorem limit_clamped_to_500 py self status_id type_id created_since following
  (limit : option Z) offset w url url' :
  request_url py self "v1/programs" = inr url ->
  request_url py self "v1/programs/activities" = inr url' ->
  let n := requested limit in
  (exists params,
     requests
       (snd (get_programs py self status_id type_id following
               (option_map VInt limit) offset w))
     = (requests w
        ++ [mkRequest (VStr "GET") url (client_headers self)
              (Some (VDict params)) None])%list
     /\ dict_lookup "limit" params = Some (VInt (Z.min n 500)))
  /\ (exists params,
        requests
          (snd (get_program_activities py self created_since following
                  (option_map VInt limit) offset w))
        = (requests w
           ++ [mkRequest (VStr "GET") url' (client_headers self)
                 (Some (VDict params)) None])%list
        /\ dict_lookup "limit" params = Some (VInt (Z.min n 500)))
  /\ (500 < n -> Z.min n 500 = 500)
  /\ (n <= 500 -> Z.min n 500 = n).
Proof.
  intros Hu Hu' n. split; [|split; [|split]].
  - rewrite get_programs_int. fold n.
    rewrite (make_request_once _ _ _ _ _ _ _ Hu).
    eexists. split; [reflexivity|].
    apply (programs_params_lookup (arg status_id VNone) (arg type_id VNone)
             (arg following VNone)).
  - rewrite get_program_activities_int. fold n.
    rewrite (make_request_once _ _ _ _ _ _ _ Hu').
    eexists. split; [reflexivity|].
    apply (activities_params_lookup (arg created_since VNone)
             (arg following VNone)).
  - lia.
  - lia.
Qed.

Lemma limit_clamped_to_500_witness :
  exists params,
    requests
      (snd (get_programs plain_py sample_client None None None
              (Some (VInt 9000)) None (connected programs_page)))
    = [mkRequest (VStr "GET")
         "https://api.intigriti.com/external/researcher/v1/programs"
         (client_headers sample_client) (Some (VDict params)) None]
    /\ dict_lookup "limit" params = Some (VInt 500).
Proof.
  exact (proj1 (limit_clamped_to_500 plain_py sample_client None None None
                  None (Some 9000) None (connected programs_page)
                  "https://api.intigriti.com/external/researcher/v1/programs"
                  "https://api.intigriti.com/external/researcher/v1/programs/activities"
                  eq_refl eq_refl)).
Defined.

(** C2.  Whenever the answer to the request has status 401, [_make_request]
    raises [IntigritiAPIError] with the message
    [Authentication failed. Check your API token.] and nothing else: the
    message is the same text for every response body. *)
Theorem unauthorized_message_is_fixed py self method path kwargs w url r :
  request_url py self path = inr url ->
  network w (requests w) (request_of self method url kwargs) = Responded r ->
  status_code r = 401 ->
  fst (_make_request py self method (VStr path) kwargs w)
  = Raise (Exn IntigritiAPIError "Authentication failed. Check your API token.").
Proof.
  intros Hu Hnet Hst. rewrite (make_request_sent _ _ _ _ _ _ _ Hu). cbv zeta.
  rewrite Hnet, Hst. reflexivity.
Qed.

Lemma unauthorized_message_is_fixed_witness :
  fst (_make_request plain_py sample_client (VStr "GET") (VStr "v1/programs")
         no_kwargs (connected unauthorized))
  = Raise (Exn IntigritiAPIError "Authentication failed. Check your API token.").
Proof.
  apply (unauthorized_message_is_fixed plain_py sample_client (VStr "GET")
           "v1/programs" no_kwargs (connected unauthorized)
           "https://api.intigriti.com/external/researcher/v1/programs"
           unauthorized); reflexivity.
Defined.

(** C3.  Whenever the answer has status 429, [_make_request] raises
    [IntigritiAPIError] with the message
    [Rate limited. Retry after ... seconds.], which contains every value the
    response carries under the header name Retry-After (names compare without
    case) and contains [60] when the response has no such header; the request
    has been issued once and is not repeated. *)
Theorem rate_limit_reports_retry_after py self method path kwargs w url r :
  request_url py self path = inr url ->
  network w (requests w) (request_of self method url kwargs) = Responded r ->
  status_code r = 429 ->
  exists msg,
    fst (_make_request py self method (VStr path) kwargs w)
    = Raise (Exn IntigritiAPIError msg)
    /\ StartsWith msg "Rate limited. Retry after "
    /\ (forall k v, In (k, v) (headers r) -> lower k = "retry-after" ->
        Contains msg v)
    /\ ((forall k v, In (k, v) (headers r) -> lower k <> "retry-after") ->
        msg = "Rate limited. Retry after 60 seconds." /\ Contains msg "60")
    /\ requests (snd (_make_request py self method (VStr path) kwargs w))
       = (requests w ++ [request_of self method url kwargs])%list.
Proof.
  intros Hu Hnet Hst. eexists.
  split; [exact (make_request_429 _ _ _ _ _ _ _ _ Hu Hnet Hst)|].
  split; [eexists; reflexivity|]. split; [|split].
  - intros k v Hin Hk. apply Contains_append_r, Contains_append_l.
    now apply headers_get_present with (k := k).
  - intros Habs. rewrite headers_get_absent by exact Habs.
    split; [reflexivity|]. apply contains_spec. reflexivity.
  - now apply make_request_once.
Qed.

Lemma rate_limit_reports_retry_after_witness :
  exists msg,
    fst (_make_request plain_py sample_client (VStr "GET") (VStr "v1/programs")
           no_kwargs (connected throttled))
    = Raise (Exn IntigritiAPIError msg)
    /\ Contains msg "120".
Proof.
  destruct (rate_limit_reports_retry_after plain_py sample_client (VStr "GET")
              "v1/programs" no_kwargs (connected throttled)
              "https://api.intigriti.com/external/researcher/v1/programs"
              throttled eq_refl eq_refl eq_refl)
    as (msg & Hrun & _ & Hval & _).
  exists msg. split; [exact Hrun|].
  apply (Hval "retry-after" "120"); [now left | reflexivity].
Defined.

(** C5.  Building the client without an explicit token while
    INTIGRITI_API_TOKEN is unset or empty raises [ValueError] and leaves the
    process state as it was, so no request has been made; with a non-empty
    token given explicitly or found in the environment the client is built,
    again without any request. *)
Theorem construction_requires_token base token w :
  (token = None -> no_token w ->
   exists msg,
     IntigritiResearcherAPI base token w = (Raise (Exn ValueError msg), w))
  /\ (forall t, t <> "" ->
      token = Some t \/ environ w "INTIGRITI_API_TOKEN" = Some t ->
      exists c, IntigritiResearcherAPI base token w = (Ok c, w)).
Proof.
  split.
  - intros -> H. exists token_message. now apply init_without_token.
  - intros t Ht H. unfold IntigritiResearcherAPI. run.
    destruct t as [|a t]; [contradiction|].
    destruct H as [-> | ->]; simpl.
    + eexists; reflexivity.
    + destruct token as [[|b u]|]; simpl; eexists; reflexivity.
Qed.

Lemma construction_requires_token_witness :
  (exists msg,
     IntigritiResearcherAPI default_base_url None unconfigured
     = (Raise (Exn ValueError msg), unconfigured))
  /\ (exists c,
        IntigritiResearcherAPI default_base_url None (configured programs_page)
        = (Ok c, configured programs_page)).
Proof.
  split.
  - apply (proj1 (construction_requires_token default_base_url None
                    unconfigured)); [reflexivity | now left].
  - apply (proj2 (construction_requires_token default_base_url None
                    (configured programs_page)) "secret");
      [discriminate | now right].
Defined.

(** C7.  In the query of the request [get_programs] makes, each of statusId,
    typeId and following is present exactly when the argument is given and
    is not [None], and then holds the argument; limit and offset are always
    present, and hold 20 and 0 when the caller leaves them out.  The same
    holds for [get_program_activities] with createdSince and following.
    (The request is made once [urljoin] has built its URL; the limit is an
    integer, given or left to its default.) *)
Theorem unset_filters_are_absent py self status_id type_id created_since
  following (limit : option Z) offset w url url' :
  request_url py self "v1/programs" = inr url ->
  request_url py self "v1/programs/activities" = inr url' ->
  let n := requested limit in
  (exists params,
     requests
       (snd (get_programs py self status_id type_id following
               (option_map VInt limit) offset w))
     = (requests w
        ++ [mkRequest (VStr "GET") url (client_headers self)
              (Some (VDict params)) None])%list
     /\ dict_lookup "limit" params = Some (VInt (Z.min n 500))
     /\ dict_lookup "offset" params = Some (arg offset (VInt 0))
     /\ dict_lookup "statusId" params
        = (if is_not_None (arg status_id VNone) then status_id else None)
     /\ dict_lookup "typeId" params
        = (if is_not_None (arg type_id VNone) then type_id else None)
     /\ dict_lookup "following" params
        = (if is_not_None (arg following VNone) then following else None)
     /\ (limit = None -> dict_lookup "limit" params = Some (VInt 20))
     /\ (offset = None -> dict_lookup "offset" params = Some (VInt 0)))
  /\ (exists params,
        requests
          (snd (get_program_activities py self created_since following
                  (option_map VInt limit) offset w))
        = (requests w
           ++ [mkRequest (VStr "GET") url' (client_headers self)
                 (Some (VDict params)) None])%list
        /\ dict_lookup "limit" params = Some (VInt (Z.min n 500))
        /\ dict_lookup "offset" params = Some (arg offset (VInt 0))
        /\ dict_lookup "createdSince" params
           = (if is_not_None (arg created_since VNone) then created_since
              else None)
        /\ dict_lookup "following" params
           = (if is_not_None (arg following VNone) then following else None)
        /\ (limit = None -> dict_lookup "limit" params = Some (VInt 20))
        /\ (offset = None -> dict_lookup "offset" params = Some (VInt 0))).
Proof.
  intros Hu Hu' n.
  pose proof (programs_params_lookup (arg status_id VNone) (arg type_id VNone)
                (arg following VNone) (VInt (Z.min n 500))
                (arg offset (VInt 0))) as (P1 & P2 & P3 & P4 & P5).
  pose proof (activities_params_lookup (arg created_since VNone)
                (arg following VNone) (VInt (Z.min n 500))
                (arg offset (VInt 0))) as (A1 & A2 & A3 & A4).
  split.
  - rewrite get_programs_int. fold n.
    rewrite (make_request_once _ _ _ _ _ _ _ Hu).
    eexists. split; [reflexivity|].
    split; [exact P1|]. split; [exact P2|].
    split; [rewrite P3; now destruct status_id as [[]|]|].
    split; [rewrite P4; now destruct type_id as [[]|]|].
    split; [rewrite P5; now destruct following as [[]|]|].
    split.
    + intros Hl. rewrite P1. subst limit. reflexivity.
    + intros Ho. rewrite P2. subst offset. reflexivity.
  - rewrite get_program_activities_int. fold n.
    rewrite (make_request_once _ _ _ _ _ _ _ Hu').
    eexists. split; [reflexivity|].
    split; [exact A1|]. split; [exact A2|].
    split; [rewrite A3; now destruct created_since as [[]|]|].
    split; [rewrite A4; now destruct following as [[]|]|].
    split.
    + intros Hl. rewrite A1. subst limit. reflexivity.
    + intros Ho. rewrite A2. subst offset. reflexivity.
Qed.

Lemma unset_filters_are_absent_witness :
  exists params,
    requests
      (snd (get_programs plain_py sample_client None (Some (VInt 3)) None
              None None (connected programs_page)))
    = [mkRequest (VStr "GET")
         "https://api.intigriti.com/external/researcher/v1/programs"
         (client_headers sample_client) (Some (VDict params)) None]
    /\ dict_lookup "limit" params = Some (VInt 20)
    /\ dict_lookup "offset" params = Some (VInt 0)
    /\ dict_lookup "statusId" params = None
    /\ dict_lookup "typeId" params = Some (VInt 3)
    /\ dict_lookup "following" params = None.
Proof.
  destruct (proj1 (unset_filters_are_absent plain_py sample_client None
                     (Some (VInt 3)) None None None None
                     (connected programs_page)
                     "https://api.intigriti.com/external/researcher/v1/programs"
                     "https://api.intigriti.com/external/researcher/v1/programs/activities"
                     eq_refl eq_refl))
    as (params & Hreq & Hl & Ho & Hs & Ht & Hf & _).
  exists params. repeat split; assumption.
Defined.






(** The status probe against a client that exists: a successful answer whose
    body is a mapping with maxCount shows that value after the success
    banner. *)
Lemma status_probe_success str_repr py c w url r items v :
  api_client w = Some c ->
  request_url py c "v1/programs" = inr url ->
  network w (requests w)
    (request_of c (VStr "GET") url
       (mkKwargs (Some (VDict [("limit", VInt 1); ("offset", VInt 0)])) None))
  = Responded r ->
  200 <= status_code r <= 299 ->
  json r = inr (VDict items) ->
  dict_lookup "maxCount" items = Some v ->
  fst (read_resource str_repr py status_uri w)
  = Ok (connected_banner ++ String Json.newline "Total programs accessible: "
        ++ py_str str_repr v)
  /\ Contains (connected_banner
               ++ String Json.newline "Total programs accessible: "
               ++ py_str str_repr v) (py_str str_repr v).
Proof.
  intros Hc Hu Hnet Hst Hjson Hv. split.
  - unfold read_resource.
    unfold bind at 1. unfold get_api_client at 1. cbv beta iota. rewrite Hc.
    unfold bind at 1. unfold ret at 1. cbv beta iota.
    change (String.eqb status_uri status_uri) with true. cbv iota.
    unfold try_except at 1. unfold bind at 1.
    change (Some (VInt 1)) with (option_map VInt (Some 1)).
    rewrite (get_programs_int py c None None None (Some 1) None).
    change (programs_params _ _ _ _ _)
      with [("limit", VInt 1); ("offset", VInt 0)].
    rewrite (make_request_sent _ _ _ _ _ _ _ Hu). cbv zeta. rewrite Hnet.
    replace (status_code r =? 429)%Z with false by (symmetry; lia).
    replace (status_code r =? 401)%Z with false by (symmetry; lia).
    replace ((200 <=? status_code r)%Z && (status_code r <=? 299)%Z)
      with true by (symmetry; apply andb_true_iff; lia).
    rewrite Hjson. unfold programs_get, dict_get, bind, ret.
    rewrite Hv. reflexivity.
  - apply Contains_append_r.
    change (String Json.newline "Total programs accessible: "
            ++ py_str str_repr v)
      with (String Json.newline
              ("Total programs accessible: " ++ py_str str_repr v)).
    exists (String Json.newline "Total programs accessible: "), "".
    simpl. now rewrite append_nil_r.
Qed.

(** Against a client that exists the probe never raises: whatever
    [get_programs] or the lookup of maxCount raises comes back as the failure
    banner followed by the message of the exception. *)
Lemma status_probe_captures str_repr py c w :
  api_client w = Some c ->
  (exists t w', read_resource str_repr py status_uri w = (Ok t, w'))
  /\ (forall e w',
        (programs <- get_programs py c None None None (Some (VInt 1)) None ;;
         count <- programs_get programs "maxCount" (VStr "Unknown") ;;
         ret (connected_banner
              ++ String Json.newline "Total programs accessible: "
              ++ py_str str_repr count)) w = (Raise e, w') ->
        read_resource str_repr py status_uri w
        = (Ok (failed_banner ++ String Json.newline "Error: " ++ exn_str e), w')
        /\ Contains (failed_banner ++ String Json.newline "Error: "
                     ++ exn_str e) (exn_str e)).
Proof.
  intros Hc. split.
  - unfold read_resource.
    unfold bind at 1. unfold get_api_client at 1. cbv beta iota. rewrite Hc.
    unfold bind at 1. unfold ret at 1. cbv beta iota.
    change (String.eqb status_uri status_uri) with true. cbv iota.
    apply try_except_total. intros e w1.
    eexists; eexists; eexists. split; reflexivity.
  - intros e w' Hrun. split.
    + unfold read_resource.
      unfold bind at 1. unfold get_api_client at 1. cbv beta iota. rewrite Hc.
      unfold bind at 1. unfold ret at 1. cbv beta iota.
      change (String.eqb status_uri status_uri) with true. cbv iota.
      unfold try_except at 1. rewrite Hrun. reflexivity.
    + apply Contains_append_r.
      exists (String Json.newline "Error: "), "".
      simpl. now rewrite append_nil_r.
Qed.

(** C8.  The reading of the status resource does raise: with no client built
    and no usable token, [read_resource] builds the client outside its
    [try] block and the [ValueError] of the constructor leaves the handler,
    where [call_tool] in the same state answers with a text. *)
Theorem status_probe_raises_without_token str_repr py w :
  api_client w = None -> no_token w ->
  read_resource str_repr py status_uri w
  = (Raise (Exn ValueError token_message), w).
Proof.
  intros Hc Htok. unfold read_resource.
  unfold bind at 1. unfold get_api_client at 1. cbv beta iota. rewrite Hc.
  unfold bind at 1. unfold bind at 1.
  rewrite (init_without_token _ _ Htok). reflexivity.
Qed.

Lemma status_probe_raises_without_token_witness :
  read_resource plain_repr plain_py "intigriti://api/status" unconfigured
  = (Raise (Exn ValueError token_message), unconfigured).
Proof.
  apply (status_probe_raises_without_token plain_repr plain_py unconfigured);
    [reflexivity | now left].
Defined.




(** C9.  For every JSON-representable value (finite numbers, dictionaries
    with distinct text keys, any text), parsing the text that [call_tool]
    makes of it with [json.dumps(result, indent=2, ensure_ascii=False)] gives
    the value back, items in the same order; and that text is what
    [call_tool] returns whenever the call of a catalog tool succeeds with this
    value. *)
Theorem pretty_printing_is_lossless v :
  Json.representable v ->
  Json.loads (Json.dumps v) = Some v
  /\ (forall str_repr py name arguments w client call w',
        api_client w = Some client ->
        dispatch str_repr py client name arguments = Some call ->
        call w = (Ok v, w') ->
        call_tool str_repr py name arguments w
        = (Ok (text_content (Json.dumps v)), w')).
Proof.
  intros Hrep. split; [now apply loads_dumps|].
  intros str_repr py name arguments w client call w' Hc Hd Hcall.
  unfold call_tool.
  unfold bind at 1. unfold get_api_client at 1. cbv beta iota. rewrite Hc.
  unfold bind at 1. unfold ret at 1. cbv beta iota.
  rewrite Hd. unfold try_except, bind. rewrite Hcall. reflexivity.
Qed.

Lemma pretty_printing_is_lossless_witness :
  Json.loads (Json.dumps sample_body) = Some sample_body.
Proof.
  apply (pretty_printing_is_lossless sample_body).
  repeat first
    [ apply Json.rep_none | apply Json.rep_bool | apply Json.rep_int
    | apply Json.rep_str | apply Json.rep_float; reflexivity
    | apply Json.rep_list | apply Json.rep_dict
    | apply Forall_cons | apply Forall_nil
    | apply NoDup_cons | apply NoDup_nil
    | (simpl; intuition discriminate) ].
Defined.

End Specification.

(** * Further properties of the client and of the handlers *)

Module RequestFacts.

Import Str StrFacts ClientFacts.

Lemma make_request_not_text py self method endpoint kwargs w :
  is_text endpoint = false ->
  _make_request py self method endpoint kwargs w
  = (Raise (Exn AttributeError
              ("'" ++ type_name endpoint
               ++ "' object has no attribute 'lstrip'")), w).
Proof. destruct endpoint; try discriminate; reflexivity. Qed.

Lemma grows_refl n m w : grows n m w w.
Proof.
  repeat split. exists [], []. rewrite !List.app_nil_r. simpl.
  repeat split; lia.
Qed.

Lemma grows_weaken n m n' m' w w' :
  (n <= n')%nat -> (m <= m')%nat -> grows n m w w' -> grows n' m' w w'.
Proof.
  intros Hn Hm (He & Hnet & reqs & logs & Hr & Hl & H1 & H2).
  repeat split; try assumption. exists reqs, logs. repeat split; try assumption; lia.
Qed.

Lemma grows_request w req : grows 1 0 w (with_request w req).
Proof.
  repeat split. exists [req], []. simpl. rewrite List.app_nil_r.
  repeat split; lia.
Qed.

Lemma grows_log n w w' msg :
  grows n 0 w w' -> grows n 1 w (with_log w' msg).
Proof.
  intros (He & Hnet & reqs & logs & Hr & Hl & H1 & H2).
  destruct logs; [|simpl in H2; lia]. rewrite List.app_nil_r in Hl.
  repeat split; try assumption. exists reqs, [msg]. simpl. rewrite Hl.
  repeat split; try assumption; lia.
Qed.

(** What one run of [_make_request] does to the process state, for every
    endpoint value: at most one request; a log record only together with an
    [IntigritiAPIError]; the client untouched. *)
Lemma make_request_effect py self method endpoint kwargs w :
  let out := _make_request py self method endpoint kwargs w in
  api_client (snd out) = api_client w
  /\ grows 1 1 w (snd out)
  /\ (grows 1 0 w (snd out)
      \/ exists msg, fst out = Raise (Exn IntigritiAPIError msg)).
Proof.
  assert (Hidle : forall (r : Result value),
            api_client (snd (r, w)) = api_client w
            /\ grows 1 1 w (snd (r, w))
            /\ (grows 1 0 w (snd (r, w))
                \/ exists msg, fst (r, w) = Raise (Exn IntigritiAPIError msg))).
  { intros r. simpl. split; [reflexivity|].
    split; [|left]; apply grows_weaken with 0%nat 0%nat; try lia;
      apply grows_refl. }
  destruct (is_text endpoint) eqn:Et.
  - destruct endpoint as [| | | |path| |]; try discriminate.
    cbv zeta. rewrite make_request_run.
    destruct (request_url py self path) as [msg | url]; [apply Hidle|].
    cbv zeta.
    pose proof (grows_request w (request_of self method url kwargs)) as G.
    pose proof (grows_weaken 1 0 1 1 _ _ (le_n 1) (le_S 0 0 (le_n 0)) G) as G1.
    destruct (network w (requests w) _) as [r | e].
    + destruct (status_code r =? 429)%Z; [simpl; auto|].
      destruct (status_code r =? 401)%Z; [simpl; auto|].
      destruct ((200 <=? status_code r)%Z && (status_code r <=? 299)%Z).
      * destruct (json r); simpl; auto.
      * simpl. split; [reflexivity|]. split; [now apply grows_log|].
        right. eauto.
    + destruct e as [[] msg | msg r]; simpl; auto.
      * split; [reflexivity|]. split; [now apply grows_log|]. right. eauto.
      * split; [reflexivity|]. split; [now apply grows_log|]. right. eauto.
  - cbv zeta. rewrite make_request_not_text by exact Et. apply Hidle.
Qed.

(** *** [rstrip] *)

Lemma rstrip_snoc c s : rstrip c (s ++ String c "") = rstrip c s.
Proof.
  induction s as [|a s IH].
  - simpl. now rewrite eqc_refl.
  - change (String a s ++ String c "") with (String a (s ++ String c "")).
    cbn [rstrip]. now rewrite IH.
Qed.

Lemma snoc_nonempty t c : t ++ String c "" <> "".
Proof. destruct t; discriminate. Qed.

Lemma rstrip_no_trailing c s t : rstrip c s <> t ++ String c "".
Proof.
  revert t. induction s as [|a s IH]; intros t.
  - simpl. intros H. symmetry in H. now apply snoc_nonempty in H.
  - cbn [rstrip]. destruct (rstrip c s) as [|b r] eqn:E.
    + destruct (eqc a c) eqn:Ea.
      * intros H. symmetry in H. now apply snoc_nonempty in H.
      * destruct t as [|x t]; simpl; intros H; inversion H; subst.
        -- now rewrite eqc_refl in Ea.
        -- match goal with
           | H2 : "" = _ |- _ => symmetry in H2; now apply snoc_nonempty in H2
           end.
    + destruct t as [|x t]; simpl; intros H; inversion H; subst.
      now apply (IH t).
Qed.

(** *** URLs of plain and of absolute endpoints *)

Lemma request_url_plain py self sch host bsegs segs :
  base_url self = Url.base_of sch host bsegs ->
  Url.plain_base sch host bsegs = true ->
  Url.plain_path segs = true ->
  request_url py self (join "/" segs)
  = inr (base_url self ++ "/" ++ join "/" segs).
Proof.
  intros Hb Hbase Hpath. unfold request_url. rewrite Hb.
  destruct (UrlFacts.plain_path_head segs Hpath) as (a & rest & He & Ha).
  apply UrlFacts.plain_char_spec in Ha. destruct Ha as (_ & Hslash & _).
  assert (Hs : lstrip "/" (join "/" segs) = join "/" segs).
  { rewrite He. simpl. now rewrite Hslash. }
  rewrite Hs. now apply UrlFacts.urljoin_plain_path.
Qed.

Lemma break_host stop host tail :
  forallb (fun a => negb (stop a)) host = true ->
  tail = "" \/ (exists c t, tail = String c t /\ stop c = true) ->
  Str.break stop (host ++ tail) = (host, tail).
Proof.
  intros Hh [-> | Ht]; [|now apply UrlFacts.break_append].
  rewrite append_nil_r. induction host as [|a host IH]; [reflexivity|].
  simpl in *. apply andb_true_iff in Hh. destruct Hh as [Ha Hh].
  apply negb_true_iff in Ha. now rewrite Ha, (IH Hh).
Qed.

Lemma path_of_shape segs :
  Url.path_of segs = "" \/ exists t, Url.path_of segs = String "/" t.
Proof. destruct segs; simpl; eauto. Qed.

(** [urlparse] on an absolute URL with a plain host and path, whatever the
    default scheme. *)
Lemma urlparse_absolute py sch host segs default :
  Url.plain_base sch host segs = true ->
  Url.urlparse py (Url.base_of sch host segs) default
  = inr (Url.mkParse sch host (Url.path_of segs) "" "" "").
Proof.
  unfold Url.plain_base. rewrite !andb_true_iff.
  intros [[[Hsch Hne] Hhost0] Hsegs].
  destruct (UrlFacts.plain_host_checks py host Hhost0) as [Hck1 Hck2].
  pose proof (UrlFacts.host_is_plain host Hhost0) as Hhost.
  assert (Hs : Forall (fun s => Url.plain_segment s = true) segs).
  { apply Forall_forall. now apply List.forallb_forall. }
  assert (Hpath : Str.forallb Url.path_char (Url.path_of segs) = true).
  { pose proof (UrlFacts.path_char_path_of segs Hs) as H.
    rewrite UrlFacts.forallb_append in H.
    now apply andb_true_iff in H. }
  pose proof UrlFacts.path_char_facts as Hall.
  assert (Hhost' : Str.forallb Url.path_char host = true).
  { revert Hhost. apply UrlFacts.forallb_weaken. intros a Ha.
    unfold Url.path_char. now rewrite Ha. }
  set (R := host ++ Url.path_of segs).
  assert (Hrest : Str.forallb Url.path_char R = true)
    by (unfold R; now rewrite UrlFacts.forallb_append, Hhost', Hpath).
  assert (Hclean : Str.remove Url.is_unsafe R = R)
    by (apply (UrlFacts.remove_none Url.path_char); [apply Hall | exact Hrest]).
  assert (Hbreak : Str.break Url.is_netloc_delim R = (host, Url.path_of segs)).
  { apply break_host.
    - revert Hhost. apply UrlFacts.forallb_weaken. intros a Ha.
      apply UrlFacts.plain_char_spec in Ha.
      destruct Ha as (_ & H1 & H2 & H3 & _).
      unfold Url.is_netloc_delim. now rewrite H1, H2, H3.
    - destruct (path_of_shape segs) as [-> | (t & ->)]; [now left|].
      right. now exists "/"%char, t. }
  unfold Url.base_of, Url.urlparse, Url.urlsplit. fold R.
  apply UrlFacts.web_scheme_spec in Hsch.
  destruct Hsch as [-> | ->].
  - change (Str.lstrip_if Url.is_c0_or_space ("http" ++ "://" ++ R))
      with ("http://" ++ R).
    change (Str.remove Url.is_unsafe ("http://" ++ R))
      with ("http://" ++ Str.remove Url.is_unsafe R).
    rewrite Hclean.
    change (Str.cut ":" ("http://" ++ R)) with (Some ("http", "//" ++ R)).
    cbv beta iota.
    change (Str.is_alpha "h" && Str.forallb Url.is_scheme_char "http")
      with true.
    cbv beta iota.
    change (Str.lower "http") with "http".
    change ("//" ++ R) with (String "/" (String "/" R)). cbv beta iota.
    change (eqc "/" "/" && eqc "/" "/") with true. cbv beta iota.
    rewrite Hbreak. cbv beta iota zeta. rewrite Hck1. cbv iota.
    rewrite (UrlFacts.cut_none Url.path_char "#") by (exact Hpath || apply Hall).
    rewrite (UrlFacts.cut_none Url.path_char "?") by (exact Hpath || apply Hall).
    cbv beta iota zeta. rewrite Hck2. cbv iota.
    cbn [Url.scheme Url.netloc Url.path Url.query Url.fragment].
    rewrite (UrlFacts.mem_false Url.path_char ";")
      by (exact Hpath || apply Hall).
    reflexivity.
  - change (Str.lstrip_if Url.is_c0_or_space ("https" ++ "://" ++ R))
      with ("https://" ++ R).
    change (Str.remove Url.is_unsafe ("https://" ++ R))
      with ("https://" ++ Str.remove Url.is_unsafe R).
    rewrite Hclean.
    change (Str.cut ":" ("https://" ++ R)) with (Some ("https", "//" ++ R)).
    cbv beta iota.
    change (Str.is_alpha "h" && Str.forallb Url.is_scheme_char "https")
      with true.
    cbv beta iota.
    change (Str.lower "https") with "https".
    change ("//" ++ R) with (String "/" (String "/" R)). cbv beta iota.
    change (eqc "/" "/" && eqc "/" "/") with true. cbv beta iota.
    rewrite Hbreak. cbv beta iota zeta. rewrite Hck1. cbv iota.
    rewrite (UrlFacts.cut_none Url.path_char "#") by (exact Hpath || apply Hall).
    rewrite (UrlFacts.cut_none Url.path_char "?") by (exact Hpath || apply Hall).
    cbv beta iota zeta. rewrite Hck2. cbv iota.
    cbn [Url.scheme Url.netloc Url.path Url.query Url.fragment].
    rewrite (UrlFacts.mem_false Url.path_char ";")
      by (exact Hpath || apply Hall).
    reflexivity.
Qed.

Lemma urlunparse_absolute sch host segs :
  Url.plain_base sch host segs = true ->
  Url.urlunparse (Url.mkParse sch host (Url.path_of segs) "" "" "")
  = Url.base_of sch host segs.
Proof.
  unfold Url.plain_base. rewrite !andb_true_iff.
  intros [[[Hsch Hne] _] _].
  unfold Url.urlunparse, Url.urlunsplit, Url.base_of.
  cbn [Url.p_scheme Url.p_netloc Url.p_path Url.p_params Url.p_query
       Url.p_fragment Url.scheme Url.netloc Url.path Url.query Url.fragment].
  change (Url.nonempty "") with false. cbv iota.
  cbn [Url.scheme Url.netloc Url.path Url.query Url.fragment].
  rewrite Hne. cbn [orb].
  assert (Hp : (if Url.nonempty (Url.path_of segs)
                   && negb (String.eqb (take 1 (Url.path_of segs)) "/")
                then "/" ++ Url.path_of segs else Url.path_of segs)
               = Url.path_of segs).
  { destruct (path_of_shape segs) as [-> | (t & ->)]; [reflexivity|].
    destruct t; reflexivity. }
  rewrite Hp.
  apply UrlFacts.web_scheme_spec in Hsch.
  destruct Hsch as [-> | ->]; reflexivity.
Qed.

Lemma nonempty_snoc s t : Url.nonempty (s ++ String t "") = true.
Proof. destruct s; reflexivity. Qed.

(** An absolute URL given as endpoint is the URL of the request, whatever
    the base URL, as long as [urlparse] accepts the base URL. *)
Lemma request_url_absolute py self sch host segs b :
  Url.urlparse py (base_url self ++ "/") "" = inr b ->
  Url.plain_base sch host segs = true ->
  request_url py self (Url.base_of sch host segs)
  = inr (Url.base_of sch host segs).
Proof.
  intros Hb Hbase. unfold request_url.
  pose proof (urlunparse_absolute sch host segs Hbase) as Hun.
  pose proof (fun d => urlparse_absolute py sch host segs d Hbase) as Hparse.
  unfold Url.plain_base in Hbase. rewrite !andb_true_iff in Hbase.
  destruct Hbase as [[[Hsch Hne] _] _].
  assert (Hstrip : lstrip "/" (Url.base_of sch host segs)
                   = Url.base_of sch host segs).
  { apply UrlFacts.web_scheme_spec in Hsch.
    destruct Hsch as [-> | ->]; reflexivity. }
  assert (Hnon : Url.nonempty (Url.base_of sch host segs) = true).
  { apply UrlFacts.web_scheme_spec in Hsch.
    destruct Hsch as [-> | ->]; reflexivity. }
  assert (Hnet : Url.among sch Url.uses_netloc = true).
  { apply UrlFacts.web_scheme_spec in Hsch.
    destruct Hsch as [-> | ->]; reflexivity. }
  rewrite Hstrip. unfold Url.urljoin.
  change (base_url self ++ "/") with (base_url self ++ String "/" "") in *.
  rewrite nonempty_snoc, Hnon. cbn [negb]. rewrite Hb, Hparse.
  cbn [Url.p_scheme Url.p_netloc Url.p_path Url.p_params Url.p_query
       Url.p_fragment].
  destruct (negb (String.eqb sch _) || negb (Url.among sch Url.uses_relative));
    [reflexivity|].
  rewrite Hnet, Hne. cbn [andb]. now rewrite Hun.
Qed.

(** *** The handlers *)

Lemma call_tool_connected str_repr py name arguments w c :
  api_client w = Some c ->
  call_tool str_repr py name arguments w
  = guarded_call str_repr py c name arguments w.
Proof.
  intros Hc. unfold call_tool.
  unfold bind at 1. unfold get_api_client at 1. cbv beta iota. rewrite Hc.
  reflexivity.
Qed.

Lemma init_from_environment w t :
  has_token w t ->
  IntigritiResearcherAPI default_base_url None w = (Ok (client_for t), w).
Proof.
  intros [He Ht]. unfold IntigritiResearcherAPI. run. rewrite He.
  destruct t as [|a t]; [contradiction | reflexivity].
Qed.

Lemma call_tool_fresh str_repr py name arguments w t :
  api_client w = None -> has_token w t ->
  call_tool str_repr py name arguments w
  = guarded_call str_repr py (client_for t) name arguments
      (with_client w (client_for t)).
Proof.
  intros Hc Ht. unfold call_tool.
  unfold bind at 1. unfold get_api_client at 1. cbv beta iota. rewrite Hc.
  unfold bind at 1. unfold try_except at 1. unfold bind at 1.
  rewrite (init_from_environment w t Ht). reflexivity.
Qed.

Lemma call_tool_unconfigured str_repr py name arguments w :
  api_client w = None -> no_token w ->
  call_tool str_repr py name arguments w
  = (Ok (text_content ("Configuration error: " ++ token_message)), w).
Proof.
  intros Hc Ht. unfold call_tool.
  unfold bind at 1. unfold get_api_client at 1. cbv beta iota. rewrite Hc.
  unfold bind at 1. unfold try_except at 1. unfold bind at 1.
  rewrite (AdapterFacts.init_without_token _ _ Ht). reflexivity.
Qed.

(** Either a usable token or none. *)
Lemma token_or_not w : (exists t, has_token w t) \/ no_token w.
Proof.
  unfold has_token, no_token.
  destruct (environ w "INTIGRITI_API_TOKEN") as [[|a t]|]; auto.
  left. exists (String a t). split; [reflexivity | discriminate].
Qed.

Lemma tame_make_request py self method endpoint kwargs :
  tame (_make_request py self method endpoint kwargs).
Proof. intros w. apply make_request_effect. Qed.

Lemma tame_raise {A} e : tame (@raise A e).
Proof.
  intros w. simpl. split; [reflexivity|].
  split; [|left]; apply grows_weaken with 0%nat 0%nat; try lia;
    apply grows_refl.
Qed.

Lemma tame_dict_item {A} arguments k (f : value -> M A) :
  (forall v, tame (f v)) -> tame (v <- dict_item arguments k ;; f v).
Proof.
  intros H w. unfold bind, dict_item.
  destruct (dict_lookup k arguments) as [v|]; simpl.
  - apply H.
  - apply (tame_raise (A := A)).
Qed.

Lemma tame_lift {A B} (r : Result A) (f : A -> M B) :
  (forall v, tame (f v)) -> tame (v <- lift r ;; f v).
Proof.
  intros H w. unfold bind, lift. destruct r as [v|e]; simpl.
  - apply H.
  - apply (tame_raise (A := B)).
Qed.

Lemma dispatch_cases str_repr py client name arguments call :
  dispatch str_repr py client name arguments = Some call ->
  In name tool_names.
Proof.
  unfold dispatch, tool_names.
  repeat match goal with
  | |- context [String.eqb name ?t] =>
      destruct (String.eqb_spec name t) as [-> | _];
      [intros _; simpl; tauto|]
  end.
  discriminate.
Qed.

Lemma dispatch_tame str_repr py client name arguments call :
  dispatch str_repr py client name arguments = Some call -> tame call.
Proof.
  intros H. pose proof (dispatch_cases _ _ _ _ _ _ H) as Hin.
  simpl in Hin.
  destruct Hin as [<-|[<-|[<-|[<-|[<-|[<-|[]]]]]]];
    cbv [dispatch String.eqb Ascii.eqb Bool.eqb] in H;
    injection H as <-.
  - unfold get_programs. apply tame_lift. intros v. apply tame_make_request.
  - apply tame_dict_item. intros v. apply tame_make_request.
  - unfold get_program_activities. apply tame_lift. intros v.
    apply tame_make_request.
  - apply tame_dict_item. intros v. apply tame_dict_item. intros v'.
    apply tame_make_request.
  - apply tame_dict_item. intros v. apply tame_dict_item. intros v'.
    apply tame_make_request.
  - apply tame_dict_item. intros v. apply tame_dict_item. intros v'.
    apply tame_make_request.
Qed.

(** The guarded part always answers with one text block. *)
Lemma guarded_call_effect str_repr py client name arguments w :
  let out := guarded_call str_repr py client name arguments w in
  (exists t, fst out = Ok (text_content t))
  /\ api_client (snd out) = api_client w
  /\ grows 1 1 w (snd out).
Proof.
  cbv zeta. unfold guarded_call, try_except.
  destruct (dispatch str_repr py client name arguments) as [call|] eqn:D.
  - pose proof (dispatch_tame _ _ _ _ _ _ D w) as (Hc & G & Hl).
    unfold bind. destruct (call w) as [[v | e] w1]; simpl in *.
    + eauto.
    + destruct e as [[] msg | msg r]; simpl;
        try (split; [eauto|]; split; [exact Hc|];
             destruct Hl as [G0 | (m & [=])];
             now apply grows_log).
      eauto.
  - simpl. split; [eauto|]. split; [reflexivity|].
    apply grows_weaken with 0%nat 0%nat; try lia. apply grows_refl.
Qed.

Lemma grows_with_client n m w w' c :
  grows n m (with_client w c) w' -> grows n m w w'.
Proof. exact (fun H => H). Qed.

(** The guarded part, by the outcome of the dispatched call. *)
Lemma guarded_call_run str_repr py client name arguments call w :
  dispatch str_repr py client name arguments = Some call ->
  guarded_call str_repr py client name arguments w
  = match call w with
    | (Ok v, w1) => (Ok (text_content (Json.dumps v)), w1)
    | (Raise e, w1) =>
        if is_api_error e
        then (Ok (text_content ("API error: " ++ exn_str e)), w1)
        else (Ok (text_content ("Error: " ++ exn_str e)),
              with_log w1 ("Tool call error: " ++ exn_str e))
    end.
Proof.
  intros D. unfold guarded_call. rewrite D. unfold try_except, bind.
  destruct (call w) as [[v | e] w1]; [reflexivity|].
  destruct e as [[] msg | msg r]; reflexivity.
Qed.

(** A tool call makes the requests of the API call it dispatches to. *)
Lemma guarded_call_requests str_repr py client name arguments call w :
  dispatch str_repr py client name arguments = Some call ->
  requests (snd (guarded_call str_repr py client name arguments w))
  = requests (snd (call w)).
Proof.
  intros D. rewrite (guarded_call_run _ _ _ _ _ _ w D).
  destruct (call w) as [[v | e] w1]; [reflexivity|].
  destruct (is_api_error e); reflexivity.
Qed.

(** *** [read_resource] *)

Lemma read_resource_connected str_repr py uri w c :
  api_client w = Some c ->
  read_resource str_repr py uri w = serve_resource str_repr py c uri w.
Proof.
  intros Hc. unfold read_resource.
  unfold bind at 1. unfold get_api_client at 1. cbv beta iota. rewrite Hc.
  reflexivity.
Qed.

Lemma read_resource_fresh str_repr py uri w t :
  api_client w = None -> has_token w t ->
  read_resource str_repr py uri w
  = serve_resource str_repr py (client_for t) uri (with_client w (client_for t)).
Proof.
  intros Hc Ht. unfold read_resource.
  unfold bind at 1. unfold get_api_client at 1. cbv beta iota. rewrite Hc.
  unfold bind at 1. unfold bind at 1.
  rewrite (init_from_environment w t Ht). reflexivity.
Qed.

Lemma read_resource_unconfigured str_repr py uri w :
  api_client w = None -> no_token w ->
  read_resource str_repr py uri w = (Raise (Exn ValueError token_message), w).
Proof.
  intros Hc Ht. unfold read_resource.
  unfold bind at 1. unfold get_api_client at 1. cbv beta iota. rewrite Hc.
  unfold bind at 1. unfold bind at 1.
  rewrite (AdapterFacts.init_without_token _ _ Ht). reflexivity.
Qed.

(** The one query of the status probe. *)
Lemma probe_is_one_request py c :
  get_programs py c None None None (Some (VInt 1)) None
  = _make_request py c (VStr "GET") (VStr "v1/programs")
      (mkKwargs (Some (VDict [("limit", VInt 1); ("offset", VInt 0)])) None).
Proof.
  change (Some (VInt 1)) with (option_map VInt (Some 1)).
  rewrite (get_programs_int py c None None None (Some 1) None). reflexivity.
Qed.

(** What serving a resource does to the process state. *)
Lemma serve_resource_effect str_repr py client uri w :
  let out := serve_resource str_repr py client uri w in
  api_client (snd out) = api_client w /\ grows 1 1 w (snd out).
Proof.
  cbv zeta. unfold serve_resource.
  destruct (String.eqb uri status_uri).
  - unfold try_except, bind. rewrite probe_is_one_request.
    destruct (make_request_effect py client (VStr "GET") (VStr "v1/programs")
                (mkKwargs (Some (VDict [("limit", VInt 1); ("offset", VInt 0)]))
                   None) w) as (Hc & G & _).
    destruct (_make_request _ _ _ _ _ w) as [[v | e] w1]; simpl in *.
    + unfold programs_get. destruct v; simpl; auto.
    + auto.
  - destruct (String.eqb uri endpoints_uri); simpl;
      (split; [reflexivity|]; apply grows_weaken with 0%nat 0%nat; try lia;
       apply grows_refl).
Qed.


(** *** The keys of a query *)

Lemma dict_lookup_keys k d :
  dict_lookup k d <> None -> In k (map fst d).
Proof.
  induction d as [|[k' v] d IH]; simpl; [congruence|].
  destruct (String.eqb_spec k' k); auto.
Qed.

Lemma programs_params_keys status_id type_id following limit offset k :
  dict_lookup k (programs_params status_id type_id following limit offset)
  <> None ->
  In k ["limit"; "offset"; "statusId"; "typeId"; "following"].
Proof.
  intros H. apply dict_lookup_keys in H. revert H. unfold programs_params.
  destruct (is_not_None status_id), (is_not_None type_id),
    (is_not_None following); cbn; tauto.
Qed.

Lemma activities_params_keys created_since following limit offset k :
  dict_lookup k (activities_params created_since following limit offset)
  <> None ->
  In k ["limit"; "offset"; "createdSince"; "following"].
Proof.
  intros H. apply dict_lookup_keys in H. revert H. unfold activities_params.
  destruct (is_not_None created_since), (is_not_None following); cbn; tauto.
Qed.

(** [arguments.get(k)] as a filter: an explicit null counts as absent. *)
Lemma filter_sent arguments k :
  (if is_not_None (dict_get arguments k VNone)
   then Some (dict_get arguments k VNone) else None)
  = match dict_lookup k arguments with
    | Some VNone => None
    | given => given
    end.
Proof.
  unfold dict_get. destruct (dict_lookup k arguments) as [[]|]; reflexivity.
Qed.

End RequestFacts.

Section FurtherProperties.

Import Str StrFacts ClientFacts UrlFacts JsonFacts AdapterFacts RequestFacts.

(** X1.  A response whose status is neither 429 nor 401 nor in 200..299 makes
    [_make_request] raise [IntigritiAPIError] with the message
    [API request failed: status - body], after one request and one log
    record; the status and the whole response body are part of the
    message. *)
Theorem http_error_reports_status_and_body py self method path kwargs w url r :
  request_url py self path = inr url ->
  network w (requests w) (request_of self method url kwargs) = Responded r ->
  status_code r <> 429 -> status_code r <> 401 ->
  ~ (200 <= status_code r <= 299) ->
  let msg := "API request failed: " ++ of_Z (status_code r) ++ " - " ++ text r in
  _make_request py self method (VStr path) kwargs w
  = (Raise (Exn IntigritiAPIError msg),
     with_log (with_request w (request_of self method url kwargs))
       ("HTTP error " ++ of_Z (status_code r) ++ ": " ++ text r))
  /\ Contains msg (of_Z (status_code r))
  /\ Contains msg (text r).
Proof.
  intros Hu Hnet H429 H401 Hok msg. split; [|split].
  - rewrite (make_request_sent _ _ _ _ _ _ _ Hu). cbv zeta. rewrite Hnet.
    replace (status_code r =? 429)%Z with false by (symmetry; lia).
    replace (status_code r =? 401)%Z with false by (symmetry; lia).
    replace ((200 <=? status_code r)%Z && (status_code r <=? 299)%Z)
      with false; [reflexivity|].
    symmetry. apply andb_false_iff. lia.
  - unfold msg. apply Contains_append_r, Contains_append_l, Contains_refl.
  - unfold msg. do 3 apply Contains_append_r. apply Contains_refl.
Qed.

Lemma http_error_reports_status_and_body_witness :
  fst (_make_request plain_py sample_client (VStr "GET")
         (VStr "v1/programs/none") no_kwargs (connected not_found))
  = Raise (Exn IntigritiAPIError "API request failed: 404 - no such program").
Proof.
  refine (f_equal fst
            (proj1 (http_error_reports_status_and_body plain_py sample_client
                      (VStr "GET") "v1/programs/none" no_kwargs
                      (connected not_found)
                      "https://api.intigriti.com/external/researcher/v1/programs/none"
                      not_found eq_refl eq_refl _ _ _)));
    simpl; lia.
Defined.

(** X2.  When the HTTP client fails with a [RequestError] (no response at
    all), [_make_request] raises [IntigritiAPIError] with the message
    [Network error: cause], after the one attempt and one log record. *)
Theorem transport_failure_is_network_error py self method path kwargs w url
  cause :
  request_url py self path = inr url ->
  network w (requests w) (request_of self method url kwargs)
  = Failed (Exn RequestError cause) ->
  _make_request py self method (VStr path) kwargs w
  = (Raise (Exn IntigritiAPIError ("Network error: " ++ cause)),
     with_log (with_request w (request_of self method url kwargs))
       ("Request error: " ++ cause)).
Proof.
  intros Hu Hnet. rewrite (make_request_sent _ _ _ _ _ _ _ Hu). cbv zeta.
  now rewrite Hnet.
Qed.

Lemma transport_failure_is_network_error_witness :
  fst (_make_request plain_py sample_client (VStr "GET") (VStr "v1/programs")
         no_kwargs unreachable)
  = Raise (Exn IntigritiAPIError "Network error: connection refused").
Proof.
  now rewrite (transport_failure_is_network_error plain_py sample_client
                 (VStr "GET") "v1/programs" no_kwargs unreachable
                 "https://api.intigriti.com/external/researcher/v1/programs"
                 "connection refused" eq_refl eq_refl).
Defined.

(** X3.  A response with a status in 200..299 makes [_make_request] return
    what [response.json()] yields, after one request and without a log
    record; when the body is not JSON the [ValueError] of the decoder leaves
    [_make_request] as it is, not as an [IntigritiAPIError]. *)
Theorem success_returns_decoded_body py self method path kwargs w url r :
  request_url py self path = inr url ->
  network w (requests w) (request_of self method url kwargs) = Responded r ->
  200 <= status_code r <= 299 ->
  _make_request py self method (VStr path) kwargs w
  = (match json r with
     | inr v => Ok v
     | inl msg => Raise (Exn ValueError msg)
     end,
     with_request w (request_of self method url kwargs)).
Proof.
  intros Hu Hnet Hst. rewrite (make_request_sent _ _ _ _ _ _ _ Hu). cbv zeta.
  rewrite Hnet.
  replace (status_code r =? 429)%Z with false by (symmetry; lia).
  replace (status_code r =? 401)%Z with false by (symmetry; lia).
  replace ((200 <=? status_code r)%Z && (status_code r <=? 299)%Z)
    with true by (symmetry; apply andb_true_iff; lia).
  destruct (json r); reflexivity.
Qed.

Lemma success_returns_decoded_body_witness :
  fst (_make_request plain_py sample_client (VStr "GET") (VStr "v1/programs")
         no_kwargs (connected programs_page))
  = Ok (VDict [("maxCount", VInt 42); ("records", VList [])]).
Proof.
  rewrite (success_returns_decoded_body plain_py sample_client (VStr "GET")
             "v1/programs" no_kwargs (connected programs_page)
             "https://api.intigriti.com/external/researcher/v1/programs"
             programs_page eq_refl eq_refl); [reflexivity | simpl; lia].
Defined.

(** X4.  Whatever the method, the endpoint (text or not), the arguments and
    the answer of the remote service, no [httpx.HTTPStatusError] and no
    [httpx.RequestError] leaves [_make_request]; it makes at most one request
    and writes at most one log record, and it writes one only when it raises
    [IntigritiAPIError]. *)
Theorem httpx_errors_never_escape py self method endpoint kwargs w :
  let out := _make_request py self method endpoint kwargs w in
  (forall e, fst out = Raise e -> is_httpx_error e = false)
  /\ api_client (snd out) = api_client w
  /\ grows 1 1 w (snd out)
  /\ (logged (snd out) <> logged w ->
      exists msg, fst out = Raise (Exn IntigritiAPIError msg)).
Proof.
  cbv zeta.
  destruct (make_request_effect py self method endpoint kwargs w)
    as (Hc & G & Hl).
  split; [|split; [exact Hc|split; [exact G|]]].
  - destruct (is_text endpoint) eqn:Et.
    + destruct endpoint as [| | | |path| |]; try discriminate.
      rewrite make_request_run.
      destruct (request_url py self path) as [msg | url];
        [now intros e [= <-]|].
      cbv zeta.
      destruct (network w (requests w) _) as [r | e'].
      * destruct (status_code r =? 429)%Z; [now intros e [= <-]|].
        destruct (status_code r =? 401)%Z; [now intros e [= <-]|].
        destruct ((200 <=? status_code r)%Z && (status_code r <=? 299)%Z).
        -- destruct (json r); simpl; intros e H; [now injection H as <-|].
           discriminate.
        -- now intros e [= <-].
      * destruct e' as [[] msg | msg r]; now intros e [= <-].
    + rewrite make_request_not_text by exact Et. now intros e [= <-].
  - intros Hneq. destruct Hl as [(_ & _ & reqs & logs & _ & Hlog & _ & Hlen)|H];
      [|exact H].
    destruct logs; [|simpl in Hlen; lia].
    rewrite List.app_nil_r in Hlog. contradiction.
Qed.

(** X5.  A client built by the constructor puts three headers on every
    request it makes: [Authorization] with [Bearer] and its token,
    [Content-Type: application/json] and the fixed [User-Agent]; the token
    is not empty, it is the explicit one when that is given and not empty,
    and the one of the environment otherwise; building the client leaves the
    process state as it was. *)
Theorem built_client_authenticates py base token w c w' method path kwargs w2
  url :
  IntigritiResearcherAPI base token w = (Ok c, w') ->
  request_url py c path = inr url ->
  let req := request_of c method url kwargs in
  w' = w
  /\ api_token c <> ""
  /\ (token = Some (api_token c)
      \/ environ w "INTIGRITI_API_TOKEN" = Some (api_token c))
  /\ (forall t, token = Some t -> t <> "" -> api_token c = t)
  /\ requests (snd (_make_request py c method (VStr path) kwargs w2))
     = (requests w2 ++ [req])%list
  /\ req_headers req
     = [("Authorization", "Bearer " ++ api_token c);
        ("Content-Type", "application/json");
        ("User-Agent", "IntigritiMCPServer/1.0")]
  /\ headers_get (req_headers req) "authorization" "" = "Bearer " ++ api_token c.
Proof.
  intros Hinit Hu req.
  assert (H : w' = w /\ api_token c <> ""
              /\ (token = Some (api_token c)
                  \/ environ w "INTIGRITI_API_TOKEN" = Some (api_token c))
              /\ (forall t, token = Some t -> t <> "" -> api_token c = t)
              /\ client_headers c
                 = [("Authorization", "Bearer " ++ api_token c);
                    ("Content-Type", "application/json");
                    ("User-Agent", "IntigritiMCPServer/1.0")]).
  { revert Hinit. unfold IntigritiResearcherAPI. run.
    destruct token as [[|a t]|]; simpl.
    - destruct (environ w _) as [[|b u]|] eqn:E; simpl; intros [= <- <-];
        simpl; repeat split; try discriminate; auto.
      intros t [= <-] Ht. contradiction.
    - intros [= <- <-]. simpl. repeat split; try discriminate; auto.
      now intros t' [= <-] _.
    - destruct (environ w _) as [[|b u]|] eqn:E; simpl; intros [= <- <-];
        simpl; repeat split; try discriminate; auto. }
  destruct H as (Hw & Hne & Hsrc & Hexp & Hh).
  repeat split; try assumption.
  - now apply make_request_once.
  - unfold req, request_of. simpl. rewrite Hh. reflexivity.
Qed.

Lemma built_client_authenticates_witness :
  exists c,
    IntigritiResearcherAPI default_base_url None (configured programs_page)
    = (Ok c, configured programs_page)
    /\ headers_get
         (req_headers
            (request_of c (VStr "GET")
               "https://api.intigriti.com/external/researcher/v1/programs"
               no_kwargs))
         "authorization" ""
       = "Bearer secret".
Proof.
  eexists. split; [reflexivity|].
  exact (proj2 (proj2 (proj2 (proj2 (proj2 (proj2
           (built_client_authenticates plain_py default_base_url None
              (configured programs_page) _ _ (VStr "GET") "v1/programs"
              no_kwargs (configured programs_page)
              "https://api.intigriti.com/external/researcher/v1/programs"
              eq_refl eq_refl))))))).
Defined.

(** X6.  The constructor strips the slashes at the end of the base URL: the
    base URL of a built client never ends with a slash, and a base URL given
    with one more slash at its end builds the same client. *)
Theorem base_url_trailing_slashes_are_dropped base token w :
  IntigritiResearcherAPI (base ++ "/") token w
  = IntigritiResearcherAPI base token w
  /\ (forall c w', IntigritiResearcherAPI base token w = (Ok c, w') ->
      base_url c = rstrip "/" base
      /\ forall s, base_url c <> s ++ "/").
Proof.
  split.
  - unfold IntigritiResearcherAPI.
    change (base ++ "/") with (base ++ String "/" "").
    now rewrite rstrip_snoc.
  - intros c w' Hinit.
    assert (Hb : base_url c = rstrip "/" base).
    { revert Hinit. unfold IntigritiResearcherAPI. run.
      destruct token as [[|a t]|]; simpl;
        try (destruct (environ w _) as [[|b u]|]; simpl);
        intros [= <- <-]; reflexivity. }
    split; [exact Hb|]. intros s. rewrite Hb. apply rstrip_no_trailing.
Qed.

Lemma base_url_trailing_slashes_are_dropped_witness :
  exists c,
    IntigritiResearcherAPI "https://api.intigriti.com/external/researcher///"
      (Some "secret") unconfigured = (Ok c, unconfigured)
    /\ base_url c = default_base_url.
Proof.
  eexists. split; [reflexivity|].
  exact (proj1 (proj2 (base_url_trailing_slashes_are_dropped
                         "https://api.intigriti.com/external/researcher///"
                         (Some "secret") unconfigured) _ _ eq_refl)).
Defined.

(** X7.  With an http or https base URL of plain host and path (an ASCII
    host without brackets), and identifiers that are plain path segments,
    the three methods for one program each make one GET request, without
    query and without body, to base/v1/programs/id,
    base/v1/programs/id/domains/version and
    base/v1/programs/id/rules-of-engagements/version. *)
Theorem program_requests_go_under_the_base str_repr py self sch host bsegs pid
  vid w :
  base_url self = Url.base_of sch host bsegs ->
  Url.plain_base sch host bsegs = true ->
  Url.plain_segment pid = true -> Url.plain_segment vid = true ->
  let get url := mkRequest (VStr "GET") url (client_headers self) None None in
  let details := base_url self ++ "/v1/programs/" ++ pid in
  let domains := base_url self ++ "/v1/programs/" ++ pid ++ "/domains/" ++ vid in
  let rules :=
    base_url self ++ "/v1/programs/" ++ pid ++ "/rules-of-engagements/"
    ++ vid in
  requests (snd (get_program_details str_repr py self (VStr pid) w))
  = (requests w ++ [get details])%list
  /\ requests
       (snd (get_program_domains str_repr py self (VStr pid) (VStr vid) w))
     = (requests w ++ [get domains])%list
  /\ requests
       (snd (get_program_rules_of_engagement str_repr py self (VStr pid)
               (VStr vid) w))
     = (requests w ++ [get rules])%list.
Proof.
  intros Hb Hbase Hp Hv get details domains rules.
  assert (U : forall segs, Url.plain_path segs = true ->
                request_url py self (join "/" segs)
                = inr (base_url self ++ "/" ++ join "/" segs))
    by (intros segs; now apply request_url_plain with sch host bsegs).
  split; [|split].
  - unfold get_program_details. simpl py_str.
    change ("v1/programs/" ++ pid) with (join "/" ["v1"; "programs"; pid]).
    rewrite (make_request_once _ _ _ _ _ _ _
               (U ["v1"; "programs"; pid] ltac:(simpl; now rewrite Hp))).
    reflexivity.
  - unfold get_program_domains. simpl py_str.
    change ("v1/programs/" ++ pid ++ "/domains/" ++ vid)
      with (join "/" ["v1"; "programs"; pid; "domains"; vid]).
    rewrite (make_request_once _ _ _ _ _ _ _
               (U ["v1"; "programs"; pid; "domains"; vid]
                  ltac:(simpl; now rewrite Hp, Hv))).
    reflexivity.
  - unfold get_program_rules_of_engagement. simpl py_str.
    change ("v1/programs/" ++ pid ++ "/rules-of-engagements/" ++ vid)
      with (join "/" ["v1"; "programs"; pid; "rules-of-engagements"; vid]).
    rewrite (make_request_once _ _ _ _ _ _ _
               (U ["v1"; "programs"; pid; "rules-of-engagements"; vid]
                  ltac:(simpl; now rewrite Hp, Hv))).
    reflexivity.
Qed.

Lemma program_requests_go_under_the_base_witness :
  requests
    (snd (get_program_domains plain_repr plain_py sample_client (VStr "b7c1")
            (VStr "v2") (connected programs_page)))
  = [mkRequest (VStr "GET")
       "https://api.intigriti.com/external/researcher/v1/programs/b7c1/domains/v2"
       (client_headers sample_client) None None].
Proof.
  exact (proj1 (proj2 (program_requests_go_under_the_base plain_repr plain_py
                         sample_client "https" "api.intigriti.com"
                         ["external"; "researcher"] "b7c1" "v2"
                         (connected programs_page) eq_refl eq_refl eq_refl
                         eq_refl))).
Defined.

(** X8.  An endpoint that is itself an absolute http or https URL (an ASCII
    host without brackets, a plain path) is requested as it stands, whatever
    the base URL of the client, as long as [urlparse] accepts that base URL:
    the base URL plays no other part, and the request still carries the
    headers of the client, the bearer token among them. *)
Theorem absolute_endpoint_is_requested_as_is py self method sch host segs
  kwargs w b :
  Url.urlparse py (base_url self ++ "/") "" = inr b ->
  Url.plain_base sch host segs = true ->
  requests
    (snd (call_endpoint py self method (VStr (Url.base_of sch host segs))
            kwargs w))
  = (requests w
     ++ [mkRequest method (Url.base_of sch host segs) (client_headers self)
           (kw_params kwargs) (kw_json kwargs)])%list.
Proof.
  intros Hb Hbase. unfold call_endpoint.
  now rewrite (make_request_once _ _ _ _ _ _ _
                 (request_url_absolute py self sch host segs b Hb Hbase)).
Qed.

Lemma absolute_endpoint_is_requested_as_is_witness :
  requests
    (snd (call_endpoint plain_py sample_client (VStr "POST")
            (VStr "https://example.org/collect") no_kwargs
            (connected programs_page)))
  = [mkRequest (VStr "POST") "https://example.org/collect"
       [("Authorization", "Bearer secret");
        ("Content-Type", "application/json");
        ("User-Agent", "IntigritiMCPServer/1.0")] None None].
Proof.
  exact (absolute_endpoint_is_requested_as_is plain_py sample_client
           (VStr "POST") "https" "example.org" ["collect"] no_kwargs
           (connected programs_page)
           (Url.mkParse "https" "api.intigriti.com" "/external/researcher/"
              "" "" "")
           eq_refl eq_refl).
Defined.



(** X10.  Every call of [call_tool], for every name, every argument mapping
    and every process state, returns exactly one content block, of type
    [text]; it makes at most one request and writes at most one log record,
    and it changes neither the environment nor the remote service. *)
Theorem tool_call_is_one_text_and_one_request str_repr py name arguments w :
  let out := call_tool str_repr py name arguments w in
  (exists t, fst out = Ok [mkTextContent "text" t])
  /\ grows 1 1 w (snd out).
Proof.
  cbv zeta. destruct (api_client w) as [c|] eqn:Hc.
  - rewrite (call_tool_connected _ _ _ _ _ _ Hc).
    destruct (guarded_call_effect str_repr py c name arguments w) as (H & _ & G).
    split; assumption.
  - destruct (token_or_not w) as [(t & Ht) | Ht].
    + rewrite (call_tool_fresh _ _ _ _ _ _ Hc Ht).
      destruct (guarded_call_effect str_repr py (client_for t) name arguments
                  (with_client w (client_for t))) as (H & _ & G).
      split; [exact H|]. exact (grows_with_client _ _ _ _ _ G).
    + rewrite (call_tool_unconfigured _ _ _ _ _ Hc Ht). cbn [fst snd].
      split; [eexists; reflexivity|].
      apply grows_weaken with 0%nat 0%nat; try lia. apply grows_refl.
Qed.

(** X11.  The client is a singleton of the process.  A client that exists
    is the one [call_tool] and [read_resource] leave behind; when there is
    none and the environment holds a token, both handlers store the client
    built from the default base URL and that token, whatever the tool name or
    the URI and whether the call then succeeds or not; when there is none
    and no token, none is stored. *)
Theorem client_is_built_once str_repr py name arguments uri w :
  let w1 := snd (call_tool str_repr py name arguments w) in
  let w2 := snd (read_resource str_repr py uri w) in
  (forall c, api_client w = Some c ->
     api_client w1 = Some c /\ api_client w2 = Some c)
  /\ (forall t, api_client w = None -> has_token w t ->
        api_client w1 = Some (client_for t)
        /\ api_client w2 = Some (client_for t))
  /\ (api_client w = None -> no_token w ->
        api_client w1 = None /\ api_client w2 = None).
Proof.
  cbv zeta. split; [|split].
  - intros c Hc.
    rewrite (call_tool_connected _ _ _ _ _ _ Hc),
      (read_resource_connected _ _ _ _ _ Hc).
    destruct (guarded_call_effect str_repr py c name arguments w) as (_ & H & _).
    destruct (serve_resource_effect str_repr py c uri w) as (H' & _).
    rewrite H, H'. auto.
  - intros t Hc Ht.
    rewrite (call_tool_fresh _ _ _ _ _ _ Hc Ht),
      (read_resource_fresh _ _ _ _ _ Hc Ht).
    destruct (guarded_call_effect str_repr py (client_for t) name arguments
                (with_client w (client_for t))) as (_ & H & _).
    destruct (serve_resource_effect str_repr py (client_for t) uri
                (with_client w (client_for t))) as (H' & _).
    rewrite H, H'. auto.
  - intros Hc Ht.
    rewrite (call_tool_unconfigured _ _ _ _ _ Hc Ht),
      (read_resource_unconfigured _ _ _ _ Hc Ht). auto.
Qed.

Lemma client_is_built_once_witness :
  api_client (snd (call_tool plain_repr plain_py "no_such_tool" []
                     (configured programs_page)))
  = Some sample_client
  /\ api_client (snd (read_resource plain_repr plain_py "intigriti://api/unknown"
                        (configured programs_page)))
     = Some sample_client.
Proof.
  refine (proj1 (proj2
    (client_is_built_once plain_repr plain_py "no_such_tool" []
       "intigriti://api/unknown" (configured programs_page)))
    "secret" eq_refl _).
  split; [reflexivity | discriminate].
Defined.



(** X13.  The catalog and the handler agree: the six names [list_tools]
    declares are distinct, a name reaches an API call in [call_tool] exactly
    when the catalog declares it, and every name a schema lists under
    [required] is one of the properties the schema declares. *)
Theorem catalog_matches_dispatch str_repr py c name arguments :
  NoDup (map tool_name list_tools)
  /\ (dispatch str_repr py c name arguments <> None
      <-> In name (map tool_name list_tools))
  /\ (forall t k, In t list_tools ->
        In k (schema_required (inputSchema t)) ->
        schema_field (inputSchema t) k "type" <> None).
Proof.
  split; [|split].
  - repeat constructor; simpl; intuition discriminate.
  - split.
    + destruct (dispatch str_repr py c name arguments) as [call|] eqn:D;
        [|intros H; now elim H].
      intros _. exact (dispatch_cases _ _ _ _ _ _ D).
    + intros Hin. simpl in Hin.
      destruct Hin as [<-|[<-|[<-|[<-|[<-|[<-|[]]]]]]];
        cbv [dispatch String.eqb Ascii.eqb Bool.eqb]; discriminate.
  - intros t k Hin Hk. simpl in Hin.
    destruct Hin as [<-|[<-|[<-|[<-|[<-|[<-|[]]]]]]];
      vm_compute in Hk; intuition (subst; vm_compute; discriminate).
Qed.



(** X15.  No resource can be read without a token: with no client built and
    no usable token in the environment, [read_resource] raises the
    [ValueError] of the constructor for every URI, the static list of
    endpoints and unknown URIs included, and leaves the process state as it
    was. *)
Theorem resources_need_a_token str_repr py uri w :
  api_client w = None -> no_token w ->
  read_resource str_repr py uri w = (Raise (Exn ValueError token_message), w).
Proof. intros Hc Ht. exact (read_resource_unconfigured _ _ _ _ Hc Ht). Qed.

Lemma resources_need_a_token_witness :
  read_resource plain_repr plain_py "intigriti://api/endpoints" unconfigured
  = (Raise (Exn ValueError token_message), unconfigured).
Proof.
  apply (resources_need_a_token plain_repr plain_py "intigriti://api/endpoints"
           unconfigured); [reflexivity | now left].
Defined.



(** X17.  The URIs [list_resources] declares are the ones [read_resource]
    serves.  With a client at hand, a URI outside the list raises
    [ValueError] with the message [Unknown resource:] and the URI, without a
    request; a URI of the list gives a text.  The comparison is exact: the
    client is built, and stored, before the URI is looked at. *)
Theorem unknown_resource_is_rejected str_repr py uri w :
  (forall c, api_client w = Some c ->
     ~ In uri (map resource_uri list_resources) ->
     read_resource str_repr py uri w
     = (Raise (Exn ValueError ("Unknown resource: " ++ uri)), w))
  /\ (forall t, api_client w = None -> has_token w t ->
        ~ In uri (map resource_uri list_resources) ->
        read_resource str_repr py uri w
        = (Raise (Exn ValueError ("Unknown resource: " ++ uri)),
           with_client w (client_for t)))
  /\ (forall c, api_client w = Some c ->
        In uri (map resource_uri list_resources) ->
        exists t, fst (read_resource str_repr py uri w) = Ok t).
Proof.
  assert (Hout : forall c w0,
            ~ In uri (map resource_uri list_resources) ->
            serve_resource str_repr py c uri w0
            = (Raise (Exn ValueError ("Unknown resource: " ++ uri)), w0)).
  { intros c w0 Hn. unfold serve_resource.
    destruct (String.eqb_spec uri status_uri) as [-> | _];
      [elim Hn; simpl; tauto|].
    destruct (String.eqb_spec uri endpoints_uri) as [-> | _];
      [elim Hn; simpl; tauto|].
    reflexivity. }
  split; [|split].
  - intros c Hc Hn. rewrite (read_resource_connected _ _ _ _ _ Hc). now apply Hout.
  - intros t Hc Ht Hn. rewrite (read_resource_fresh _ _ _ _ _ Hc Ht).
    now apply Hout.
  - intros c Hc Hin. rewrite (read_resource_connected _ _ _ _ _ Hc).
    simpl in Hin. destruct Hin as [<- | [<- | []]].
    + unfold serve_resource.
      change (String.eqb "intigriti://api/status" status_uri) with true.
      cbv iota.
      match goal with
      | |- context [try_except ?m ?h w] =>
          destruct (try_except_total m h w) as (a & w' & ->)
      end.
      * intros e w1. eexists; eexists; eexists. split; reflexivity.
      * now exists a.
    + eexists. reflexivity.
Qed.

Lemma unknown_resource_is_rejected_witness :
  read_resource plain_repr plain_py "intigriti://api/Status" (connected programs_page)
  = (Raise (Exn ValueError "Unknown resource: intigriti://api/Status"),
     connected programs_page).
Proof.
  apply (proj1 (unknown_resource_is_rejected plain_repr plain_py
                  "intigriti://api/Status" (connected programs_page))
           sample_client eq_refl).
  simpl. intros [H | [H | []]]; discriminate H.
Defined.



(** X19.  What the catalog declares for [limit] and [offset] is what the
    handler applies.  For every tool whose schema gives [limit] a default
    and a maximum and [offset] a default, a call with an integer [limit], or
    with none, sends one request whose [limit] is the smaller of the limit
    asked for (the declared default when absent) and the declared maximum,
    and whose [offset] is the argument or the declared default; the declared
    minimum is not applied, a negative limit is sent as it is.  (The request
    is made once [urljoin] has built its URL from the base URL of the
    client.) *)
Theorem declared_limit_bounds_are_applied str_repr py c w t arguments d m o
  url url' :
  In t list_tools ->
  schema_field (inputSchema t) "limit" "default" = Some (VInt d) ->
  schema_field (inputSchema t) "limit" "maximum" = Some (VInt m) ->
  schema_field (inputSchema t) "offset" "default" = Some o ->
  api_client w = Some c ->
  request_url py c "v1/programs" = inr url ->
  request_url py c "v1/programs/activities" = inr url' ->
  (dict_lookup "limit" arguments = None
   \/ exists n, dict_lookup "limit" arguments = Some (VInt n)) ->
  exists req params,
    requests (snd (call_tool str_repr py (tool_name t) arguments w))
    = (requests w ++ [req])%list
    /\ req_params req = Some (VDict params)
    /\ dict_lookup "limit" params
       = Some (VInt (Z.min (match dict_lookup "limit" arguments with
                            | Some (VInt n) => n
                            | _ => d
                            end) m))
    /\ dict_lookup "offset" params = Some (dict_get arguments "offset" o).
Proof.
  intros Hin Hd Hm Ho Hc Hu Hu' Hl.
  rewrite (call_tool_connected _ _ _ _ _ _ Hc).
  assert (Hlim : dict_get arguments "limit" (VInt 20)
                 = VInt (match dict_lookup "limit" arguments with
                         | Some (VInt n) => n
                         | _ => 20
                         end)).
  { unfold dict_get. destruct Hl as [-> | (n & ->)]; reflexivity. }
  simpl in Hin.
  destruct Hin as [<-|[<-|[<-|[<-|[<-|[<-|[]]]]]]];
    cbn [tool_name inputSchema] in *;
    vm_compute in Hd; try discriminate Hd;
    vm_compute in Hm; vm_compute in Ho;
    injection Hd as <-; injection Hm as <-; injection Ho as <-.
  - rewrite (guarded_call_requests str_repr py c "get_programs" arguments _ w
               eq_refl).
    rewrite Hlim.
    set (n := match dict_lookup "limit" arguments with
              | Some (VInt n) => n
              | _ => 20
              end).
    change (Some (VInt n)) with (option_map VInt (Some n)).
    rewrite get_programs_int, (make_request_once _ _ _ _ _ _ _ Hu).
    eexists; eexists. split; [reflexivity|]. split; [reflexivity|].
    match goal with
    | |- context [programs_params ?a ?b ?f ?l ?x] =>
        destruct (programs_params_lookup a b f l x) as (H1 & H2 & _)
    end.
    split; [exact H1 | exact H2].
  - rewrite (guarded_call_requests str_repr py c "get_program_activities"
               arguments _ w eq_refl).
    rewrite Hlim.
    set (n := match dict_lookup "limit" arguments with
              | Some (VInt n) => n
              | _ => 20
              end).
    change (Some (VInt n)) with (option_map VInt (Some n)).
    rewrite get_program_activities_int, (make_request_once _ _ _ _ _ _ _ Hu').
    eexists; eexists. split; [reflexivity|]. split; [reflexivity|].
    match goal with
    | |- context [activities_params ?a ?f ?l ?x] =>
        destruct (activities_params_lookup a f l x) as (H1 & H2 & _)
    end.
    split; [exact H1 | exact H2].
Qed.

Lemma declared_limit_bounds_are_applied_witness :
  exists req params,
    requests (snd (call_tool plain_repr plain_py "get_programs"
                     [("limit", VInt 9000)] (connected programs_page)))
    = [req]
    /\ req_params req = Some (VDict params)
    /\ dict_lookup "limit" params = Some (VInt 500)
    /\ dict_lookup "offset" params = Some (VInt 0).
Proof.
  apply (declared_limit_bounds_are_applied plain_repr plain_py sample_client
           (connected programs_page) (nth 0 list_tools (mkTool "" "" VNone))
           [("limit", VInt 9000)] 20 500 (VInt 0)
           "https://api.intigriti.com/external/researcher/v1/programs"
           "https://api.intigriti.com/external/researcher/v1/programs/activities").
  - simpl. tauto.
  - reflexivity.
  - reflexivity.
  - reflexivity.
  - reflexivity.
  - reflexivity.
  - reflexivity.
  - right. now exists 9000.
Defined.

(** X20.  How the arguments of the two listing tools become the query of
    the request that goes out.  The filters are renamed ([status_id] to
    [statusId], [type_id] to [typeId], [created_since] to [createdSince]) and
    sent with the value given, a false or a zero included; a filter that is
    absent or an explicit null is left out; and the query holds no other key
    than [limit], [offset] and the filters: any further argument is ignored.
    (The request, a [GET] without body, is made once [urljoin] has built its
    URL; the limit is an integer or absent.) *)
Theorem tool_arguments_become_the_query str_repr py c w arguments url url' :
  api_client w = Some c ->
  request_url py c "v1/programs" = inr url ->
  request_url py c "v1/programs/activities" = inr url' ->
  (dict_lookup "limit" arguments = None
   \/ exists n, dict_lookup "limit" arguments = Some (VInt n)) ->
  let sent := fun k => match dict_lookup k arguments with
                       | Some VNone => None
                       | given => given
                       end in
  (exists params,
     requests (snd (call_tool str_repr py "get_programs" arguments w))
     = (requests w
        ++ [mkRequest (VStr "GET") url (client_headers c)
              (Some (VDict params)) None])%list
     /\ dict_lookup "statusId" params = sent "status_id"
     /\ dict_lookup "typeId" params = sent "type_id"
     /\ dict_lookup "following" params = sent "following"
     /\ forall k, dict_lookup k params <> None ->
          In k ["limit"; "offset"; "statusId"; "typeId"; "following"])
  /\ (exists params,
        requests
          (snd (call_tool str_repr py "get_program_activities" arguments w))
        = (requests w
           ++ [mkRequest (VStr "GET") url' (client_headers c)
                 (Some (VDict params)) None])%list
        /\ dict_lookup "createdSince" params = sent "created_since"
        /\ dict_lookup "following" params = sent "following"
        /\ forall k, dict_lookup k params <> None ->
             In k ["limit"; "offset"; "createdSince"; "following"]).
Proof.
  intros Hc Hu Hu' Hl. cbv zeta.
  rewrite !(call_tool_connected _ _ _ _ _ _ Hc).
  assert (Hlim : dict_get arguments "limit" (VInt 20)
                 = VInt (match dict_lookup "limit" arguments with
                         | Some (VInt n) => n
                         | _ => 20
                         end)).
  { unfold dict_get. destruct Hl as [-> | (n & ->)]; reflexivity. }
  split.
  - rewrite (guarded_call_requests str_repr py c "get_programs" arguments _ w
               eq_refl).
    rewrite Hlim.
    set (n := match dict_lookup "limit" arguments with
              | Some (VInt n) => n
              | _ => 20
              end).
    change (Some (VInt n)) with (option_map VInt (Some n)).
    rewrite get_programs_int, (make_request_once _ _ _ _ _ _ _ Hu).
    eexists. split; [reflexivity|].
    match goal with
    | |- context [programs_params ?a ?b ?f ?l ?x] =>
        destruct (programs_params_lookup a b f l x) as (_ & _ & H3 & H4 & H5);
        pose proof (programs_params_keys a b f l x) as Hk
    end.
    cbn [arg] in *. rewrite filter_sent in H3, H4, H5.
    repeat split; assumption.
  - rewrite (guarded_call_requests str_repr py c "get_program_activities"
               arguments _ w eq_refl).
    rewrite Hlim.
    set (n := match dict_lookup "limit" arguments with
              | Some (VInt n) => n
              | _ => 20
              end).
    change (Some (VInt n)) with (option_map VInt (Some n)).
    rewrite get_program_activities_int, (make_request_once _ _ _ _ _ _ _ Hu').
    eexists. split; [reflexivity|].
    match goal with
    | |- context [activities_params ?a ?f ?l ?x] =>
        destruct (activities_params_lookup a f l x) as (_ & _ & H3 & H4);
        pose proof (activities_params_keys a f l x) as Hk
    end.
    cbn [arg] in *. rewrite filter_sent in H3, H4.
    repeat split; assumption.
Qed.

Lemma tool_arguments_become_the_query_witness :
  exists params,
    requests
      (snd (call_tool plain_repr plain_py "get_programs"
              [("following", VBool false); ("status_id", VNone);
               ("verbose", VBool true)]
              (connected programs_page)))
    = [mkRequest (VStr "GET")
         "https://api.intigriti.com/external/researcher/v1/programs"
         (client_headers sample_client) (Some (VDict params)) None]
    /\ dict_lookup "statusId" params = None
    /\ dict_lookup "typeId" params = None
    /\ dict_lookup "following" params = Some (VBool false)
    /\ forall k, dict_lookup k params <> None ->
         In k ["limit"; "offset"; "statusId"; "typeId"; "following"].
Proof.
  exact (proj1 (tool_arguments_become_the_query plain_repr plain_py
                  sample_client (connected programs_page)
                  [("following", VBool false); ("status_id", VNone);
                   ("verbose", VBool true)]
                  "https://api.intigriti.com/external/researcher/v1/programs"
                  "https://api.intigriti.com/external/researcher/v1/programs/activities"
                  eq_refl eq_refl eq_refl (or_introl eq_refl))).
Defined.

End FurtherProperties.
